(** * Employee records service: the two entry points [app.js] and [server.js]

    A shallow embedding of the request handlers of the two entry points of
    the repository and of the fragment of their collaborators (the JavaScript
    runtime, Express, Multer, Mongoose) that the handlers rely on.

    - [app.js] keeps the image inside the record (a [Buffer] plus its
      content type): the _Inline_ variant, module [App].
    - [server.js] writes the image to the [uploads] directory and keeps a
      path in the record: the _External_ variant, module [Server].

    Conventions of the model.
    - A JavaScript string is represented by the sequence of its UTF-8 bytes
      (a Rocq [string]); [Buffer.from(s)] and [buf.toString()] are then the
      two directions of [list_byte_of_string].
    - Numbers are [NaN], an infinity or an integer-valued double ([Z]):
      a decimal literal, a difference and a product are rounded to the
      nearest double (ties to even, an infinity on overflow), and
      [Math.ceil] is taken of the rounded quotient.  Fractional values
      other than that quotient and the sign of zero are outside the model.
    - The persistence backend is reliable: it fails only for the reasons
      written out below (a cast or validation error, an illegal cursor
      argument, a change of [_id]).  Documents carry the paths declared in
      the schema; the version key of the ODM is not tracked.
    - [async]/[await] is sequential composition: one handler runs at a time. *)

From Stdlib Require Import ZArith String Ascii List DecimalString Decimal DecimalZ Lia.
From Stdlib.Strings Require Import Byte.
From stdpp Require Import gmap strings list fin_maps.

Local Open Scope string_scope.
Local Open Scope list_scope.
Local Open Scope Z_scope.

(** ** The JavaScript runtime fragment *)

Module JS.

(** A number: [NaN], [Infinity] or [-Infinity], or an integer. *)
Inductive jsnum :=
| NaN
| Inf (negative : bool)
| Int (z : Z).

(** The values that flow through the handlers into documents:
    [undefined], [null], a string, a [Buffer], a valid [Date] (its time
    value in milliseconds since the epoch). *)
Inductive jsval :=
| VUndef
| VNull
| VStr (s : string)
| VBuf (b : list byte)
| VDate (t : Z).

(** What a variable bound from [req.query] (with a destructuring default)
    can hold: [undefined], a string taken from the URL, or a number. *)
Inductive prim :=
| PUndef
| PStr (s : string)
| PNum (n : jsnum).

#[global] Instance jsnum_eq_dec : EqDecision jsnum.
Proof. solve_decision. Defined.

#[global] Instance byte_eq_dec : EqDecision byte.
Proof. intros x y. destruct (Byte.eqb x y) eqn:E.
  - left. by apply Byte.byte_dec_bl.
  - right. intros ->. by rewrite (Byte.byte_dec_lb eq_refl) in E.
Defined.

#[global] Instance jsval_eq_dec : EqDecision jsval.
Proof. solve_decision. Defined.

(** The parts of the engine that are not written out here.  Every handler
    is parametric in them. *)
Record runtime := {
  (** [Number(s)] on a string that is neither empty nor a signed decimal
      integer literal, and has no sign after a digit (white space,
      fractions, exponents, radix prefixes, words). *)
  number_other : string → jsnum;
  (** [parseInt(s)] on such a string. *)
  parseInt_other : string → jsnum;
  (** [parseInt(n)] on a number from [10^21] on, which [String(n)] writes
      in exponent notation. *)
  parseInt_exponent : Z → jsnum;
  (** [Date.parse(s)] on a string that is not a date-only ISO literal
      [YYYY-MM-DD], or is one with a month or day out of range and a year
      in 0001..0031: the engine's legacy parser.  [None] is [NaN]. *)
  date_other : string → option Z;
  (** [String(d)] for a [Date] (depends on the locale and time zone). *)
  date_toString : Z → string;
  (** Mongoose's cast of a string to an [ObjectId]; [None] is a cast error. *)
  castObjectId : string → option N;
}.

(** *** Truthiness *)

Definition truthy_str (s : string) : bool := negb (String.eqb s "").

Definition truthy_num (n : jsnum) : bool :=
  match n with
  | NaN => false
  | Inf _ => true
  | Int z => negb (z =? 0)
  end.

Definition truthy (v : jsval) : bool :=
  match v with
  | VUndef | VNull => false
  | VStr s => truthy_str s
  | VBuf _ | VDate _ => true
  end.

(** [o.k] for an object whose own properties are the entries of a map of
    strings (a parsed form body or query string). *)
Definition prop (o : gmap string string) (k : string) : jsval :=
  match o !! k with
  | Some s => VStr s
  | None => VUndef
  end.

(** *** Numbers *)

(** A signed decimal integer literal: an optional [+] or [-] followed by
    one or more decimal digits. *)
Definition dec_literal (s : string) : option Z :=
  match s with
  | EmptyString => None
  | String c r =>
      if Ascii.eqb c "+" then Z.of_uint <$> NilZero.uint_of_string r
      else if Ascii.eqb c "-" then
        (λ d, - Z.of_uint d) <$> NilZero.uint_of_string r
      else Z.of_uint <$> NilZero.uint_of_string s
  end.

Definition is_digit (c : ascii) : bool :=
  let n := N_of_ascii c in ((48 <=? n) && (n <=? 57))%N.

Definition is_sign (c : ascii) : bool :=
  Ascii.eqb c "+" || Ascii.eqb c "-".

(** A sign that comes right after a decimal digit. *)
Fixpoint sign_after_digit (s : string) : bool :=
  match s with
  | String a ((String b _) as r) =>
      (is_digit a && is_sign b) || sign_after_digit r
  | _ => false
  end.

(** The decimal rendering of an integer, as [String(n)] gives it. *)
Definition dec (z : Z) : string := NilZero.string_of_int (Z.to_int z).

(** The double nearest to an integer: below [2^53] the integer itself,
    from there on the nearest number with a significand of 53 bits, ties
    going to the even significand; from [2^1024 - 2^970] on, an infinity. *)
Definition round_double (z : Z) : jsnum :=
  let a := Z.abs z in
  if a <? 2 ^ 53 then Int z
  else
    let e := Z.log2 a - 52 in
    let q := a / 2 ^ e in
    let r := a mod 2 ^ e in
    let m := if (2 ^ e <? 2 * r) || ((2 ^ e =? 2 * r) && Z.odd q)
             then q + 1 else q in
    if 2 ^ 1024 <=? m * 2 ^ e then Inf (z <? 0)
    else Int (Z.sgn z * (m * 2 ^ e)).

Section WithRuntime.
Context (rt : runtime).

(** [Number(s)] for a string: the empty string is [0]; a decimal literal
    is the double nearest to its value; a string in which a sign follows a
    decimal digit fits no numeric literal. *)
Definition StringToNumber (s : string) : jsnum :=
  if String.eqb s "" then Int 0
  else match dec_literal s with
       | Some z => round_double z
       | None => if sign_after_digit s then NaN else number_other rt s
       end.

(** [Number(v)] for a query value. *)
Definition ToNumber (p : prim) : jsnum :=
  match p with
  | PUndef => NaN
  | PStr s => StringToNumber s
  | PNum n => n
  end.

(** [parseInt(v)]: the argument is first converted to a string.  The
    digits that [String(n)] writes for an integer below [10^21] parse back
    to [n]; the digits of a string give the double nearest to their
    value. *)
Definition parseInt (p : prim) : jsnum :=
  match p with
  | PUndef => NaN
  | PNum (Int z) =>
      if Z.abs z <? 10 ^ 21 then Int z else parseInt_exponent rt z
  | PNum _ => NaN
  | PStr s =>
      if String.eqb s "" then NaN
      else match dec_literal s with
           | Some z => round_double z
           | None => parseInt_other rt s
           end
  end.

End WithRuntime.

(** [a - b]: the difference, rounded. *)
Definition sub (a b : jsnum) : jsnum :=
  match a, b with
  | NaN, _ | _, NaN => NaN
  | Int x, Int y => round_double (x - y)
  | Inf s, Inf s' => if bool_decide (s = s') then NaN else Inf s
  | Inf s, Int _ => Inf s
  | Int _, Inf s => Inf (negb s)
  end.

(** [a * b]: the product, rounded. *)
Definition mul (a b : jsnum) : jsnum :=
  match a, b with
  | NaN, _ | _, NaN => NaN
  | Int x, Int y => round_double (x * y)
  | Inf s, Inf s' => Inf (xorb s s')
  | Inf s, Int y | Int y, Inf s =>
      if y =? 0 then NaN else Inf (xorb s (y <? 0))
  end.

(** [⌈a / b⌉] for integers, [b ≠ 0]. *)
Definition ceil_div (a b : Z) : Z := - ((- a) / b).

(** The double nearest to the quotient [n / d] of two positive integers,
    as a significand [m] and an exponent [e]: its value is [m * 2 ^ e].
    The significand has 53 bits (fewer below [2^-1022], where the exponent
    stays at [-1074]); ties go to the even significand. *)
Definition div_double (n d : Z) : Z * Z :=
  let e0 := Z.log2 n - Z.log2 d - 52 in
  let scaled e := (n * 2 ^ Z.max 0 (- e)) / (d * 2 ^ Z.max 0 e) in
  let e := Z.max (if scaled e0 <? 2 ^ 52 then e0 - 1 else e0) (-1074) in
  let num := n * 2 ^ Z.max 0 (- e) in
  let den := d * 2 ^ Z.max 0 e in
  let q := num / den in
  let r := num mod den in
  (if (den <? 2 * r) || ((den =? 2 * r) && Z.odd q) then q + 1 else q, e).

(** [Math.ceil(a / b)]: the quotient is rounded to a double first, and
    [Math.ceil] is taken of that double.  A zero divisor is taken as
    [+0]. *)
Definition Math_ceil_div (a b : jsnum) : jsnum :=
  match a, b with
  | NaN, _ | _, NaN => NaN
  | Int x, Int y =>
      if y =? 0 then (if x =? 0 then NaN else Inf (x <? 0))
      else if x =? 0 then Int 0
      else
        let '(m, e) := div_double (Z.abs x) (Z.abs y) in
        let hi := m * 2 ^ Z.max 0 e in
        let lo := 2 ^ Z.max 0 (- e) in
        let negative := xorb (x <? 0) (y <? 0) in
        if 2 ^ 1024 * lo <=? hi then Inf negative
        else if negative then Int (- (hi / lo))
        else Int (ceil_div hi lo)
  | Inf _, Inf _ => NaN
  | Inf s, Int y => Inf (xorb s (y <? 0))
  | Int _, Inf _ => Int 0
  end.

(** *** Dates *)

Definition msPerDay : Z := 86400000.

(** Days from 1970-01-01 to the first day of month [m] (1..12) of year
    [y] in the proleptic Gregorian calendar. *)
Definition DaysFromYearMonth (y m : Z) : Z :=
  let y' := if m <=? 2 then y - 1 else y in
  let era := y' / 400 in
  let yoe := y' - era * 400 in
  let mp := if m <=? 2 then m + 9 else m - 3 in
  let doy := (153 * mp + 2) / 5 in
  era * 146097 + (yoe * 365 + yoe / 4 - yoe / 100 + doy) - 719468.

(** [MakeDay]: the day number of day [d] of month [m] of year [y]; a day
    beyond the end of the month runs on into the following months. *)
Definition MakeDay (y m d : Z) : Z := DaysFromYearMonth y m + d - 1.

Definition digit (c : ascii) : option Z :=
  if is_digit c then Some (Z.of_N (N_of_ascii c) - 48) else None.

(** The date-only ISO form [YYYY-MM-DD]: its three numbers. *)
Definition iso_date_only (s : string) : option (Z * Z * Z) :=
  match s with
  | String y1 (String y2 (String y3 (String y4 (String h1
      (String m1 (String m2 (String h2
      (String d1 (String d2 EmptyString))))))))) =>
      if Ascii.eqb h1 "-" && Ascii.eqb h2 "-" then
        a ← digit y1; b ← digit y2; c ← digit y3; e ← digit y4;
        f ← digit m1; g ← digit m2; h ← digit d1; i ← digit d2;
        Some (1000 * a + 100 * b + 10 * c + e, 10 * f + g, 10 * h + i)
      else None
  | _ => None
  end.

Definition IsMonth (m : Z) : bool := (1 <=? m) && (m <=? 12).
Definition IsDay (d : Z) : bool := (1 <=? d) && (d <=? 31).

(** [Date.parse(s)], the time value of [new Date(s)]; [None] is [NaN]
    (an Invalid Date).  A date-only ISO literal is accepted when its month
    is 1..12 and its day 1..31, and denotes midnight UTC of [MakeDay].
    With a month or a day out of range its three numbers go to the legacy
    parser, which takes them as year, month and day unless the first one
    can be a day, and then rejects the month or the day.  Every other
    string goes to the legacy parser as it is. *)
Definition Date_parse (rt : runtime) (s : string) : option Z :=
  match iso_date_only s with
  | Some (y, m, d) =>
      if IsMonth m && IsDay d then Some (MakeDay y m d * msPerDay)
      else if IsDay y then date_other rt s
      else None
  | None => date_other rt s
  end.

(** [new Date(n)] for a number: valid within ±8.64e15 ms. *)
Definition Date_of_number (n : jsnum) : option Z :=
  match n with
  | Int z => if (-8640000000000000 <=? z) && (z <=? 8640000000000000)
             then Some z else None
  | _ => None
  end.

(** [String(v)], as a template literal applies it. *)
Definition ToString (rt : runtime) (v : jsval) : string :=
  match v with
  | VUndef => "undefined"
  | VNull => "null"
  | VStr s => s
  | VBuf b => string_of_list_byte b
  | VDate t => date_toString rt t
  end.

(** *** Exceptions and completions *)

(** The values the handlers can see thrown. *)
Inductive exn :=
| CastError (path : string)
| ValidationError (paths : list string)
| MongoServerError (msg : string)
| TypeError
| Error (msg : string).

(** The outcome of an expression that may throw. *)
Inductive completion (A : Type) :=
| Return (a : A)
| Throw (e : exn).
Arguments Return {A} a.
Arguments Throw {A} e.

#[global] Instance completion_ret : MRet completion := @Return.
#[global] Instance completion_bind : MBind completion :=
  λ A B f m, match m with Return a => f a | Throw e => Throw e end.

(** *** Base64 *)

Definition base64_alphabet : list ascii :=
  list_ascii_of_string
    "ABCDEFGHIJKLMNOPQRSTUVWXYZabcdefghijklmnopqrstuvwxyz0123456789+/".

Definition b64 (n : N) : ascii :=
  nth (N.to_nat n) base64_alphabet "="%char.

(** [buf.toString("base64")]: three bytes give four characters; a tail of
    one or two bytes is padded with [=]. *)
Fixpoint base64 (l : list byte) : string :=
  match l with
  | [] => ""
  | [a] =>
      let x := Byte.to_N a in
      String (b64 (x / 4)) (String (b64 (x mod 4 * 16)) "==")
  | [a; b] =>
      let x := Byte.to_N a in
      let y := Byte.to_N b in
      String (b64 (x / 4)) (String (b64 (x mod 4 * 16 + y / 16))
        (String (b64 (y mod 16 * 4)) "="))
  | a :: b :: c :: r =>
      let x := Byte.to_N a in
      let y := Byte.to_N b in
      let z := Byte.to_N c in
      String (b64 (x / 4)) (String (b64 (x mod 4 * 16 + y / 16))
        (String (b64 (y mod 16 * 4 + z / 64)) (String (b64 (z mod 64))
          (base64 r))))
  end%N.

(** The position of a character in the alphabet. *)
Fixpoint index_of (c : ascii) (l : list ascii) : option N :=
  match l with
  | [] => None
  | a :: l' => if Ascii.eqb c a then Some 0%N else N.succ <$> index_of c l'
  end.

Definition b64_index (c : ascii) : option N := index_of c base64_alphabet.

(** The decoder a client applies to the payload of a data URI. *)
Fixpoint base64_decode (s : string) : option (list byte) :=
  match s with
  | EmptyString => Some []
  | String c1 (String c2 (String c3 (String c4 r))) =>
      s1 ← b64_index c1;
      s2 ← b64_index c2;
      if Ascii.eqb c4 "=" then
        if String.eqb r "" then
          if Ascii.eqb c3 "=" then
            a ← Byte.of_N (s1 * 4 + s2 / 16);
            Some [a]
          else
            s3 ← b64_index c3;
            a ← Byte.of_N (s1 * 4 + s2 / 16);
            b ← Byte.of_N (s2 mod 16 * 16 + s3 / 4);
            Some [a; b]
        else None
      else
        s3 ← b64_index c3;
        s4 ← b64_index c4;
        a ← Byte.of_N (s1 * 4 + s2 / 16);
        b ← Byte.of_N (s2 mod 16 * 16 + s3 / 4);
        c ← Byte.of_N (s3 mod 4 * 64 + s4);
        rest ← base64_decode r;
        Some (a :: b :: c :: rest)
  | _ => None
  end%N.

End JS.

Import JS.

(** ** Mongoose: schemas, casting, validation and the collection *)

Module Mongoose.

Inductive SchemaType := TString | TBuffer | TDate.

(** [{ type: T, required: r }] *)
Record SchemaPath := { type : SchemaType; required : bool }.

(** A schema: its paths in the order of declaration. *)
Abbreviation Schema := (list (string * SchemaPath)).

(** A stored document: the value at each path that is set.  Its [_id] is
    kept beside it. *)
Abbreviation document := (gmap string jsval).

(** The collection behind a model: the documents in insertion order (the
    order in which an unsorted [find()] returns them) and the supply of
    fresh identifiers. *)
Record collection := {
  next_id : N;
  docs : list (N * document);
}.

Section WithRuntime.
Context (rt : runtime).

(** Cast of a [Date] path. *)
Definition castDate (v : jsval) : option jsval :=
  match v with
  | VUndef | VNull => Some VNull
  | VDate t => Some (VDate t)
  | VStr s =>
      if String.eqb s "" then Some VNull
      else
        let asNumber :=
          match StringToNumber rt s with
          | Int z => (275761 <=? z) || (z <? -271820)
          | Inf _ => true
          | NaN => false
          end in
        if asNumber then VDate <$> Date_of_number (StringToNumber rt s)
        else VDate <$> Date_parse rt s
  | VBuf b => VDate <$> Date_parse rt (string_of_list_byte b)
  end.

(** Cast of a [String] path. *)
Definition castString (v : jsval) : option jsval :=
  match v with
  | VUndef | VNull => Some VNull
  | VStr s => Some (VStr s)
  | VBuf b => Some (VStr (string_of_list_byte b))
  | VDate t => Some (VStr (date_toString rt t))
  end.

(** Cast of a [Buffer] path. *)
Definition castBuffer (v : jsval) : option jsval :=
  match v with
  | VUndef | VNull => Some VNull
  | VStr s => Some (VBuf (list_byte_of_string s))
  | VBuf b => Some (VBuf b)
  | VDate _ => None
  end.

Definition cast (t : SchemaType) (v : jsval) : option jsval :=
  match t with
  | TString => castString v
  | TBuffer => castBuffer v
  | TDate => castDate v
  end.

(** The [required] validator of each type: a non-empty string, a
    non-empty buffer, a date. *)
Definition checkRequired (t : SchemaType) (v : option jsval) : bool :=
  match t, v with
  | TString, Some (VStr s) => truthy_str s
  | TBuffer, Some (VBuf b) => negb (bool_decide (b = []))
  | TDate, Some (VDate _) => true
  | _, _ => false
  end.

(** [new Model(obj)]: the paths of the schema that [obj] defines, cast;
    beside them the paths whose cast failed.  Keys that are not in the
    schema are dropped (strict mode), [undefined] leaves a path unset. *)
Fixpoint hydrate (sch : Schema) (obj : gmap string jsval)
  : document * list string :=
  match sch with
  | [] => (∅, [])
  | (k, p) :: sch' =>
      let '(d, errs) := hydrate sch' obj in
      match obj !! k with
      | None | Some VUndef => (d, errs)
      | Some v =>
          match cast (type p) v with
          | Some v' => (<[k:=v']> d, errs)
          | None => (d, k :: errs)
          end
      end
  end.

(** The required paths that a document leaves unset or empty; a path
    whose cast failed is reported for that only. *)
Definition missing (sch : Schema) (d : document) (errs : list string)
  : list string :=
  omap (λ '(k, p),
          if required p && negb (checkRequired (type p) (d !! k))
             && negb (bool_decide (k ∈ errs))
          then Some k else None) sch.

(** [doc.save()] of a new document: validation, then the insertion under
    a fresh [_id]. *)
Definition save (sch : Schema) (obj : gmap string jsval) (c : collection)
  : completion ((N * document) * collection) :=
  let '(d, errs) := hydrate sch obj in
  match errs ++ missing sch d errs with
  | [] =>
      let saved := (next_id c, d) in
      Return (saved, {| next_id := N.succ (next_id c);
                        docs := docs c ++ [saved] |})
  | paths => Throw (ValidationError paths)
  end.

End WithRuntime.

(** The first document with a given [_id]. *)
Fixpoint lookup_id (i : N) (l : list (N * document)) : option document :=
  match l with
  | [] => None
  | (j, d) :: l' => if N.eqb i j then Some d else lookup_id i l'
  end.

(** Removal of the first document with a given [_id]. *)
Fixpoint remove_id (i : N) (l : list (N * document)) : list (N * document) :=
  match l with
  | [] => []
  | (j, d) :: l' => if N.eqb i j then l' else (j, d) :: remove_id i l'
  end.

(** Replacement of the first document with a given [_id]. *)
Fixpoint replace_id (i : N) (d' : document) (l : list (N * document))
  : list (N * document) :=
  match l with
  | [] => []
  | (j, d) :: l' =>
      if N.eqb i j then (j, d') :: l' else (j, d) :: replace_id i d' l'
  end.

Section WithRuntime.
Context (rt : runtime).

(** [Model.findById(id)] *)
Definition findById (id : string) (c : collection)
  : completion (option (N * document)) :=
  match castObjectId rt id with
  | None => Throw (CastError "_id")
  | Some i => Return ((λ d, (i, d)) <$> lookup_id i (docs c))
  end.

(** [Model.findByIdAndDelete(id)] *)
Definition findByIdAndDelete (id : string) (c : collection)
  : completion (option (N * document) * collection) :=
  match castObjectId rt id with
  | None => Throw (CastError "_id")
  | Some i =>
      match lookup_id i (docs c) with
      | None => Return (None, c)
      | Some d =>
          Return (Some (i, d),
                  {| next_id := next_id c; docs := remove_id i (docs c) |})
      end
  end.

(** The cast of an update document [{ k: v, ... }] (sugar for
    [{ $set: { k: v, ... } }]) along the declared paths: keys that are no
    path of the schema are dropped (strict mode), keys whose value is
    [undefined] are removed from the update (Mongoose 6 and later), every
    other value is cast to the type of its path.  The two paths that every
    schema has without declaring them, [_id] and the version key [__v],
    are cast by [castUpdateId] and [castUpdateVersion] below. *)
Fixpoint castUpdate (sch : Schema) (obj : gmap string jsval)
  : completion (gmap string jsval) :=
  match sch with
  | [] => Return ∅
  | (k, p) :: sch' =>
      set ← castUpdate sch' obj;
      match obj !! k with
      | None | Some VUndef => Return set
      | Some v =>
          match cast rt (type p) v with
          | Some v' => Return (<[k:=v']> set)
          | None => Throw (CastError k)
          end
      end
  end.

(** The [_id] an update document asks for, if any.  No handler puts
    anything but a form field there. *)
Definition castUpdateId (obj : gmap string jsval) : completion (option N) :=
  match obj !! "_id" with
  | None | Some VUndef => Return None
  | Some (VStr s) =>
      match castObjectId rt s with
      | Some j => Return (Some j)
      | None => Throw (CastError "_id")
      end
  | Some _ => Throw (CastError "_id")
  end.

(** The version key [__v], which every schema carries as a [Number] path
    beside the declared ones: an update that names it has the value cast
    (the empty string is [null]) and written through.  The documents of
    the model do not show the version key, so that of such an update only
    the failure of the cast is visible. *)
Definition castUpdateVersion (obj : gmap string jsval) : completion unit :=
  match obj !! "__v" with
  | None | Some VUndef | Some VNull | Some (VDate _) => Return ()
  | Some (VStr s) =>
      if String.eqb s "" then Return ()
      else match StringToNumber rt s with
           | NaN => Throw (CastError "__v")
           | _ => Return ()
           end
  | Some (VBuf _) => Throw (CastError "__v")
  end.

(** [Model.findByIdAndUpdate(id, obj, { new: true })]: the paths of the
    cast update are set in the first document with this [_id], the other
    paths are kept; validators do not run.  The server refuses to change
    [_id]. *)
Definition findByIdAndUpdate (sch : Schema) (id : string)
    (obj : gmap string jsval) (c : collection)
  : completion (option (N * document) * collection) :=
  match castObjectId rt id with
  | None => Throw (CastError "_id")
  | Some i =>
      set ← castUpdate sch obj;
      _ ← castUpdateVersion obj;
      newId ← castUpdateId obj;
      match lookup_id i (docs c) with
      | None => Return (None, c)
      | Some d =>
          if bool_decide (newId = None ∨ newId = Some i) then
            let d' := set ∪ d in
            Return (Some (i, d'),
                    {| next_id := next_id c;
                       docs := replace_id i d' (docs c) |})
          else Throw (MongoServerError "_id is immutable")
      end
  end.

End WithRuntime.

(** [Model.find()] *)
Definition find (c : collection) : list (N * document) := docs c.

(** [Model.countDocuments()] *)
Definition countDocuments (c : collection) : Z := Z.of_nat (length (docs c)).

(** [query.skip(n)]: the server wants a non-negative integer. *)
Definition skip {A} (n : jsnum) (l : list A) : completion (list A) :=
  match n with
  | Int z =>
      if 0 <=? z then Return (drop (Z.to_nat z) l)
      else Throw (MongoServerError "skip")
  | _ => Throw (MongoServerError "skip")
  end.

(** [query.limit(n)]: [0] is no limit; a negative limit returns one batch
    of at most [|n|] documents; the server wants an integer. *)
Definition limit {A} (n : jsnum) (l : list A) : completion (list A) :=
  match n with
  | Int z =>
      if z =? 0 then Return l else Return (take (Z.to_nat (Z.abs z)) l)
  | _ => Throw (MongoServerError "limit")
  end.

(** The identifiers in use are pairwise distinct and were all issued. *)
Definition wf (c : collection) : Prop :=
  NoDup (docs c).*1 ∧ ∀ i, i ∈ (docs c).*1 → (i < next_id c)%N.

End Mongoose.

Import Mongoose.

(** ** Express: requests, responses, the default error handler *)

Module Express.

(** The file part of a multipart form, sent under the field [image]. *)
Record part := {
  part_filename : string;
  part_type : string;
  part_data : list byte;
}.

(** A request as the handlers see it: [req.params.id], [req.query], the
    text fields of the form ([req.body]) and the file part, if any. *)
Record request := {
  params_id : string;
  query : gmap string string;
  body : gmap string string;
  image : option part;
}.

(** What [res.json(...)] is given, or the page of the default error
    handler. *)
Inductive payload :=
| Message (message : string) (error : option exn)
| Doc (d : N * document)
| Docs (l : list (N * document))
| Page (totalEmployees : Z) (totalPages currentPage : jsnum)
       (employees : list (N * document))
| Unhandled (e : exn).

Record response := { status : Z; json : payload }.

(** An error passed to [next] with no error middleware installed: the
    built-in handler answers with the status of the error, 500 when it has
    none. *)
Definition default_error_handler (e : exn) : response :=
  {| status := 500; json := Unhandled e |}.

(** [doc.k] *)
Definition get (d : document) (k : string) : jsval := default VUndef (d !! k).

End Express.

Import Express.

(** ** [app.js]: the image inside the record *)

Module App.

Definition employeeSchema : Schema := [
  ("title", {| type := TString; required := true |});
  ("image", {| type := TBuffer; required := true |});
  ("name", {| type := TString; required := true |});
  ("designation", {| type := TString; required := true |});
  ("dob", {| type := TDate; required := true |});
  ("address", {| type := TString; required := true |});
  ("contentType", {| type := TString; required := true |})
].

(** [req.file] under [multer.memoryStorage()]. *)
Record file := {
  originalname : string;
  mimetype : string;
  buffer : list byte;
}.

(** [upload.single("image")]: no filter, the bytes stay in memory. *)
Definition upload_single (req : request) : option file :=
  (λ p, {| originalname := part_filename p;
           mimetype := part_type p;
           buffer := part_data p |}) <$> image req.

(** [new Date(dob)] for a form field; [None] is an Invalid Date. *)
Definition Date_new (rt : runtime) (v : jsval) : option Z :=
  match v with
  | VUndef => None
  | VNull => Some 0
  | VStr s => Date_parse rt s
  | VBuf b => Date_parse rt (string_of_list_byte b)
  | VDate t => Some t
  end.

(** [employee.image.toString("base64")]: a hydrated document holds a
    [Buffer] at a [Buffer] path or nothing at all, and a property of
    nothing cannot be read. *)
Definition image_toString_base64 (v : jsval) : completion string :=
  match v with
  | VBuf b => Return (base64 b)
  | _ => Throw TypeError
  end.

Section Handlers.
Context (rt : runtime).

(** [app.post("/api/employees", upload.single("image"), ...)] *)
Definition post_employees (req : request) (c : collection)
  : response * collection :=
  match upload_single req with
  | None =>
      ({| status := 400; json := Message "Image file is required." None |}, c)
  | Some file =>
      let title := prop (body req) "title" in
      let name := prop (body req) "name" in
      let designation := prop (body req) "designation" in
      let dob := prop (body req) "dob" in
      let address := prop (body req) "address" in
      if negb (truthy title) || negb (truthy name)
         || negb (truthy designation) || negb (truthy dob)
         || negb (truthy address)
      then
        ({| status := 400; json := Message "All fields are required." None |},
         c)
      else
        match Date_new rt dob with
        | None =>
            ({| status := 400; json := Message "Invalid date format." None |},
             c)
        | Some parsedDob =>
            let newEmployee : gmap string jsval :=
              <["image" := VBuf (buffer file)]>
              (<["title" := title]>
              (<["name" := name]>
              (<["designation" := designation]>
              (<["dob" := VDate parsedDob]>
              (<["address" := address]>
              (<["contentType" :=
                   VStr (if truthy_str (mimetype file) then mimetype file
                         else "application/octet-stream")]> ∅)))))) in
            match save rt employeeSchema newEmployee c with
            | Return (savedEmployee, c') =>
                ({| status := 201; json := Doc savedEmployee |}, c')
            | Throw error =>
                ({| status := 400;
                    json := Message "Error creating Employee" (Some error) |},
                 c)
            end
        end
  end.

(** [app.get("/api/employees", ...)] *)
Definition get_employees (req : request) (c : collection) : response :=
  let limit :=
    ToNumber rt (match query req !! "limit" with
                 | Some s => PStr s
                 | None => PUndef
                 end) in
  match (if truthy_num limit then Mongoose.limit limit (find c)
         else Return (find c)) with
  | Return employees => {| status := 200; json := Docs employees |}
  | Throw err =>
      {| status := 500; json := Message "Error fetching employees" (Some err) |}
  end.

(** [app.get("/api/employees/:id", ...)] *)
Definition get_employee (req : request) (c : collection) : response :=
  match findById rt (params_id req) c with
  | Throw error =>
      {| status := 500; json := Message "Error fetching employee" (Some error) |}
  | Return None =>
      {| status := 404; json := Message "Employee not found" None |}
  | Return (Some (i, employee)) =>
      match image_toString_base64 (get employee "image") with
      | Throw error =>
          {| status := 500;
             json := Message "Error fetching employee" (Some error) |}
      | Return base64Image =>
          {| status := 200;
             json := Doc (i, <["image" :=
                                 VStr ("data:"
                                       +:+ ToString rt (get employee "contentType")
                                       +:+ ";base64," +:+ base64Image)]>
                              employee) |}
      end
  end.

(** The update document of the [put] handler: [req.body], to which an
    uploaded file adds [image] and [contentType]. *)
Definition updates (req : request) : gmap string jsval :=
  let updates : gmap string jsval := VStr <$> body req in
  match upload_single req with
  | Some file =>
      <["contentType" := VStr (mimetype file)]>
        (<["image" := VBuf (buffer file)]> updates)
  | None => updates
  end.

(** [app.put("/api/employees/:id", upload.single("image"), ...)] *)
Definition put_employee (req : request) (c : collection)
  : response * collection :=
  match findByIdAndUpdate rt employeeSchema (params_id req) (updates req) c with
  | Throw error =>
      ({| status := 500; json := Message "Error updating Employee" (Some error) |},
       c)
  | Return (None, c') =>
      ({| status := 404;
          json := Message ("Employee with ID " +:+ params_id req +:+ " not found")
                          None |}, c')
  | Return (Some updatedEmployee, c') =>
      ({| status := 200; json := Doc updatedEmployee |}, c')
  end.

(** [app.delete("/api/employees/:id", ...)] *)
Definition delete_employee (req : request) (c : collection)
  : response * collection :=
  match findByIdAndDelete rt (params_id req) c with
  | Throw error =>
      ({| status := 500; json := Message "Error deleting Employee" (Some error) |},
       c)
  | Return (None, c') =>
      ({| status := 404;
          json := Message ("Employee with ID " +:+ params_id req +:+ " not found")
                          None |}, c')
  | Return (Some deletedEmployee, c') =>
      ({| status := 200;
          json := Message ("Employee with ID " +:+ params_id req +:+ " deleted")
                          None |}, c')
  end.

End Handlers.
End App.

(** ** [server.js]: the image in the [uploads] directory *)

Module Server.

Definition employeeSchema : Schema := [
  ("title", {| type := TString; required := true |});
  ("image", {| type := TString; required := false |});
  ("name", {| type := TString; required := true |});
  ("designation", {| type := TString; required := true |});
  ("dob", {| type := TDate; required := true |});
  ("address", {| type := TString; required := true |})
].

(** The [uploads] directory: file name to content. *)
Abbreviation uploads := (gmap string (list byte)).

(** [req.file] under [multer.diskStorage(...)]. *)
Record file := {
  originalname : string;
  mimetype : string;
  filename : string;
}.

(** [fileFilter]: the callback is given an error, or [true]. *)
Definition fileFilter (p : part) : completion bool :=
  if negb (String.prefix "image/" (part_type p))
  then Throw (Error "Only image files are allowed")
  else Return true.

(** [filename]: [`${Date.now()}-${file.originalname}`] *)
Definition storage_filename (now : Z) (p : part) : string :=
  dec now +:+ "-" +:+ part_filename p.

(** [upload.single("image")]: the filter runs before the storage engine
    is given the part; an accepted part is written under its new name. *)
Definition upload_single (now : Z) (req : request) (u : uploads)
  : completion (option file * uploads) :=
  match image req with
  | None => Return (None, u)
  | Some p =>
      accepted ← fileFilter p;
      if accepted : bool then
        let fn := storage_filename now p in
        Return (Some {| originalname := part_filename p;
                        mimetype := part_type p;
                        filename := fn |},
                <[fn := part_data p]> u)
      else Return (None, u)
  end.

(** [express.static] mounted at [/uploads]: the file a locator names.
    (Percent-decoding of the URL is not modelled.) *)
Fixpoint strip_prefix (p s : string) : option string :=
  match p, s with
  | EmptyString, _ => Some s
  | String a p', String b s' =>
      if Ascii.eqb a b then strip_prefix p' s' else None
  | String _ _, EmptyString => None
  end.

Definition static_uploads (u : uploads) (path : string) : option (list byte) :=
  fn ← strip_prefix "/uploads/" path; u !! fn.

Section Handlers.
Context (rt : runtime).

(** [app.post("/api/employees", upload.single("image"), ...)] *)
Definition post_employees (now : Z) (req : request) (c : collection)
    (u : uploads) : response * collection * uploads :=
  match upload_single now req u with
  | Throw e => (default_error_handler e, c, u)
  | Return (file, u') =>
      let title := prop (body req) "title" in
      let name := prop (body req) "name" in
      let designation := prop (body req) "designation" in
      let dob := prop (body req) "dob" in
      let address := prop (body req) "address" in
      let image :=
        match file with
        | Some f => VStr ("/uploads/" +:+ filename f)
        | None => VNull
        end in
      let newEmployee : gmap string jsval :=
        <["title" := title]>
        (<["image" := image]>
        (<["name" := name]>
        (<["designation" := designation]>
        (<["dob" := dob]>
        (<["address" := address]> ∅))))) in
      match save rt employeeSchema newEmployee c with
      | Return (savedEmployee, c') =>
          ({| status := 201; json := Doc savedEmployee |}, c', u')
      | Throw error =>
          ({| status := 500;
              json := Message "Error creating employee" (Some error) |},
           c, u')
      end
  end.

(** [app.get("/api/employees", ...)] *)
Definition get_employees (req : request) (c : collection) : response :=
  let page := default (PNum (Int 1)) (PStr <$> query req !! "page") in
  let limit := default (PNum (Int 10)) (PStr <$> query req !! "limit") in
  match
    (skipped ← Mongoose.skip
                 (mul (sub (ToNumber rt page) (Int 1)) (ToNumber rt limit))
                 (find c);
     Mongoose.limit (parseInt rt limit) skipped)
  with
  | Return employees =>
      let totalEmployees := countDocuments c in
      {| status := 200;
         json := Page totalEmployees
                      (Math_ceil_div (Int totalEmployees) (ToNumber rt limit))
                      (parseInt rt page)
                      employees |}
  | Throw error =>
      {| status := 500;
         json := Message "Error fetching employees" (Some error) |}
  end.

(** [app.get("/api/employees/:id", ...)] *)
Definition get_employee (req : request) (c : collection) : response :=
  match findById rt (params_id req) c with
  | Throw error =>
      {| status := 500; json := Message "Error fetching employee" (Some error) |}
  | Return None =>
      {| status := 404; json := Message "Employee not found" None |}
  | Return (Some employee) => {| status := 200; json := Doc employee |}
  end.

(** The update document of the [put] handler: the five text fields as
    they are read from [req.body] ([undefined] when the form lacks them),
    and [image] only if a file came. *)
Definition updatedData (file : option file) (req : request)
  : gmap string jsval :=
  let title := prop (body req) "title" in
  let name := prop (body req) "name" in
  let designation := prop (body req) "designation" in
  let dob := prop (body req) "dob" in
  let address := prop (body req) "address" in
  let image :=
    match file with
    | Some f => VStr ("/uploads/" +:+ filename f)
    | None => VUndef
    end in
  <["title" := title]>
  (<["name" := name]>
  (<["designation" := designation]>
  (<["dob" := dob]>
  (<["address" := address]>
  (if truthy image then <["image" := image]> ∅ else ∅))))).

(** [app.put("/api/employees/:id", upload.single("image"), ...)] *)
Definition put_employee (now : Z) (req : request) (c : collection)
    (u : uploads) : response * collection * uploads :=
  match upload_single now req u with
  | Throw e => (default_error_handler e, c, u)
  | Return (file, u') =>
      match findByIdAndUpdate rt employeeSchema (params_id req)
              (updatedData file req) c
      with
      | Throw error =>
          ({| status := 500;
              json := Message "Error updating employee" (Some error) |},
           c, u')
      | Return (None, c') =>
          ({| status := 404; json := Message "Employee not found" None |},
           c', u')
      | Return (Some updatedEmployee, c') =>
          ({| status := 200; json := Doc updatedEmployee |}, c', u')
      end
  end.

(** [app.delete("/api/employees/:id", ...)] *)
Definition delete_employee (req : request) (c : collection)
  : response * collection :=
  match findByIdAndDelete rt (params_id req) c with
  | Throw error =>
      ({| status := 500; json := Message "Error deleting employee" (Some error) |},
       c)
  | Return (None, c') =>
      ({| status := 404; json := Message "Employee not found" None |}, c')
  | Return (Some deletedEmployee, c') =>
      ({| status := 200; json := Message "Employee deleted successfully" None |},
       c')
  end.

End Handlers.
End Server.

(** ** Notions used in the statements *)

(** The Gregorian calendar: what the specification calls a valid date. *)
Definition is_leap (y : Z) : bool :=
  ((y mod 4 =? 0) && negb (y mod 100 =? 0)) || (y mod 400 =? 0).

Definition days_in_month (y m : Z) : Z :=
  if m =? 2 then (if is_leap y then 29 else 28)
  else if (m =? 4) || (m =? 6) || (m =? 9) || (m =? 11) then 30
  else 31.

Definition valid_calendar_date (y m d : Z) : bool :=
  IsMonth m && (1 <=? d) && (d <=? days_in_month y m).

(** The calendar counted out: the days of a year, of the years
    [0 .. n-1], and of the months [1 .. n] of a year. *)
Definition days_in_year (y : Z) : Z := if is_leap y then 366 else 365.

Fixpoint days_of_years (n : nat) : Z :=
  match n with
  | O => 0
  | S k => days_of_years k + days_in_year (Z.of_nat k)
  end.

Fixpoint days_of_months (y : Z) (n : nat) : Z :=
  match n with
  | O => 0
  | S k => days_of_months y k + days_in_month y (Z.of_nat (S k))
  end.

(** The number of days from 1 January 1970 to day [d] of month [m] of year
    [y], counted year by year and month by month; a day past the end of
    the month counts on into the following month. *)
Definition days_since_epoch (y m d : Z) : Z :=
  days_of_years (Z.to_nat y) - days_of_years (Z.to_nat 1970)
  + days_of_months y (Z.to_nat (m - 1)) + (d - 1).

(** What [JSON.stringify] writes for a number: [null] ([None]) for [NaN]
    and the infinities. *)
Definition JSON_number (n : jsnum) : option Z :=
  match n with
  | Int z => Some z
  | NaN | Inf _ => None
  end.

(** The slice [[lo, hi)] of a list. *)
Definition slice {A} (lo hi : Z) (l : list A) : list A :=
  take (Z.to_nat (hi - lo)) (drop (Z.to_nat lo) l).

(** The request [GET /api/employees?page=p&limit=l]. *)
Definition page_request (page limit : Z) : request := {|
  params_id := "";
  query := {[ "page" := dec page; "limit" := dec limit ]};
  body := ∅;
  image := None
|}.

(** The records and the page count of a listing response. *)
Definition employees_of (r : response) : list (N * document) :=
  match json r with
  | Page _ _ _ l | Docs l => l
  | _ => []
  end.

Definition totalPages_of (r : response) : option jsnum :=
  match json r with
  | Page _ t _ _ => Some t
  | _ => None
  end.

(** [Number(req.query.limit)] *)
Definition query_limit (rt : runtime) (req : request) : jsnum :=
  ToNumber rt (match query req !! "limit" with
               | Some s => PStr s
               | None => PUndef
               end).

(** The record [app.js] stores for a valid form. *)
Definition inline_record (title name designation address : string)
    (dob : Z) (data : list byte) (contentType : string) : document :=
  <["title" := VStr title]>
  (<["image" := VBuf data]>
  (<["name" := VStr name]>
  (<["designation" := VStr designation]>
  (<["dob" := VDate dob]>
  (<["address" := VStr address]>
  (<["contentType" := VStr contentType]> ∅)))))).

(** The record [server.js] stores for a valid form. *)
Definition external_record (title name designation address : string)
    (dob : Z) (image : jsval) : document :=
  <["title" := VStr title]>
  (<["image" := image]>
  (<["name" := VStr name]>
  (<["designation" := VStr designation]>
  (<["dob" := VDate dob]>
  (<["address" := VStr address]> ∅))))).

(** The month after [m] of year [y]. *)
Definition next_month (y m : Z) : Z * Z :=
  if m =? 12 then (y + 1, 1) else (y, m + 1).

(** The value a new document gets at a path: nothing when the object
    leaves the path out or the cast fails. *)
Definition cast_path (rt : runtime) (p : SchemaPath) (o : option jsval)
  : option jsval :=
  match o with
  | None | Some VUndef => None
  | Some v => cast rt (type p) v
  end.

(** A response in the 4xx range. *)
Definition client_error (r : response) : Prop := 400 ≤ status r < 500.

(** [sub] occurs in [s]. *)
Fixpoint contains (sub s : string) : bool :=
  String.prefix sub s
  || match s with
     | EmptyString => false
     | String _ s' => contains sub s'
     end.

(** The message of a response names a field. *)
Definition names_field (r : response) (f : string) : bool :=
  match json r with
  | Message m _ => contains f m
  | _ => false
  end.

(** A field name that neither the body parsers nor the ODM read as
    structure: no update operator ([$...]), no dot, no bracket. *)
Definition plain_field (k : string) : bool :=
  negb (String.prefix "$" k) && negb (contains "." k)
  && negb (contains "[" k).

(** The form of the example with one field replaced or removed. *)
Definition with_field (k : string) (v : option string) (req : request)
  : request :=
  {| params_id := params_id req; query := query req;
     body := match v with
             | Some s => <[k := s]> (body req)
             | None => delete k (body req)
             end;
     image := image req |}.

Definition with_image (p : option part) (req : request) : request :=
  {| params_id := params_id req; query := query req; body := body req;
     image := p |}.

(** The request [.../:id] for a given id. *)
Definition by_id (id : string) (req : request) : request :=
  {| params_id := id; query := query req; body := body req;
     image := image req |}.

(** A boolean check of [wf]. *)
Definition wfb (c : collection) : bool :=
  bool_decide (NoDup (docs c).*1)
  && forallb (λ i, (i <? next_id c)%N) (docs c).*1.

(** The form holds a non-empty text at a field. *)
Definition filled (req : request) (k : string) : Prop :=
  ∃ s, body req !! k = Some s ∧ s ≠ "".

(** The text paths of both schemas, and the fields the create handlers
    read from the form. *)
Definition text_fields : list string :=
  ["title"; "name"; "designation"; "address"].

Definition form_fields : list string :=
  ["title"; "name"; "designation"; "dob"; "address"].

(** The upload passes the filter of [server.js], or there is none. *)
Definition upload_ok (req : request) : Prop :=
  image req = None
  ∨ ∃ p, image req = Some p ∧ String.prefix "image/" (part_type p) = true.

(** A string of decimal digits. *)
Fixpoint all_digits (s : string) : bool :=
  match s with
  | EmptyString => true
  | String c r => is_digit c && all_digits r
  end.

(** The five routes that each file registers on its [app], and the
    dispatch of a request to the handler of its route.  In [server.js] a
    request comes with the reading of the clock that names its upload. *)
Inductive route :=
| PostEmployees | GetEmployees | GetEmployee | PutEmployee | DeleteEmployee.

Definition App_handle (rt : runtime) (r : route) (req : request)
    (c : collection) : response * collection :=
  match r with
  | PostEmployees => App.post_employees rt req c
  | GetEmployees => (App.get_employees rt req c, c)
  | GetEmployee => (App.get_employee rt req c, c)
  | PutEmployee => App.put_employee rt req c
  | DeleteEmployee => App.delete_employee rt req c
  end.

Definition Server_handle (rt : runtime) (now : Z) (r : route) (req : request)
    (c : collection) (u : Server.uploads)
  : response * collection * Server.uploads :=
  match r with
  | PostEmployees => Server.post_employees rt now req c u
  | GetEmployees => (Server.get_employees rt req c, c, u)
  | GetEmployee => (Server.get_employee rt req c, c, u)
  | PutEmployee => Server.put_employee rt now req c u
  | DeleteEmployee => (Server.delete_employee rt req c, u)
  end.

(** The state after a sequence of requests, served one after the other.
    The requests are those of the record [request]: the body is a form of
    text fields. *)
Fixpoint App_run (rt : runtime) (l : list (route * request)) (c : collection)
  : collection :=
  match l with
  | [] => c
  | (r, req) :: l' => App_run rt l' (App_handle rt r req c).2
  end.

Fixpoint Server_run (rt : runtime) (l : list (Z * route * request))
    (c : collection) (u : Server.uploads) : collection * Server.uploads :=
  match l with
  | [] => (c, u)
  | (now, r, req) :: l' =>
      let '(_, c', u') := Server_handle rt now r req c u in
      Server_run rt l' c' u'
  end.

(** The identifiers in use. *)
Definition ids (c : collection) : list N := (docs c).*1.

(** A record of [app.js] whose image can be served: bytes and a content
    type. *)
Definition inline_image (d : document) : Prop :=
  (∃ b, d !! "image" = Some (VBuf b)) ∧ (∃ s, d !! "contentType" = Some (VStr s)).

(** A record of [server.js] without an image, or with a locator of a file
    that the uploads directory holds. *)
Definition image_resolves (u : Server.uploads) (d : document) : Prop :=
  d !! "image" = Some VNull
  ∨ ∃ fn, d !! "image" = Some (VStr ("/uploads/" +:+ fn)) ∧ is_Some (u !! fn).

(** How one request can change the collection. *)
Inductive change (c c' : collection) : Prop :=
| Unchanged : c' = c → change c c'
| Inserted d :
    c' = {| next_id := N.succ (next_id c);
            docs := docs c ++ [(next_id c, d)] |} → change c c'
| Replaced i d' :
    c' = {| next_id := next_id c; docs := replace_id i d' (docs c) |} →
    change c c'
| Removed i :
    c' = {| next_id := next_id c; docs := remove_id i (docs c) |} →
    change c c'.

(** ** Example data *)

Definition png : part := {|
  part_filename := "ada.png";
  part_type := "image/png";
  part_data := [x89; x50; x4e; x47]
|}.

Definition form (title name designation dob address : string)
  : gmap string string :=
  {[ "title" := title; "name" := name; "designation" := designation;
     "dob" := dob; "address" := address ]}.

(** A runtime for the examples: nothing beyond the written-out fragment
    parses; an [ObjectId] is written in decimal. *)
Definition rt0 : runtime := {|
  number_other := λ _, NaN;
  parseInt_other := λ _, NaN;
  parseInt_exponent := λ _, NaN;
  date_other := λ _, None;
  date_toString := λ t, dec t;
  castObjectId := λ s, Z.to_N <$> dec_literal s;
|}.

Definition empty_collection : collection := {| next_id := 0; docs := [] |}.

Definition ada : request := {|
  params_id := "";
  query := ∅;
  body := {[ "title" := "Mr"; "name" := "Ada"; "designation" := "Engineer";
             "dob" := "1990-01-01"; "address" := "1 Main St" ]};
  image := Some png
|}.

Definition grace : request := {|
  params_id := ""; query := ∅;
  body := form "Dr" "Grace" "Admiral" "1906-12-09" "2 Navy Rd";
  image := Some png
|}.

Definition alan : request := {|
  params_id := ""; query := ∅;
  body := form "Mr" "Alan" "Logician" "1912-06-23" "3 Hut 8";
  image := Some png
|}.

(** The collection after [ada], [grace] and [alan] were created through
    [app.js], and through [server.js]. *)
Definition staff_inline : collection :=
  (App.post_employees rt0 alan
     (App.post_employees rt0 grace
        (App.post_employees rt0 ada empty_collection).2).2).2.

Definition staff_external : collection :=
  let '(_, c1, u1) := Server.post_employees rt0 1700000000000 ada
                        empty_collection ∅ in
  let '(_, c2, u2) := Server.post_employees rt0 1700000000001 grace c1 u1 in
  (Server.post_employees rt0 1700000000002 alan c2 u2).1.2.

Definition feb30 : request := with_field "dob" (Some "2023-02-30") ada.

Definition text_upload : request :=
  with_image (Some {| part_filename := "notes.txt";
                      part_type := "text/plain";
                      part_data := [x68; x69] |}) ada.

Definition grace_record : document :=
  inline_record "Dr" "Grace" "Admiral" "2 Navy Rd"
    (MakeDay 1906 12 9 * msPerDay) (part_data png) "image/png".

Definition grace_record_external : document :=
  external_record "Dr" "Grace" "Admiral" "2 Navy Rd"
    (MakeDay 1906 12 9 * msPerDay) (VStr "/uploads/1700000000001-ada.png").

(** [PUT /api/employees/1] with the single field [address]. *)
Definition move_grace : request := {|
  params_id := "1"; query := ∅;
  body := {[ "address" := "4 Arlington" ]};
  image := None
|}.

(** [GET /api/employees?limit=0] *)
Definition limit_zero : request := {|
  params_id := ""; query := {[ "limit" := "0" ]}; body := ∅; image := None
|}.

(** An upload without content, and a second picture. *)
Definition empty_png : part := {|
  part_filename := "empty.png"; part_type := "image/png"; part_data := []
|}.

Definition jpg : part := {|
  part_filename := "grace.jpg";
  part_type := "image/jpeg";
  part_data := [xff; xd8; xff]
|}.

(** [PUT /api/employees/1] with a new picture only, with an empty [dob]
    only, and with a text field [image] only. *)
Definition new_photo : request := {|
  params_id := "1"; query := ∅; body := ∅; image := Some jpg
|}.

Definition clear_dob : request := {|
  params_id := "1"; query := ∅; body := {[ "dob" := "" ]}; image := None
|}.

Definition image_as_text : request := {|
  params_id := "1"; query := ∅; body := {[ "image" := "hello" ]};
  image := None
|}.

(** The uploads directory after [ada] was created through [server.js]. *)
Definition files_ada : Server.uploads :=
  (Server.post_employees rt0 1700000000000 ada empty_collection ∅).2.

(** [ada], [grace] and [alan] created one after the other, and [ada]
    created and deleted. *)
Definition three_posts : list (route * request) :=
  [(PostEmployees, ada); (PostEmployees, grace); (PostEmployees, alan)].

Definition post_and_delete : list (route * request) :=
  [(PostEmployees, ada); (DeleteEmployee, by_id "0" ada)].

(** * Properties *)

(** ** Decimal literals *)

Lemma digit_not_sign (c : ascii) :
  is_digit c = true → Ascii.eqb c "+" = false ∧ Ascii.eqb c "-" = false.
Proof. destruct c as [[] [] [] [] [] [] [] []]; done. Qed.

Lemma string_of_uint_head (d : Decimal.uint) :
  d ≠ Decimal.Nil →
  ∃ a r, NilZero.string_of_uint d = String a r ∧ is_digit a = true.
Proof.
  destruct d; [done | ..]; intros _; simpl; eauto.
Qed.

Lemma dec_literal_dec (z : Z) : 0 ≤ z → dec_literal (dec z) = Some z.
Proof.
  intros Hz. unfold dec.
  assert (∃ d, Z.to_int z = Decimal.Pos d ∧ d ≠ Decimal.Nil ∧ Z.of_uint d = z)
    as (d & Hd & Hnil & Hof).
  { destruct z as [|p|p]; [| |lia].
    - exists (Decimal.D0 Decimal.Nil). done.
    - exists (Pos.to_uint p). split; [done|]. split.
      + intros E. pose proof (DecimalPos.Unsigned.to_uint_nonnil p). done.
      + pose proof (DecimalZ.of_to (Z.pos p)) as H. simpl in H. done. }
  rewrite Hd. simpl.
  destruct (string_of_uint_head d Hnil) as (a & r & E & Ha).
  unfold dec_literal.
  assert (NilZero.uint_of_string (NilZero.string_of_uint d) = Some d) as Hu
    by by apply NilZero.usu.
  rewrite E in Hu |- *.
  destruct (digit_not_sign a Ha) as [-> ->].
  rewrite Hu. simpl. by rewrite Hof.
Qed.

Lemma dec_nonempty (z : Z) : 0 ≤ z → String.eqb (dec z) "" = false.
Proof.
  intros Hz. pose proof (dec_literal_dec z Hz) as H.
  destruct (dec z); [discriminate H | done].
Qed.

(** Up to [2^53] every integer is a double. *)
Lemma round_double_safe (z : Z) : Z.abs z < 2 ^ 53 → round_double z = Int z.
Proof.
  intros Hz. unfold round_double.
  by destruct (Z.ltb_spec (Z.abs z) (2 ^ 53)); [|lia].
Qed.

(** The double nearest to a negative integer is negative. *)
Lemma round_double_neg (z : Z) :
  z < 0 → round_double z = Inf true ∨ ∃ z', round_double z = Int z' ∧ z' < 0.
Proof.
  intros Hz. unfold round_double.
  destruct (Z.ltb_spec (Z.abs z) (2 ^ 53)) as [|Hbig]; [right; by exists z|].
  set (a := Z.abs z) in *. set (e := Z.log2 a - 52).
  assert (0 < 2 ^ 53) as Hpos by done.
  assert (53 ≤ Z.log2 a) as Hlog by (apply Z.log2_le_pow2; lia).
  assert (0 < 2 ^ e) as He by (apply Z.pow_pos_nonneg; unfold e; lia).
  assert (2 ^ e ≤ a) as Hea.
  { transitivity (2 ^ Z.log2 a).
    - apply Z.pow_le_mono_r; unfold e; lia.
    - apply Z.log2_spec. lia. }
  assert (1 ≤ a / 2 ^ e) as Hq by (apply Z.div_le_lower_bound; lia).
  match goal with
  | |- context [if ?t then a / 2 ^ e + 1 else a / 2 ^ e] =>
      set (m := if t then a / 2 ^ e + 1 else a / 2 ^ e);
      assert (1 ≤ m) as Hm by (unfold m; destruct t; lia)
  end.
  clearbody m. destruct (2 ^ 1024 <=? m * 2 ^ e).
  - left. by destruct (Z.ltb_spec z 0); [|lia].
  - right. eexists. split; [done|]. nia.
Qed.

Lemma StringToNumber_dec rt (z : Z) :
  0 ≤ z → StringToNumber rt (dec z) = round_double z.
Proof.
  intros Hz. unfold StringToNumber.
  by rewrite dec_nonempty, dec_literal_dec.
Qed.

Lemma parseInt_dec rt (z : Z) :
  0 ≤ z → parseInt rt (PStr (dec z)) = round_double z.
Proof.
  intros Hz. unfold parseInt.
  by rewrite dec_nonempty, dec_literal_dec.
Qed.

Lemma StringToNumber_safe rt (z : Z) :
  0 ≤ z < 2 ^ 53 → StringToNumber rt (dec z) = Int z.
Proof.
  intros Hz. rewrite StringToNumber_dec by lia. apply round_double_safe. lia.
Qed.

Lemma parseInt_safe rt (z : Z) :
  0 ≤ z < 2 ^ 53 → parseInt rt (PStr (dec z)) = Int z.
Proof.
  intros Hz. rewrite parseInt_dec by lia. apply round_double_safe. lia.
Qed.

(** ** Base64 *)

Lemma b64_index_b64 (n : N) : (n < 64)%N → b64_index (b64 n) = Some n.
Proof.
  intros Hn.
  assert (forallb (λ k, bool_decide (b64_index (b64 (N.of_nat k))
                                     = Some (N.of_nat k)))
                  (seq 0 64) = true) as H by (vm_compute; reflexivity).
  rewrite forallb_forall in H.
  specialize (H (N.to_nat n)). rewrite N2Nat.id in H.
  apply bool_decide_eq_true in H; [done|].
  apply in_seq. lia.
Qed.

Lemma b64_not_pad (n : N) : (n < 64)%N → Ascii.eqb (b64 n) "=" = false.
Proof.
  intros Hn.
  assert (forallb (λ k, negb (Ascii.eqb (b64 (N.of_nat k)) "="))
                  (seq 0 64) = true) as H by (vm_compute; reflexivity).
  rewrite forallb_forall in H.
  specialize (H (N.to_nat n)). rewrite N2Nat.id in H.
  apply negb_true_iff, H, in_seq. lia.
Qed.

Lemma byte_to_N_lt (a : byte) : (Byte.to_N a < 256)%N.
Proof. pose proof (Byte.to_N_bounded a). lia. Qed.

Lemma list_ind3 {A} (P : list A → Prop) :
  P [] → (∀ a, P [a]) → (∀ a b, P [a; b]) →
  (∀ a b c r, P r → P (a :: b :: c :: r)) →
  ∀ l, P l.
Proof.
  intros H0 H1 H2 H3.
  fix IH 1. intros [|a [|b [|c r]]]; [exact H0 | exact (H1 a) | exact (H2 a b) |].
  exact (H3 a b c r (IH r)).
Qed.

Ltac b64_arith :=
  repeat match goal with
         | a : byte |- _ =>
             pose proof (byte_to_N_lt a);
             generalize dependent (Byte.to_N a); clear a; intros
         end;
  try (zify; Z.to_euclidean_division_equations; lia).

(** The payload decodes to the bytes that were encoded. *)
Lemma base64_roundtrip (l : list byte) : base64_decode (base64 l) = Some l.
Proof.
  induction l as [|a|a b|a b c r IH] using list_ind3.
  - done.
  - cbn [base64 base64_decode].
    rewrite ?b64_index_b64 by b64_arith. cbn [mbind option_bind].
    rewrite (Ascii.eqb_refl "="). cbn [String.eqb].
    replace (Byte.to_N a / 4 * 4 + Byte.to_N a mod 4 * 16 / 16)%N
      with (Byte.to_N a) by b64_arith.
    by rewrite Byte.of_to_N.
  - cbn [base64 base64_decode].
    rewrite ?b64_index_b64 by b64_arith. cbn [mbind option_bind].
    rewrite (Ascii.eqb_refl "="). cbn [String.eqb].
    rewrite b64_not_pad by b64_arith.
    rewrite ?b64_index_b64 by b64_arith. cbn [mbind option_bind].
    replace (Byte.to_N a / 4 * 4
             + (Byte.to_N a mod 4 * 16 + Byte.to_N b / 16) / 16)%N
      with (Byte.to_N a) by b64_arith.
    replace ((Byte.to_N a mod 4 * 16 + Byte.to_N b / 16) mod 16 * 16
             + Byte.to_N b mod 16 * 4 / 4)%N
      with (Byte.to_N b) by b64_arith.
    by rewrite !Byte.of_to_N.
  - cbn [base64 base64_decode].
    rewrite ?b64_index_b64 by b64_arith. cbn [mbind option_bind].
    rewrite b64_not_pad by b64_arith.
    rewrite ?b64_index_b64 by b64_arith. cbn [mbind option_bind].
    replace (Byte.to_N a / 4 * 4
             + (Byte.to_N a mod 4 * 16 + Byte.to_N b / 16) / 16)%N
      with (Byte.to_N a) by b64_arith.
    replace ((Byte.to_N a mod 4 * 16 + Byte.to_N b / 16) mod 16 * 16
             + (Byte.to_N b mod 16 * 4 + Byte.to_N c / 64) / 4)%N
      with (Byte.to_N b) by b64_arith.
    replace ((Byte.to_N b mod 16 * 4 + Byte.to_N c / 64) mod 4 * 64
             + Byte.to_N c mod 64)%N
      with (Byte.to_N c) by b64_arith.
    rewrite !Byte.of_to_N. cbn [mbind option_bind].
    by rewrite IH.
Qed.

(** ** The collection *)

Section Collection.
Implicit Types (l : list (N * document)) (i j : N) (d : document).

Lemma lookup_id_None i l : lookup_id i l = None ↔ i ∉ l.*1.
Proof.
  induction l as [|[j d] l IH]; csimpl.
  - split; [intros _; apply not_elem_of_nil | done].
  - destruct (N.eqb_spec i j) as [->|Hne].
    + split; [done | intros []; left].
    + rewrite IH, not_elem_of_cons. tauto.
Qed.

Lemma lookup_id_Some_elem i d l : lookup_id i l = Some d → (i, d) ∈ l.
Proof.
  induction l as [|[j d'] l IH]; simpl; [done|].
  destruct (N.eqb_spec i j) as [->|Hne].
  - intros [= ->]. left.
  - intros H. right. auto.
Qed.

Lemma lookup_id_replace_eq i d d' l :
  lookup_id i l = Some d → lookup_id i (replace_id i d' l) = Some d'.
Proof.
  induction l as [|[j e] l IH]; simpl; [done|].
  destruct (N.eqb_spec i j) as [->|Hne]; simpl.
  - by rewrite N.eqb_refl.
  - destruct (N.eqb_spec i j); [done | auto].
Qed.

Lemma lookup_id_replace_ne i j d' l :
  j ≠ i → lookup_id j (replace_id i d' l) = lookup_id j l.
Proof.
  intros Hne. induction l as [|[k e] l IH]; simpl; [done|].
  destruct (N.eqb_spec i k) as [->|Hik]; simpl.
  - by destruct (N.eqb_spec j k).
  - by rewrite IH.
Qed.

Lemma replace_id_ids i d' l : (replace_id i d' l).*1 = l.*1.
Proof.
  induction l as [|[k e] l IH]; csimpl; [done|].
  destruct (N.eqb i k); csimpl; [done | by rewrite IH].
Qed.

Lemma remove_id_ids_subseteq i l : (remove_id i l).*1 ⊆ l.*1.
Proof.
  induction l as [|[k e] l IH]; csimpl; [done|].
  destruct (N.eqb i k); csimpl.
  - by apply list_subseteq_cons.
  - by apply list_subseteq_skip.
Qed.

Lemma lookup_id_remove_eq i l :
  NoDup l.*1 → lookup_id i (remove_id i l) = None.
Proof.
  induction l as [|[k e] l IH]; simpl; [done|].
  intros [Hk Hl]%NoDup_cons.
  destruct (N.eqb_spec i k) as [->|Hik]; simpl.
  - by apply lookup_id_None.
  - destruct (N.eqb_spec i k); [done | auto].
Qed.

Lemma lookup_id_remove_ne i j l :
  j ≠ i → lookup_id j (remove_id i l) = lookup_id j l.
Proof.
  intros Hne. induction l as [|[k e] l IH]; simpl; [done|].
  destruct (N.eqb_spec i k) as [->|Hik]; simpl.
  - by destruct (N.eqb_spec j k).
  - by rewrite IH.
Qed.

Lemma remove_id_NoDup i l : NoDup l.*1 → NoDup (remove_id i l).*1.
Proof.
  induction l as [|[k e] l IH]; simpl; [done|].
  intros [Hk Hl]%NoDup_cons.
  destruct (N.eqb i k); simpl; [done|].
  apply NoDup_cons. split; [|auto].
  intros H. by apply Hk, (remove_id_ids_subseteq i).
Qed.

Lemma lookup_id_snoc_new i d l :
  i ∉ l.*1 → lookup_id i (l ++ [(i, d)]) = Some d.
Proof.
  induction l as [|[k e] l IH]; simpl.
  - by rewrite N.eqb_refl.
  - intros [Hik Hl]%not_elem_of_cons.
    destruct (N.eqb_spec i k); [done | auto].
Qed.

Lemma lookup_id_snoc_ne i j d l :
  j ≠ i → lookup_id j (l ++ [(i, d)]) = lookup_id j l.
Proof.
  intros Hne. induction l as [|[k e] l IH]; simpl.
  - by destruct (N.eqb_spec j i).
  - by rewrite IH.
Qed.

End Collection.

Lemma wf_empty : wf empty_collection.
Proof. split; [constructor | intros i []%elem_of_nil]. Qed.

Lemma wf_fresh c : wf c → next_id c ∉ (docs c).*1.
Proof. intros [_ H] Hin. specialize (H _ Hin). lia. Qed.

Lemma wf_insert c d :
  wf c →
  wf {| next_id := N.succ (next_id c); docs := docs c ++ [(next_id c, d)] |}.
Proof.
  intros Hwf. pose proof (wf_fresh c Hwf) as Hfresh. destruct Hwf as [Hnd Hlt].
  split; simpl; rewrite fmap_app; simpl.
  - apply NoDup_app. split; [done|]. split.
    + intros i Hi [->|[]%elem_of_nil]%elem_of_cons. done.
    + apply NoDup_singleton.
  - intros i [Hi|[->|[]%elem_of_nil]%elem_of_cons]%elem_of_app.
    + specialize (Hlt _ Hi). lia.
    + lia.
Qed.

Lemma wf_replace c i d :
  wf c → wf {| next_id := next_id c; docs := replace_id i d (docs c) |}.
Proof. intros [Hnd Hlt]. split; simpl; by rewrite replace_id_ids. Qed.

Lemma wf_remove c i :
  wf c → wf {| next_id := next_id c; docs := remove_id i (docs c) |}.
Proof.
  intros [Hnd Hlt]. split; simpl.
  - by apply remove_id_NoDup.
  - intros j Hj. by apply Hlt, (remove_id_ids_subseteq i).
Qed.

(** ** Pagination arithmetic *)

Lemma slice_lookup {A} (lo hi : Z) (l : list A) (k : nat) :
  0 ≤ lo →
  slice lo hi l !! k =
    if decide (Z.of_nat k < hi - lo) then l !! (Z.to_nat lo + k)%nat else None.
Proof.
  intros Hlo. unfold slice.
  case_decide.
  - rewrite lookup_take_lt by lia. by rewrite lookup_drop.
  - apply lookup_take_ge. lia.
Qed.

Lemma ceil_div_spec (a b : Z) :
  0 < b → (ceil_div a b - 1) * b < a ≤ ceil_div a b * b.
Proof. intros Hb. unfold ceil_div. Z.to_euclidean_division_equations. nia. Qed.

Lemma ceil_div_nonneg (a b : Z) : 0 ≤ a → 0 < b → 0 ≤ ceil_div a b.
Proof. intros Ha Hb. pose proof (ceil_div_spec a b Hb). nia. Qed.

Lemma ceil_div_unique (a b c : Z) :
  0 < b → (c - 1) * b < a ≤ c * b → ceil_div a b = c.
Proof.
  intros Hb [H1 H2]. unfold ceil_div.
  assert ((- a) / b = - c); [|lia].
  symmetry. apply (Z.div_unique_pos (- a) b (- c) (c * b - a)); lia.
Qed.

(** The rounding of a quotient of two integers below [2^53] never crosses
    an integer: the ceiling of the rounded quotient is the ceiling of the
    quotient. *)
Lemma div_double_ceil (n d : Z) :
  1 ≤ n < 2 ^ 53 → 1 ≤ d < 2 ^ 53 →
  ∃ m s, div_double n d = (m, - s) ∧ 0 ≤ s
         ∧ 0 ≤ m < 2 ^ 1024
         ∧ ceil_div m (2 ^ s) = ceil_div n d.
Proof.
  intros Hn Hd. unfold div_double.
  set (a := Z.log2 n). set (b := Z.log2 d).
  assert (0 ≤ a ≤ 52) as Ha.
  { split; [apply Z.log2_nonneg|].
    assert (a < 53); [|lia]. apply Z.log2_lt_pow2; lia. }
  assert (0 ≤ b ≤ 52) as Hb.
  { split; [apply Z.log2_nonneg|].
    assert (b < 53); [|lia]. apply Z.log2_lt_pow2; lia. }
  assert (2 ^ a ≤ n < 2 ^ (a + 1)) as Hna.
  { pose proof (Z.log2_spec n ltac:(lia)). unfold a. by rewrite <- Z.add_1_r in *. }
  assert (2 ^ b ≤ d < 2 ^ (b + 1)) as Hdb.
  { pose proof (Z.log2_spec d ltac:(lia)). unfold b. by rewrite <- Z.add_1_r in *. }
  set (e0 := a - b - 52).
  set (e1 := if _ <? 2 ^ 52 then e0 - 1 else e0).
  assert (-105 ≤ e1 ≤ 0 ∧ 2 ^ 52 ≤ (n * 2 ^ (- e1)) / d) as [He1 Hq].
  { unfold e1.
    destruct (Z.ltb_spec ((n * 2 ^ Z.max 0 (- e0)) / (d * 2 ^ Z.max 0 e0))
                (2 ^ 52)) as [Hlt|Hge].
    - split; [unfold e0; lia|].
      apply Z.div_le_lower_bound; [lia|].
      replace (- (e0 - 1)) with (b + 1 + (52 - a)) by (unfold e0; lia).
      rewrite Z.pow_add_r by lia.
      assert (0 < 2 ^ (52 - a)) by (apply Z.pow_pos_nonneg; lia).
      assert (2 ^ 52 = 2 ^ a * 2 ^ (52 - a)) as ->.
      { rewrite <- Z.pow_add_r by lia. f_equal. lia. }
      assert (0 < 2 ^ a) by (apply Z.pow_pos_nonneg; lia).
      generalize dependent (2 ^ (52 - a)). generalize dependent (2 ^ (b + 1)).
      generalize dependent (2 ^ a). intros A HA _ B HB P HP.
      assert (d * A ≤ n * B) by nia. nia.
    - split; [unfold e0; lia|].
      replace (Z.max 0 (- e0)) with (- e0) in Hge by (unfold e0; lia).
      replace (Z.max 0 e0) with 0 in Hge by (unfold e0; lia).
      by rewrite Z.pow_0_r, Z.mul_1_r in Hge. }
  replace (Z.max e1 (-1074)) with e1 by lia.
  replace (Z.max 0 (- e1)) with (- e1) by lia.
  replace (Z.max 0 e1) with 0 by lia.
  rewrite Z.pow_0_r, Z.mul_1_r.
  set (s := - e1) in *. assert (0 ≤ s ≤ 105) as Hs by (unfold s; lia).
  set (M := 2 ^ s) in *.
  assert (0 < M) as HM by (apply Z.pow_pos_nonneg; lia).
  assert (M ≤ 2 ^ 105) as HM' by (apply Z.pow_le_mono_r; lia).
  pose proof (Z.div_mod (n * M) d ltac:(lia)) as Hdm.
  pose proof (Z.mod_pos_bound (n * M) d ltac:(lia)) as Hr.
  set (q := (n * M) / d) in *. set (r := (n * M) mod d) in *.
  pose proof (ceil_div_spec n d ltac:(lia)) as Hc.
  set (c := ceil_div n d) in *.
  assert (d < 2 * M) as HdM by nia.
  assert (q ≤ n * M) as Hqn by nia.
  match goal with
  | |- context [if ?t then q + 1 else q] => set (m := if t then q + 1 else q)
  end.
  assert (m = q ∧ 2 * r ≤ d ∨ m = q + 1 ∧ d ≤ 2 * r) as Hm.
  { unfold m. destruct (Z.ltb_spec d (2 * r)); cbn [orb].
    - right. lia.
    - destruct (Z.eqb_spec d (2 * r)); cbn [andb].
      + destruct (Z.odd q); [right | left]; lia.
      + left. lia. }
  clearbody m.
  exists m, s. replace (- s) with e1 by (unfold s; lia).
  split; [done|]. split; [lia|]. split.
  { split; [lia|].
    assert (n * M + 1 < 2 ^ 1024); [|lia].
    assert (2 ^ 53 * 2 ^ 105 < 2 ^ 1024) by (vm_compute; reflexivity).
    nia. }
  apply ceil_div_unique; [done|].
  destruct Hm as [[-> Hrd] | [-> Hrd]]; split; nia.
Qed.

(** [Math.ceil(a / b)] is the ceiling of [a / b] for a count and a limit
    below [2^53]. *)
Lemma Math_ceil_div_safe (x y : Z) :
  0 ≤ x < 2 ^ 53 → 1 ≤ y < 2 ^ 53 →
  Math_ceil_div (Int x) (Int y) = Int (ceil_div x y).
Proof.
  intros Hx Hy. unfold Math_ceil_div.
  destruct (Z.eqb_spec y 0) as [|_]; [lia|].
  destruct (Z.eqb_spec x 0) as [->|Hx0].
  { f_equal; try (symmetry; apply ceil_div_unique; lia). }
  rewrite (Z.abs_eq x), (Z.abs_eq y) by lia.
  destruct (div_double_ceil x y) as (m & s & -> & Hs & Hm & Hceil); [lia..|].
  replace (Z.max 0 (- s)) with 0 by lia.
  replace (Z.max 0 (- - s)) with s by lia.
  rewrite Z.pow_0_r, Z.mul_1_r.
  assert (1 ≤ 2 ^ s) by (pose proof (Z.pow_pos_nonneg 2 s); lia).
  destruct (Z.leb_spec (2 ^ 1024 * 2 ^ s) m) as [Hover|_]; [nia|].
  destruct (Z.ltb_spec x 0); [lia|]. destruct (Z.ltb_spec y 0); [lia|].
  cbn [xorb]. by rewrite Hceil.
Qed.

Lemma concat_slices {A} (L : Z) (n : nat) (k : Z) (l : list A) :
  0 < L → 0 ≤ k → Z.of_nat (length l) ≤ (k + Z.of_nat n) * L →
  concat ((λ p, slice ((p - 1) * L) (p * L) l) <$> seqZ (1 + k) (Z.of_nat n))
  = drop (Z.to_nat (k * L)) l.
Proof.
  intros HL. revert k. induction n as [|n IH]; intros k Hk Hlen.
  - simpl. symmetry. apply drop_ge. nia.
  - rewrite seqZ_cons by lia. csimpl.
    replace (Z.pred (Z.of_nat (S n))) with (Z.of_nat n) by lia.
    replace (Z.succ (1 + k)) with (1 + (k + 1)) by lia.
    rewrite IH by lia. unfold slice.
    replace (1 + k - 1) with k by lia.
    replace ((1 + k) * L - k * L) with L by lia.
    rewrite <- (take_drop (Z.to_nat L) (drop (Z.to_nat (k * L)) l)) at 2.
    f_equal. rewrite drop_drop. f_equal. nia.
Qed.

(** ** [server.js]: the paginated listing *)

Lemma get_employees_page rt (req : request) (c : collection) (page limit : Z) :
  1 ≤ page < 2 ^ 53 → 1 ≤ limit < 2 ^ 53 → (page - 1) * limit < 2 ^ 53 →
  countDocuments c < 2 ^ 53 →
  query req !! "page" = Some (dec page) →
  query req !! "limit" = Some (dec limit) →
  Server.get_employees rt req c =
    {| status := 200;
       json := Page (countDocuments c)
                    (Int (ceil_div (countDocuments c) limit))
                    (Int page)
                    (slice ((page - 1) * limit) (page * limit) (docs c)) |}.
Proof.
  intros Hp Hl Hpl HN Hqp Hql. unfold Server.get_employees.
  rewrite Hqp, Hql. cbn [fmap option_fmap option_map default id ToNumber].
  rewrite !StringToNumber_safe, !parseInt_safe by lia.
  cbn [sub]. rewrite (round_double_safe (page - 1)) by lia.
  cbn [mul]. rewrite (round_double_safe ((page - 1) * limit)) by nia.
  unfold countDocuments in *.
  rewrite Math_ceil_div_safe by lia.
  cbn [Mongoose.skip Mongoose.limit mbind completion_bind].
  replace (0 <=? (page - 1) * limit) with true by (symmetry; apply Z.leb_le; nia).
  replace (limit =? 0) with false by (symmetry; apply Z.eqb_neq; lia).
  unfold slice, find. do 4 f_equal. lia.
Qed.

Lemma page_request_query (page limit : Z) :
  query (page_request page limit) !! "page" = Some (dec page)
  ∧ query (page_request page limit) !! "limit" = Some (dec limit).
Proof.
  unfold page_request. cbn [query]. split; by simplify_map_eq.
Qed.



(** ** [app.js]: the capped listing and the rendering of the image *)

(** C10. In the listing of [app.js] a limit that coerces to [0] or to
    [NaN] (also a missing one, and the literal [0]) returns every record;
    a limit that coerces to a non-zero integer [n] returns the first [|n|]
    records, which for a positive [n] is at most [n] of them. *)
Theorem limit_zero_returns_all rt (req : request) (c : collection) :
  (query_limit rt req = Int 0 ∨ query_limit rt req = NaN →
   App.get_employees rt req c = {| status := 200; json := Docs (docs c) |})
  ∧ (query req !! "limit" = Some "0" ∨ query req !! "limit" = None →
     App.get_employees rt req c = {| status := 200; json := Docs (docs c) |})
  ∧ (∀ n, query_limit rt req = Int n → n ≠ 0 →
     App.get_employees rt req c =
       {| status := 200; json := Docs (take (Z.to_nat (Z.abs n)) (docs c)) |}
     ∧ (0 < n →
        Z.of_nat (length (employees_of (App.get_employees rt req c))) ≤ n)).
Proof.
  unfold query_limit, App.get_employees, find.
  split; [|split].
  - intros [-> | ->]; done.
  - intros [-> | ->]; done.
  - intros n -> Hn. cbn [truthy_num Mongoose.limit].
    replace (n =? 0) with false by (symmetry; apply Z.eqb_neq; lia).
    cbn [negb]. split; [done|].
    intros Hpos. cbn [employees_of json]. rewrite length_take. lia.
Qed.

Lemma save_stored rt (sch : Schema) (obj : gmap string jsval)
    (c c' : collection) saved :
  save rt sch obj c = Return (saved, c') → saved ∈ docs c'.
Proof.
  unfold save. destruct (hydrate rt sch obj) as [d errs].
  destruct (errs ++ missing sch d errs); [|done].
  intros [= <- <-]. cbn [docs]. apply elem_of_app. right. left.
Qed.

Lemma findByIdAndUpdate_stored rt (sch : Schema) (id : string)
    (obj : gmap string jsval) (c c' : collection) e :
  findByIdAndUpdate rt sch id obj c = Return (Some e, c') → e ∈ docs c'.
Proof.
  unfold findByIdAndUpdate.
  destruct (castObjectId rt id) as [i|]; [|done].
  destruct (castUpdate rt sch obj) as [set|]; [|done].
  cbn [mbind completion_bind].
  destruct (castUpdateVersion rt obj) as [[]|]; [|done].
  cbn [mbind completion_bind].
  destruct (castUpdateId rt obj) as [newId|]; [|done].
  cbn [mbind completion_bind].
  destruct (lookup_id i (docs c)) as [d|] eqn:Hd; [|done].
  case_bool_decide; [|done]. intros [= <- <-]. cbn [docs].
  by eapply lookup_id_Some_elem, lookup_id_replace_eq.
Qed.


(** ** Deletion *)

Lemma findByIdAndDelete_found rt (id : string) (c : collection) i d :
  castObjectId rt id = Some i → lookup_id i (docs c) = Some d →
  findByIdAndDelete rt id c =
    Return (Some (i, d),
            {| next_id := next_id c; docs := remove_id i (docs c) |}).
Proof. intros Hid Hd. unfold findByIdAndDelete. by rewrite Hid, Hd. Qed.

Lemma findByIdAndDelete_absent rt (id : string) (c : collection) i :
  castObjectId rt id = Some i → lookup_id i (docs c) = None →
  findByIdAndDelete rt id c = Return (None, c).
Proof. intros Hid Hd. unfold findByIdAndDelete. by rewrite Hid, Hd. Qed.

Lemma findById_absent rt (id : string) (c : collection) i :
  castObjectId rt id = Some i → lookup_id i (docs c) = None →
  findById rt id c = Return None.
Proof. intros Hid Hd. unfold findById. by rewrite Hid, Hd. Qed.

(** C7. Deleting an existing record succeeds and removes it (the other
    records stay); reading the same id afterwards answers 404, and so
    does deleting it a second time, which changes nothing.  In both entry
    points. *)
Theorem delete_then_not_found rt (req : request) (c : collection)
    (i : N) (d : document) :
  wf c →
  castObjectId rt (params_id req) = Some i →
  lookup_id i (docs c) = Some d →
  (let c1 := (App.delete_employee rt req c).2 in
   status (App.delete_employee rt req c).1 = 200
   ∧ lookup_id i (docs c1) = None
   ∧ (∀ j, j ≠ i → lookup_id j (docs c1) = lookup_id j (docs c))
   ∧ App.get_employee rt req c1 =
       {| status := 404; json := Message "Employee not found" None |}
   ∧ status (App.delete_employee rt req c1).1 = 404
   ∧ (App.delete_employee rt req c1).2 = c1)
  ∧
  (let c1 := (Server.delete_employee rt req c).2 in
   status (Server.delete_employee rt req c).1 = 200
   ∧ lookup_id i (docs c1) = None
   ∧ (∀ j, j ≠ i → lookup_id j (docs c1) = lookup_id j (docs c))
   ∧ Server.get_employee rt req c1 =
       {| status := 404; json := Message "Employee not found" None |}
   ∧ Server.delete_employee rt req c1 =
       ({| status := 404; json := Message "Employee not found" None |}, c1)).
Proof.
  intros [Hnd _] Hid Hd.
  pose proof (lookup_id_remove_eq i (docs c) Hnd) as Hgone.
  split.
  - unfold App.delete_employee at 1 2 3.
    rewrite (findByIdAndDelete_found rt _ c i d) by done. cbn [fst snd status].
    set (c1 := {| next_id := next_id c; docs := remove_id i (docs c) |}).
    split; [done|]. split; [done|].
    split; [intros j Hj; by apply lookup_id_remove_ne|].
    unfold App.get_employee, App.delete_employee.
    rewrite (findById_absent rt _ c1 i), (findByIdAndDelete_absent rt _ c1 i)
      by done.
    done.
  - unfold Server.delete_employee at 1 2 3.
    rewrite (findByIdAndDelete_found rt _ c i d) by done. cbn [fst snd status].
    set (c1 := {| next_id := next_id c; docs := remove_id i (docs c) |}).
    split; [done|]. split; [done|].
    split; [intros j Hj; by apply lookup_id_remove_ne|].
    unfold Server.get_employee, Server.delete_employee.
    rewrite (findById_absent rt _ c1 i), (findByIdAndDelete_absent rt _ c1 i)
      by done.
    done.
Qed.

(** ** Updates *)

Lemma castUpdate_omitted rt (sch : Schema) (obj set : gmap string jsval) k :
  castUpdate rt sch obj = Return set →
  obj !! k = None ∨ obj !! k = Some VUndef →
  set !! k = None.
Proof.
  revert set. induction sch as [|[k' p] sch IH]; intros set; cbn [castUpdate].
  - intros [= <-] _. apply lookup_empty.
  - destruct (castUpdate rt sch obj) as [set'|e]; [|done].
    cbn [mbind completion_bind]. intros H Hk.
    specialize (IH set' eq_refl Hk).
    destruct (obj !! k') as [v|] eqn:Ek'; [|by injection H as <-].
    destruct (decide (k = k')) as [->|Hne].
    + destruct Hk as [Hk|Hk]; rewrite Hk in Ek'; [done|].
      injection Ek' as <-. by injection H as <-.
    + destruct v; try (by injection H as <-);
        (destruct (cast rt (type p) _); [|done]);
        injection H as <-; by rewrite lookup_insert_ne.
Qed.

Lemma findByIdAndUpdate_cases rt (sch : Schema) (id : string)
    (obj : gmap string jsval) (c : collection) i d :
  castObjectId rt id = Some i → lookup_id i (docs c) = Some d →
  (∃ e, findByIdAndUpdate rt sch id obj c = Throw e)
  ∨ (∃ set, castUpdate rt sch obj = Return set
          ∧ findByIdAndUpdate rt sch id obj c =
              Return (Some (i, set ∪ d),
                      {| next_id := next_id c;
                         docs := replace_id i (set ∪ d) (docs c) |})).
Proof.
  intros Hid Hd. unfold findByIdAndUpdate. rewrite Hid.
  destruct (castUpdate rt sch obj) as [set|e]; [|left; by eexists].
  cbn [mbind completion_bind].
  destruct (castUpdateVersion rt obj) as [[]|e]; [|left; by eexists].
  cbn [mbind completion_bind].
  destruct (castUpdateId rt obj) as [newId|e]; [|left; by eexists].
  cbn [mbind completion_bind]. rewrite Hd.
  case_bool_decide; [right; by eexists | left; by eexists].
Qed.

(** What an update keeps: the paths its update document leaves out. *)
Lemma findByIdAndUpdate_frame rt (sch : Schema) (id : string)
    (obj : gmap string jsval) (c : collection) i d :
  castObjectId rt id = Some i → lookup_id i (docs c) = Some d →
  let c' := match findByIdAndUpdate rt sch id obj c with
            | Return (_, c') => c'
            | Throw _ => c
            end in
  ∃ d', lookup_id i (docs c') = Some d'
        ∧ (∀ k, obj !! k = None ∨ obj !! k = Some VUndef → d' !! k = d !! k)
        ∧ (∀ j, j ≠ i → lookup_id j (docs c') = lookup_id j (docs c)).
Proof.
  intros Hid Hd.
  destruct (findByIdAndUpdate_cases rt sch id obj c i d Hid Hd)
    as [[e ->] | (set & Hset & ->)]; cbn zeta.
  - exists d. done.
  - exists (set ∪ d). cbn [docs]. split; [by eapply lookup_id_replace_eq|].
    split.
    + intros k Hk. rewrite lookup_union_r; [done|].
      by eapply castUpdate_omitted.
    + intros j Hj. by apply lookup_id_replace_ne.
Qed.

Lemma App_put_collection rt (req : request) (c : collection) :
  (App.put_employee rt req c).2 =
    match findByIdAndUpdate rt App.employeeSchema (params_id req)
            (App.updates req) c with
    | Return (_, c') => c'
    | Throw _ => c
    end.
Proof.
  unfold App.put_employee.
  by destruct (findByIdAndUpdate _ _ _ _ _) as [[[] ?]|].
Qed.

Lemma Server_put_collection rt now (req : request) (c : collection)
    (u : Server.uploads) :
  (Server.put_employee rt now req c u).1.2 =
    match Server.upload_single now req u with
    | Throw _ => c
    | Return (file, _) =>
        match findByIdAndUpdate rt Server.employeeSchema (params_id req)
                (Server.updatedData file req) c with
        | Return (_, c') => c'
        | Throw _ => c
        end
    end.
Proof.
  unfold Server.put_employee.
  destruct (Server.upload_single now req u) as [[file u']|]; [|done].
  by destruct (findByIdAndUpdate _ _ _ _ _) as [[[] ?]|].
Qed.

Lemma App_updates_omitted (req : request) k :
  body req !! k = None →
  image req = None ∨ (k ≠ "image" ∧ k ≠ "contentType") →
  App.updates req !! k = None.
Proof.
  intros Hk Hfile. unfold App.updates, App.upload_single.
  destruct (image req) as [p|]; cbn [fmap option_fmap option_map].
  - destruct Hfile as [|[? ?]]; [done|].
    rewrite !lookup_insert_ne by done. by rewrite lookup_fmap, Hk.
  - by rewrite lookup_fmap, Hk.
Qed.

Lemma Server_updatedData_omitted file (req : request) k :
  body req !! k = None →
  file = None ∨ k ≠ "image" →
  Server.updatedData file req !! k = None
  ∨ Server.updatedData file req !! k = Some VUndef.
Proof.
  intros Hk Hfile. unfold Server.updatedData.
  assert (prop (body req) k = VUndef) as Hprop by (unfold prop; by rewrite Hk).
  repeat (rewrite lookup_insert; case_decide as E;
          [subst k; right; by rewrite Hprop | clear E]).
  left. destruct file as [f|]; cbn [truthy].
  - destruct Hfile as [|Hne]; [done|].
    destruct (truthy_str _); [by rewrite lookup_insert_ne | done].
  - done.
Qed.

Ltac map_lookup :=
  repeat first
    [ rewrite lookup_insert_eq
    | rewrite lookup_insert_ne by done
    | rewrite lookup_singleton_eq
    | rewrite lookup_singleton_ne by done
    | rewrite lookup_empty ].

Lemma castUpdate_address_App rt (a : string) :
  castUpdate rt App.employeeSchema {[ "address" := VStr a ]}
  = Return {[ "address" := VStr a ]}.
Proof.
  unfold App.employeeSchema. cbn [castUpdate].
  rewrite lookup_singleton_eq, !lookup_singleton_ne by done.
  cbn [mbind completion_bind cast castString type].
  by rewrite insert_empty.
Qed.

Lemma Server_updatedData_address (req : request) (a : string) :
  body req = {[ "address" := a ]} →
  Server.updatedData None req =
    <["title" := VUndef]> (<["name" := VUndef]> (<["designation" := VUndef]>
      (<["dob" := VUndef]> (<["address" := VStr a]> ∅)))).
Proof.
  intros Hb. unfold Server.updatedData, prop. rewrite Hb.
  rewrite lookup_singleton_eq, !lookup_singleton_ne by done. done.
Qed.

Lemma castUpdate_address_Server rt (a : string) :
  castUpdate rt Server.employeeSchema
    (<["title" := VUndef]> (<["name" := VUndef]> (<["designation" := VUndef]>
      (<["dob" := VUndef]> (<["address" := VStr a]> ∅)))))
  = Return {[ "address" := VStr a ]}.
Proof.
  unfold Server.employeeSchema. cbn [castUpdate]. map_lookup.
  cbn [mbind completion_bind cast castString type].
  by rewrite insert_empty.
Qed.

Lemma findByIdAndUpdate_address rt (sch : Schema) (id : string)
    (obj : gmap string jsval) (c : collection) i d (a : string) :
  castObjectId rt id = Some i → lookup_id i (docs c) = Some d →
  castUpdate rt sch obj = Return {[ "address" := VStr a ]} →
  obj !! "_id" = None → obj !! "__v" = None →
  findByIdAndUpdate rt sch id obj c =
    Return (Some (i, <["address" := VStr a]> d),
            {| next_id := next_id c;
               docs := replace_id i (<["address" := VStr a]> d) (docs c) |}).
Proof.
  intros Hid Hd Hset Hnoid Hnov.
  unfold findByIdAndUpdate, castUpdateId, castUpdateVersion.
  rewrite Hid, Hset, Hnoid, Hnov. cbn [mbind completion_bind]. rewrite Hd.
  rewrite bool_decide_eq_true_2 by by left.
  by rewrite <- insert_union_singleton_l.
Qed.

(** C1. An update merges the supplied fields only.  For an existing
    record, whatever the request, each path that the request leaves out
    has the same value after the update as before, and every other record
    is as it was; a request that supplies [address] alone succeeds and
    the record differs from the old one exactly at [address].  In
    [app.js] the file counts as supplying [image] and [contentType]; in
    [server.js] it counts as supplying [image]. *)
Theorem update_keeps_omitted_fields rt (req : request) (c : collection)
    (i : N) (d : document) :
  castObjectId rt (params_id req) = Some i →
  lookup_id i (docs c) = Some d →
  (let c' := (App.put_employee rt req c).2 in
   ∃ d', lookup_id i (docs c') = Some d'
     ∧ (∀ k, body req !! k = None →
             image req = None ∨ (k ≠ "image" ∧ k ≠ "contentType") →
             d' !! k = d !! k)
     ∧ (∀ j, j ≠ i → lookup_id j (docs c') = lookup_id j (docs c))
     ∧ (∀ a, body req = {[ "address" := a ]} → image req = None →
             status (App.put_employee rt req c).1 = 200
             ∧ d' = <["address" := VStr a]> d))
  ∧
  (∀ now u,
   let c' := (Server.put_employee rt now req c u).1.2 in
   ∃ d', lookup_id i (docs c') = Some d'
     ∧ (∀ k, body req !! k = None →
             image req = None ∨ k ≠ "image" →
             d' !! k = d !! k)
     ∧ (∀ j, j ≠ i → lookup_id j (docs c') = lookup_id j (docs c))
     ∧ (∀ a, body req = {[ "address" := a ]} → image req = None →
             status (Server.put_employee rt now req c u).1.1 = 200
             ∧ d' = <["address" := VStr a]> d)).
Proof.
  intros Hid Hd. split.
  - cbn zeta. rewrite App_put_collection.
    destruct (findByIdAndUpdate_frame rt App.employeeSchema (params_id req)
                (App.updates req) c i d Hid Hd) as (d' & Hd' & Hframe & Hothers).
    exists d'. split; [done|]. split; [|split; [done|]].
    + intros k Hk Hfile. apply Hframe. left. by apply App_updates_omitted.
    + intros a Hbody Hnofile.
      assert (App.updates req = {[ "address" := VStr a ]}) as Hupd.
      { unfold App.updates, App.upload_single. rewrite Hnofile, Hbody.
        cbn [fmap option_fmap option_map]. by rewrite map_fmap_singleton. }
      pose proof (findByIdAndUpdate_address rt App.employeeSchema
                    (params_id req) (App.updates req) c i d a Hid Hd) as Hrun.
      rewrite Hupd in Hrun, Hd'.
      specialize (Hrun (castUpdate_address_App rt a) ltac:(by map_lookup)
                        ltac:(by map_lookup)).
      unfold App.put_employee. rewrite Hupd, Hrun. split; [done|].
      rewrite Hrun in Hd'. cbn [docs] in Hd'.
      rewrite (lookup_id_replace_eq i d _ _ Hd) in Hd'. by injection Hd' as <-.
  - intros now u. cbn zeta. rewrite Server_put_collection.
    unfold Server.upload_single.
    destruct (image req) as [p|] eqn:Himg.
    + destruct (Server.fileFilter p) as [[]|e]; cbn [mbind completion_bind].
      * destruct (findByIdAndUpdate_frame rt Server.employeeSchema
                    (params_id req)
                    (Server.updatedData
                       (Some {| Server.originalname := part_filename p;
                                Server.mimetype := part_type p;
                                Server.filename :=
                                  Server.storage_filename now p |}) req)
                    c i d Hid Hd) as (d' & Hd' & Hframe & Hothers).
        exists d'. split; [done|]. split; [|split; [done | done]].
        intros k Hk [|Hne]; [done|]. apply Hframe.
        apply Server_updatedData_omitted; auto.
      * destruct (findByIdAndUpdate_frame rt Server.employeeSchema
                    (params_id req) (Server.updatedData None req)
                    c i d Hid Hd) as (d' & Hd' & Hframe & Hothers).
        exists d'. split; [done|]. split; [|split; [done | done]].
        intros k Hk [|Hne]; [done|]. apply Hframe.
        apply Server_updatedData_omitted; auto.
      * exists d. done.
    + destruct (findByIdAndUpdate_frame rt Server.employeeSchema
                  (params_id req) (Server.updatedData None req)
                  c i d Hid Hd) as (d' & Hd' & Hframe & Hothers).
      exists d'. split; [done|]. split; [|split; [done|]].
      * intros k Hk Hfile. apply Hframe.
        apply Server_updatedData_omitted; auto.
      * intros a Hbody _.
        pose proof (findByIdAndUpdate_address rt Server.employeeSchema
                      (params_id req) (Server.updatedData None req) c i d a
                      Hid Hd) as Hrun.
        rewrite (Server_updatedData_address req a Hbody) in Hrun, Hd'.
        specialize (Hrun (castUpdate_address_Server rt a) ltac:(by map_lookup)
                          ltac:(by map_lookup)).
        unfold Server.put_employee, Server.upload_single.
        rewrite Himg, (Server_updatedData_address req a Hbody), Hrun.
        split; [done|].
        rewrite Hrun in Hd'. cbn [docs] in Hd'.
        rewrite (lookup_id_replace_eq i d _ _ Hd) in Hd'.
        by injection Hd' as <-.
Qed.

(** ** Creation *)

Lemma truthy_str_true (s : string) : s ≠ "" → truthy_str s = true.
Proof.
  intros Hs. unfold truthy_str. destruct (String.eqb_spec s ""); done.
Qed.

Lemma save_inline rt (c : collection) t n g a tv data ct :
  t ≠ "" → n ≠ "" → g ≠ "" → a ≠ "" → ct ≠ "" → data ≠ [] →
  save rt App.employeeSchema
    (<["image" := VBuf data]>
     (<["title" := VStr t]>
     (<["name" := VStr n]>
     (<["designation" := VStr g]>
     (<["dob" := VDate tv]>
     (<["address" := VStr a]>
     (<["contentType" := VStr ct]> ∅)))))))
    c
  = Return ((next_id c, inline_record t n g a tv data ct),
            {| next_id := N.succ (next_id c);
               docs := docs c ++ [(next_id c, inline_record t n g a tv data ct)] |}).
Proof.
  intros Ht Hn Hg Ha Hct Hdata.
  unfold save, App.employeeSchema. cbn [hydrate]. map_lookup.
  cbn [cast castString castBuffer castDate type].
  unfold missing. cbn [omap list_omap required type]. map_lookup.
  cbn [checkRequired].
  rewrite !truthy_str_true by done.
  rewrite (bool_decide_eq_false_2 (data = [])) by done.
  done.
Qed.

(** *** Date-only ISO literals *)

Lemma digit_is_digit (c : ascii) (n : Z) : digit c = Some n → is_digit c = true.
Proof. unfold digit. by destruct (is_digit c). Qed.

Lemma digit_range (c : ascii) (n : Z) : digit c = Some n → 0 ≤ n ≤ 9.
Proof.
  unfold digit, is_digit. destruct (_ && _) eqn:E; [|done].
  apply andb_true_iff in E as [?%N.leb_le ?%N.leb_le]. intros [= <-]. lia.
Qed.

Lemma uint_of_string_minus (r : string) :
  NilZero.uint_of_string (String "-" r) = None.
Proof.
  unfold NilZero.uint_of_string. cbn [NilEmpty.uint_of_string].
  by destruct (NilEmpty.uint_of_string r).
Qed.

Lemma uint_of_string_None (c : ascii) (r : string) :
  NilZero.uint_of_string r = None → r ≠ "" →
  NilZero.uint_of_string (String c r) = None.
Proof.
  unfold NilZero.uint_of_string. destruct r as [|c' r']; [done|].
  intros H _. cbn [NilEmpty.uint_of_string] in *. by rewrite H.
Qed.

(** A date-only ISO literal is not empty, is accepted by [iso_date_only]
    only with digits around its two hyphens, and is not a number. *)
Lemma iso_date_only_shape (s : string) y m d :
  iso_date_only s = Some (y, m, d) →
  String.eqb s "" = false
  ∧ dec_literal s = None
  ∧ sign_after_digit s = true
  ∧ 0 ≤ y ≤ 9999.
Proof.
  unfold iso_date_only.
  destruct s as [|y1 [|y2 [|y3 [|y4 [|h1 [|m1 [|m2 [|h2 [|d1 [|d2 [|]]]]]]]]]]];
    try done.
  destruct (Ascii.eqb_spec h1 "-") as [->|Hh1]; [|done].
  destruct (Ascii.eqb_spec h2 "-") as [->|Hh2]; [|done].
  cbn [andb].
  destruct (digit y1) as [a|] eqn:E1; [|done].
  destruct (digit y2) as [b|] eqn:E2; [|done].
  destruct (digit y3) as [c|] eqn:E3; [|done].
  destruct (digit y4) as [e|] eqn:E4; [|done].
  cbn [mbind option_bind]. intros Hymd.
  assert (y = 1000 * a + 100 * b + 10 * c + e) as ->.
  { destruct (digit m1), (digit m2), (digit d1), (digit d2); try done.
    cbn in Hymd. congruence. }
  clear Hymd. split; [done|]. split; [|split].
  - unfold dec_literal.
    destruct (digit_not_sign y1 (digit_is_digit _ _ E1)) as [-> ->].
    match goal with
    | |- _ <$> ?u = None => assert (u = None) as ->; [|done]
    end.
    do 4 (apply uint_of_string_None; [|done]).
    apply uint_of_string_minus.
  - cbn [sign_after_digit]. rewrite (digit_is_digit _ _ E4).
    cbn. by rewrite !orb_true_r.
  - apply digit_range in E1, E2, E3, E4. lia.
Qed.

Lemma Date_parse_iso rt (s : string) y m d :
  iso_date_only s = Some (y, m, d) → IsMonth m = true → IsDay d = true →
  Date_parse rt s = Some (MakeDay y m d * msPerDay).
Proof. intros Hs Hm Hd. unfold Date_parse. by rewrite Hs, Hm, Hd. Qed.

Lemma Date_parse_iso_out_of_range rt (s : string) y m d :
  iso_date_only s = Some (y, m, d) →
  IsMonth m && IsDay d = false → IsDay y = false →
  Date_parse rt s = None.
Proof. intros Hs Hmd Hy. unfold Date_parse. by rewrite Hs, Hmd, Hy. Qed.

Lemma castDate_iso_out_of_range rt (s : string) y m d :
  iso_date_only s = Some (y, m, d) →
  IsMonth m && IsDay d = false → IsDay y = false →
  castDate rt (VStr s) = None.
Proof.
  intros Hs Hmd Hy.
  destruct (iso_date_only_shape s y m d Hs) as (Hne & Hlit & Hsign & _).
  unfold castDate, StringToNumber. rewrite Hne, Hlit, Hsign.
  by rewrite (Date_parse_iso_out_of_range rt s y m d).
Qed.

Lemma days_in_month_le (y m : Z) : 28 ≤ days_in_month y m ≤ 31.
Proof.
  unfold days_in_month.
  destruct (m =? 2); [destruct (is_leap y); lia|].
  destruct (_ || _); lia.
Qed.

Lemma valid_calendar_date_in_range (y m d : Z) :
  valid_calendar_date y m d = true → IsMonth m = true ∧ IsDay d = true.
Proof.
  unfold valid_calendar_date, IsDay.
  intros [[Hm Hd1%Z.leb_le]%andb_true_iff Hd2%Z.leb_le]%andb_true_iff.
  split; [done|]. pose proof (days_in_month_le y m).
  apply andb_true_iff. split; apply Z.leb_le; lia.
Qed.

(** [DaysFromYearMonth] agrees with the calendar: two successive months
    are [days_in_month] days apart (checked for the years of four digits). *)
Lemma DaysFromYearMonth_next (y m : Z) :
  0 ≤ y ≤ 9999 → 1 ≤ m ≤ 12 →
  DaysFromYearMonth (next_month y m).1 (next_month y m).2
  = DaysFromYearMonth y m + days_in_month y m.
Proof.
  intros Hy Hm.
  assert (forallb (λ y, forallb (λ m,
            DaysFromYearMonth (next_month y m).1 (next_month y m).2
            =? DaysFromYearMonth y m + days_in_month y m)
            (seqZ 1 12)) (seqZ 0 10000) = true) as H
    by (vm_compute; reflexivity).
  rewrite forallb_forall in H.
  specialize (H y). rewrite forallb_forall in H.
  apply Z.eqb_eq, H; apply list_elem_of_In, elem_of_seqZ; lia.
Qed.

(** A valid calendar date stays in its month: no roll-over. *)
Lemma valid_date_in_month (y m d : Z) :
  0 ≤ y ≤ 9999 → valid_calendar_date y m d = true →
  DaysFromYearMonth y m ≤ MakeDay y m d
  < DaysFromYearMonth (next_month y m).1 (next_month y m).2.
Proof.
  intros Hy Hv. unfold valid_calendar_date, IsMonth in Hv.
  apply andb_true_iff in Hv as [Hv Hd2%Z.leb_le].
  apply andb_true_iff in Hv as [Hm Hd1%Z.leb_le].
  apply andb_true_iff in Hm as [Hm1%Z.leb_le Hm2%Z.leb_le].
  rewrite DaysFromYearMonth_next by lia. unfold MakeDay. lia.
Qed.

Lemma castDate_iso rt (s : string) y m d :
  iso_date_only s = Some (y, m, d) → IsMonth m = true → IsDay d = true →
  castDate rt (VStr s) = Some (VDate (MakeDay y m d * msPerDay)).
Proof.
  intros Hs Hm Hd.
  destruct (iso_date_only_shape s y m d Hs) as (Hne & Hlit & Hsign & _).
  unfold castDate, StringToNumber. rewrite Hne, Hlit, Hsign.
  by rewrite (Date_parse_iso rt s y m d).
Qed.

(** *** The day number against the calendar counted out *)

Lemma days_of_months_year (y : Z) : days_of_months y 12 = days_in_year y.
Proof.
  cbn [days_of_months]. unfold days_in_year, days_in_month.
  destruct (is_leap y); reflexivity.
Qed.

Lemma DaysFromYearMonth_months (y : Z) (k : nat) :
  0 ≤ y ≤ 9999 → (k ≤ 11)%nat →
  DaysFromYearMonth y (Z.of_nat (S k))
  = DaysFromYearMonth y 1 + days_of_months y k.
Proof.
  intros Hy. induction k as [|k IH]; intros Hk.
  - cbn [days_of_months]. change (Z.of_nat 1) with 1. lia.
  - cbn [days_of_months]. specialize (IH ltac:(lia)).
    pose proof (DaysFromYearMonth_next y (Z.of_nat (S k)) Hy ltac:(lia)) as H.
    unfold next_month in H.
    destruct (Z.eqb_spec (Z.of_nat (S k)) 12) as [|_]; [lia|].
    cbn [fst snd] in H.
    replace (Z.of_nat (S (S k))) with (Z.of_nat (S k) + 1) by lia.
    rewrite H, IH. lia.
Qed.

Lemma DaysFromYearMonth_year (y : Z) :
  0 ≤ y ≤ 9999 →
  DaysFromYearMonth (y + 1) 1 = DaysFromYearMonth y 1 + days_in_year y.
Proof.
  intros Hy. rewrite <- days_of_months_year.
  pose proof (DaysFromYearMonth_next y 12 Hy ltac:(lia)) as H.
  cbn [next_month Z.eqb Pos.eqb fst snd] in H. rewrite H.
  change 12 with (Z.of_nat 12) at 1.
  rewrite (DaysFromYearMonth_months y 11) by lia.
  cbn [days_of_months]. change (Z.of_nat 12) with 12. lia.
Qed.

Lemma DaysFromYearMonth_years (n : nat) :
  Z.of_nat n ≤ 10000 →
  DaysFromYearMonth (Z.of_nat n) 1
  = days_of_years n - days_of_years (Z.to_nat 1970).
Proof.
  induction n as [|n IH]; intros Hn.
  - vm_compute. reflexivity.
  - cbn [days_of_years]. rewrite Nat2Z.inj_succ, <- Z.add_1_r.
    rewrite DaysFromYearMonth_year by lia. rewrite IH by lia. lia.
Qed.

(** The day number of the engine is the count of the calendar, for the
    years of four digits. *)
Lemma MakeDay_days_since_epoch (y m d : Z) :
  0 ≤ y ≤ 9999 → 1 ≤ m ≤ 12 → MakeDay y m d = days_since_epoch y m d.
Proof.
  intros Hy Hm. unfold MakeDay, days_since_epoch.
  replace m with (Z.of_nat (S (Z.to_nat (m - 1)))) at 1 by lia.
  rewrite DaysFromYearMonth_months by lia.
  replace y with (Z.of_nat (Z.to_nat y)) at 1 by lia.
  rewrite DaysFromYearMonth_years by lia. lia.
Qed.

(** A day past the end of its month is a day of the next month. *)
Lemma days_since_epoch_rollover (y m k : Z) :
  0 ≤ y → 1 ≤ m ≤ 12 →
  days_since_epoch y m (days_in_month y m + k)
  = days_since_epoch (next_month y m).1 (next_month y m).2 k.
Proof.
  intros Hy Hm. unfold days_since_epoch, next_month.
  destruct (Z.eqb_spec m 12) as [->|Hne]; cbn [fst snd].
  - replace (Z.to_nat (y + 1)) with (S (Z.to_nat y)) by lia.
    cbn [days_of_years]. rewrite Z2Nat.id by lia.
    rewrite <- days_of_months_year.
    change (Z.to_nat (12 - 1)) with 11%nat. change (Z.to_nat (1 - 1)) with 0%nat.
    cbn [days_of_months]. change (Z.of_nat 12) with 12. lia.
  - replace (Z.to_nat (m + 1 - 1)) with (S (Z.to_nat (m - 1))) by lia.
    cbn [days_of_months]. replace (Z.of_nat (S (Z.to_nat (m - 1)))) with m by lia.
    lia.
Qed.

Lemma IsMonth_range (m : Z) : IsMonth m = true → 1 ≤ m ≤ 12.
Proof. unfold IsMonth. intros [?%Z.leb_le ?%Z.leb_le]%andb_true_iff. lia. Qed.

Lemma Date_parse_iso_days rt (s : string) y m d :
  iso_date_only s = Some (y, m, d) → IsMonth m = true → IsDay d = true →
  Date_parse rt s = Some (days_since_epoch y m d * 86400000).
Proof.
  intros Hs Hm Hd.
  destruct (iso_date_only_shape s y m d Hs) as (_ & _ & _ & Hy).
  rewrite (Date_parse_iso rt s y m d) by done.
  by rewrite MakeDay_days_since_epoch by (try apply IsMonth_range; done).
Qed.

Lemma castDate_iso_days rt (s : string) y m d :
  iso_date_only s = Some (y, m, d) → IsMonth m = true → IsDay d = true →
  castDate rt (VStr s) = Some (VDate (days_since_epoch y m d * 86400000)).
Proof.
  intros Hs Hm Hd.
  destruct (iso_date_only_shape s y m d Hs) as (_ & _ & _ & Hy).
  rewrite (castDate_iso rt s y m d) by done.
  by rewrite MakeDay_days_since_epoch by (try apply IsMonth_range; done).
Qed.

(** *** A text of digits as a date *)

Lemma Date_parse_digits rt (z : Z) :
  0 ≤ z → Date_parse rt (dec z) = date_other rt (dec z).
Proof.
  intros Hz. unfold Date_parse.
  destruct (iso_date_only (dec z)) as [[[y m] d]|] eqn:Hiso; [|done].
  destruct (iso_date_only_shape _ _ _ _ Hiso) as (_ & Hlit & _).
  by rewrite dec_literal_dec in Hlit.
Qed.

Lemma castDate_digits rt (z : Z) :
  275761 ≤ z ≤ 8640000000000000 →
  castDate rt (VStr (dec z)) = Some (VDate z).
Proof.
  intros Hz. unfold castDate.
  rewrite dec_nonempty, StringToNumber_safe by lia.
  destruct (Z.leb_spec 275761 z); [|lia]. cbn [orb Date_of_number].
  destruct (Z.leb_spec (-8640000000000000) z); [|lia].
  destruct (Z.leb_spec z 8640000000000000); [|lia]. done.
Qed.

Lemma App_post_valid rt (req : request) (c : collection) t n g a dob tv p :
  body req !! "title" = Some t → body req !! "name" = Some n →
  body req !! "designation" = Some g → body req !! "address" = Some a →
  body req !! "dob" = Some dob →
  t ≠ "" → n ≠ "" → g ≠ "" → a ≠ "" → dob ≠ "" →
  Date_parse rt dob = Some tv →
  image req = Some p → part_data p ≠ [] →
  let ct := if truthy_str (part_type p) then part_type p
            else "application/octet-stream" in
  let saved := (next_id c, inline_record t n g a tv (part_data p) ct) in
  App.post_employees rt req c =
    ({| status := 201; json := Doc saved |},
     {| next_id := N.succ (next_id c); docs := docs c ++ [saved] |}).
Proof.
  intros Ht Hn Hg Ha Hdob Ht' Hn' Hg' Ha' Hdob' Hparse Himg Hdata ct saved.
  unfold App.post_employees, App.upload_single, prop.
  rewrite Himg, Ht, Hn, Hg, Ha, Hdob.
  cbn [fmap option_fmap option_map truthy App.Date_new
       App.buffer App.mimetype].
  rewrite !truthy_str_true by done. cbn [negb orb]. rewrite Hparse.
  fold ct. rewrite save_inline; try done.
  subst ct. destruct (truthy_str (part_type p)) eqn:E; [|done].
  intros Hct. by rewrite Hct in E.
Qed.

Lemma save_external rt (c : collection) t n g a dob tv (img : jsval) :
  t ≠ "" → n ≠ "" → g ≠ "" → a ≠ "" →
  castDate rt (VStr dob) = Some (VDate tv) →
  (∃ l, img = VStr l) ∨ img = VNull →
  save rt Server.employeeSchema
    (<["title" := VStr t]>
     (<["image" := img]>
     (<["name" := VStr n]>
     (<["designation" := VStr g]>
     (<["dob" := VStr dob]>
     (<["address" := VStr a]> ∅))))))
    c
  = Return ((next_id c, external_record t n g a tv img),
            {| next_id := N.succ (next_id c);
               docs := docs c ++ [(next_id c, external_record t n g a tv img)] |}).
Proof.
  intros Ht Hn Hg Ha Hdob Himg.
  unfold save, Server.employeeSchema. cbn [hydrate]. map_lookup.
  cbn [cast castString type]. rewrite Hdob.
  destruct Himg as [[l ->] | ->]; cbn [castString];
    unfold missing; cbn [omap list_omap required type]; map_lookup;
    cbn [checkRequired];
    rewrite (truthy_str_true t), (truthy_str_true n), (truthy_str_true g),
      (truthy_str_true a) by done;
    done.
Qed.

Lemma Server_upload_accepted now (req : request) (u : Server.uploads) p :
  image req = Some p → String.prefix "image/" (part_type p) = true →
  Server.upload_single now req u =
    Return (Some {| Server.originalname := part_filename p;
                    Server.mimetype := part_type p;
                    Server.filename := Server.storage_filename now p |},
            <[Server.storage_filename now p := part_data p]> u).
Proof.
  intros Himg Hty. unfold Server.upload_single, Server.fileFilter.
  by rewrite Himg, Hty.
Qed.

Lemma Server_post_valid rt now (req : request) (c : collection)
    (u u' : Server.uploads) file t n g a dob tv :
  Server.upload_single now req u = Return (file, u') →
  body req !! "title" = Some t → body req !! "name" = Some n →
  body req !! "designation" = Some g → body req !! "address" = Some a →
  body req !! "dob" = Some dob →
  t ≠ "" → n ≠ "" → g ≠ "" → a ≠ "" →
  castDate rt (VStr dob) = Some (VDate tv) →
  let img := match file with
             | Some f => VStr ("/uploads/" +:+ Server.filename f)
             | None => VNull
             end in
  let saved := (next_id c, external_record t n g a tv img) in
  Server.post_employees rt now req c u =
    ({| status := 201; json := Doc saved |},
     {| next_id := N.succ (next_id c); docs := docs c ++ [saved] |},
     u').
Proof.
  intros Hup Ht Hn Hg Ha Hdob Ht' Hn' Hg' Ha' Hcast img saved.
  unfold Server.post_employees, prop.
  rewrite Hup, Ht, Hn, Hg, Ha, Hdob. fold img.
  rewrite (save_external rt c t n g a dob tv img); try done.
  subst img. destruct file; eauto.
Qed.

Lemma lookup_new_record rt (id : string) (c : collection) (d : document) :
  wf c → castObjectId rt id = Some (next_id c) →
  findById rt id
    {| next_id := N.succ (next_id c); docs := docs c ++ [(next_id c, d)] |}
  = Return (Some (next_id c, d)).
Proof.
  intros Hwf Hid. unfold findById. rewrite Hid. cbn [docs].
  by rewrite lookup_id_snoc_new by by apply wf_fresh.
Qed.

Lemma static_uploads_locator (u : Server.uploads) (fn : string) :
  Server.static_uploads u ("/uploads/" +:+ fn) = u !! fn.
Proof. done. Qed.

(** C4. A valid form (the four text fields not empty, [dob] a text that
    the variant converts to a date) is created with status 201, and
    reading the assigned id gives the record back with each of its fields
    as submitted, [dob] being the date that the text denotes.  For a
    date-only ISO literal of a calendar date that is midnight UTC of that
    very day: the number of days since 1 January 1970, counted out along
    the calendar, times 86400000.  In [app.js] (the file is required and
    not empty) the bytes come back as the base64 payload of a data URI,
    which decodes to them, with the content type of the upload.  In
    [server.js] the record holds a locator under which the [uploads]
    directory has the bytes of the upload (its type must be an image
    type), or [null] when no file was sent. *)
Theorem create_then_read rt (req : request) (c : collection)
    (t n g a dob : string) :
  wf c →
  body req !! "title" = Some t → body req !! "name" = Some n →
  body req !! "designation" = Some g → body req !! "address" = Some a →
  body req !! "dob" = Some dob →
  t ≠ "" → n ≠ "" → g ≠ "" → a ≠ "" → dob ≠ "" →
  let i := next_id c in
  (∀ tv p, Date_parse rt dob = Some tv →
     image req = Some p → part_data p ≠ [] →
     let ct := if truthy_str (part_type p) then part_type p
               else "application/octet-stream" in
     let stored := inline_record t n g a tv (part_data p) ct in
     let c' := (App.post_employees rt req c).2 in
     (App.post_employees rt req c).1 = {| status := 201; json := Doc (i, stored) |}
     ∧ (∀ req', castObjectId rt (params_id req') = Some i →
          App.get_employee rt req' c' =
            {| status := 200;
               json := Doc (i, <["image" :=
                                   VStr ("data:" +:+ ct +:+ ";base64,"
                                         +:+ base64 (part_data p))]> stored) |})
     ∧ base64_decode (base64 (part_data p)) = Some (part_data p))
  ∧
  (∀ tv now u p, castDate rt (VStr dob) = Some (VDate tv) →
     image req = Some p →
     String.prefix "image/" (part_type p) = true →
     let locator := "/uploads/" +:+ Server.storage_filename now p in
     let stored := external_record t n g a tv (VStr locator) in
     let c' := (Server.post_employees rt now req c u).1.2 in
     let u' := (Server.post_employees rt now req c u).2 in
     (Server.post_employees rt now req c u).1.1 =
       {| status := 201; json := Doc (i, stored) |}
     ∧ (∀ req', castObjectId rt (params_id req') = Some i →
          Server.get_employee rt req' c' =
            {| status := 200; json := Doc (i, stored) |})
     ∧ Server.static_uploads u' locator = Some (part_data p))
  ∧
  (∀ tv now u, castDate rt (VStr dob) = Some (VDate tv) →
     image req = None →
     let stored := external_record t n g a tv VNull in
     let c' := (Server.post_employees rt now req c u).1.2 in
     (Server.post_employees rt now req c u).1.1 =
       {| status := 201; json := Doc (i, stored) |}
     ∧ (∀ req', castObjectId rt (params_id req') = Some i →
          Server.get_employee rt req' c' =
            {| status := 200; json := Doc (i, stored) |}))
  ∧
  (∀ y m d, iso_date_only dob = Some (y, m, d) →
     valid_calendar_date y m d = true →
     Date_parse rt dob = Some (days_since_epoch y m d * 86400000)
     ∧ castDate rt (VStr dob)
       = Some (VDate (days_since_epoch y m d * 86400000))).
Proof.
  intros Hwf Ht Hn Hg Ha Hdob Ht' Hn' Hg' Ha' Hdob' i.
  split; [|split; [|split]].
  - intros tv p Hparse Himg Hdata ct stored c'. subst c'.
    rewrite (App_post_valid rt req c t n g a dob tv p); try done.
    cbn [fst snd]. split; [done|]. split; [|apply base64_roundtrip].
    intros req' Hid. unfold App.get_employee.
    rewrite lookup_new_record by done.
    unfold get, inline_record. map_lookup. done.
  - intros tv now u p Hcast Himg Hty locator stored c' u'. subst c' u'.
    rewrite (Server_post_valid rt now req c u _ _ t n g a dob tv
               (Server_upload_accepted now req u p Himg Hty));
      try done.
    cbn [fst snd Server.filename]. split; [done|]. split.
    + intros req' Hid. unfold Server.get_employee.
      by rewrite lookup_new_record.
    + subst locator. rewrite static_uploads_locator. apply lookup_insert_eq.
  - intros tv now u Hcast Himg stored c'. subst c'.
    assert (Server.upload_single now req u = Return (None, u)) as Hup
      by (unfold Server.upload_single; by rewrite Himg).
    rewrite (Server_post_valid rt now req c u _ _ t n g a dob tv Hup);
      try done.
    cbn [fst snd]. split; [done|].
    intros req' Hid. unfold Server.get_employee.
    by rewrite lookup_new_record.
  - intros y m d Hiso Hvalid.
    destruct (valid_calendar_date_in_range y m d Hvalid) as [Hm Hd].
    split; [by apply Date_parse_iso_days | by apply castDate_iso_days].
Qed.

(** ** Validation *)

Lemma hydrate_absent rt (sch : Schema) (obj : gmap string jsval) k :
  k ∉ sch.*1 →
  (hydrate rt sch obj).1 !! k = None ∧ k ∉ (hydrate rt sch obj).2.
Proof.
  induction sch as [|[k' p'] sch IH]; csimpl.
  - intros _. split; [apply lookup_empty | apply not_elem_of_nil].
  - intros [Hne Hk]%not_elem_of_cons. destruct (IH Hk) as [IH1 IH2].
    destruct (hydrate rt sch obj) as [d errs]. cbn [fst snd] in *.
    destruct (obj !! k') as [v|]; [|done].
    destruct v; try done;
      (destruct (cast rt (type p') _); cbn [fst snd];
       [by rewrite lookup_insert_ne | by rewrite not_elem_of_cons]).
Qed.

Lemma hydrate_path rt (sch : Schema) (obj : gmap string jsval) k p :
  NoDup sch.*1 → (k, p) ∈ sch →
  (hydrate rt sch obj).1 !! k = cast_path rt p (obj !! k)
  ∧ (k ∈ (hydrate rt sch obj).2 → cast_path rt p (obj !! k) = None).
Proof.
  induction sch as [|[k' p'] sch IH]; csimpl.
  - intros _ []%elem_of_nil.
  - intros [Hk' Hnd]%NoDup_cons [[= -> ->] | Hin]%elem_of_cons.
    + destruct (hydrate_absent rt sch obj k' Hk') as [H1 H2].
      destruct (hydrate rt sch obj) as [d errs]. cbn [fst snd] in *.
      unfold cast_path.
      destruct (obj !! k') as [v|]; [|done].
      destruct v; try done;
        (destruct (cast rt (type p') _); cbn [fst snd];
         [by rewrite lookup_insert_eq | done]).
    + assert (k ≠ k') as Hne.
      { intros ->. apply Hk'. apply list_elem_of_fmap. by exists (k', p). }
      destruct (IH Hnd Hin) as [IH1 IH2].
      destruct (hydrate rt sch obj) as [d errs]. cbn [fst snd] in *.
      destruct (obj !! k') as [v|]; [|done].
      destruct v; try done;
        (destruct (cast rt (type p') _); cbn [fst snd];
         [by rewrite lookup_insert_ne
         | split; [done | by intros [?|?]%elem_of_cons; auto]]).
Qed.

Lemma elem_of_missing (sch : Schema) (d : document) (errs : list string) k p :
  (k, p) ∈ sch → required p = true →
  checkRequired (type p) (d !! k) = false → k ∉ errs →
  k ∈ missing sch d errs.
Proof.
  intros Hin Hreq Hchk Herr. unfold missing.
  apply list_elem_of_omap. exists (k, p). split; [done|].
  by rewrite Hreq, Hchk, bool_decide_eq_false_2.
Qed.

(** A required path without an acceptable value makes [save] throw a
    validation error that lists the path, and stores nothing. *)
Lemma save_offending rt (sch : Schema) (obj : gmap string jsval)
    (c : collection) k p :
  NoDup sch.*1 → (k, p) ∈ sch → required p = true →
  checkRequired (type p) (cast_path rt p (obj !! k)) = false →
  ∃ paths, save rt sch obj c = Throw (ValidationError paths) ∧ k ∈ paths.
Proof.
  intros Hnd Hin Hreq Hchk. unfold save.
  destruct (hydrate_path rt sch obj k p Hnd Hin) as [Hd Herr].
  destruct (hydrate rt sch obj) as [d errs]. cbn [fst snd] in *.
  assert (k ∈ errs ++ missing sch d errs) as Hk.
  { apply elem_of_app. destruct (decide (k ∈ errs)); [by left|right].
    apply (elem_of_missing sch d errs k p); try done. by rewrite Hd. }
  destruct (errs ++ missing sch d errs) as [|x l] eqn:E.
  - by apply elem_of_nil in Hk.
  - by eexists.
Qed.

Lemma Server_schema_NoDup : NoDup Server.employeeSchema.*1.
Proof. apply (bool_decide_unpack _). by vm_compute. Qed.

Lemma Server_post_offending rt now (req : request) (c : collection)
    (u u' : Server.uploads) file k p :
  Server.upload_single now req u = Return (file, u') →
  (k, p) ∈ Server.employeeSchema → required p = true →
  checkRequired (type p) (cast_path rt p (Some (prop (body req) k))) = false →
  ∃ paths,
    Server.post_employees rt now req c u =
      ({| status := 500;
          json := Message "Error creating employee"
                          (Some (ValidationError paths)) |}, c, u')
    ∧ k ∈ paths.
Proof.
  intros Hup Hin Hreq Hchk. unfold Server.post_employees. rewrite Hup.
  match goal with
  | |- context [save rt Server.employeeSchema ?o c] => set (obj := o)
  end.
  assert (obj !! k = Some (prop (body req) k)) as Hobj.
  { unfold Server.employeeSchema in Hin.
    repeat (apply elem_of_cons in Hin as [[= -> ->] | Hin]);
      [subst obj; by map_lookup .. | by apply elem_of_nil in Hin];
      done. }
  destruct (save_offending rt Server.employeeSchema obj c k p
              Server_schema_NoDup Hin Hreq) as (paths & -> & Hk).
  - by rewrite Hobj.
  - by exists paths.
Qed.

Lemma prop_falsy (o : gmap string string) k :
  o !! k = None ∨ o !! k = Some "" → truthy (prop o k) = false.
Proof. unfold prop. by intros [-> | ->]. Qed.

Lemma App_post_missing_field rt (req : request) (c : collection) p f :
  image req = Some p →
  f ∈ ["title"; "name"; "designation"; "dob"; "address"] →
  body req !! f = None ∨ body req !! f = Some "" →
  App.post_employees rt req c =
    ({| status := 400; json := Message "All fields are required." None |}, c).
Proof.
  intros Himg Hf Hmissing. apply prop_falsy in Hmissing.
  unfold App.post_employees, App.upload_single. rewrite Himg.
  cbn [fmap option_fmap option_map].
  repeat (apply elem_of_cons in Hf as [-> | Hf]);
    [rewrite Hmissing; cbn [negb]; by rewrite ?orb_true_r .. |].
  by apply elem_of_nil in Hf.
Qed.

Lemma App_post_unparseable rt (req : request) (c : collection) dob :
  body req !! "dob" = Some dob → Date_parse rt dob = None →
  ∃ msg, App.post_employees rt req c =
           ({| status := 400; json := Message msg None |}, c)
         ∧ (image req = None ∧ msg = "Image file is required."
            ∨ msg = "All fields are required."
            ∨ msg = "Invalid date format.").
Proof.
  intros Hdob Hparse. unfold App.post_employees, App.upload_single.
  destruct (image req); cbn [fmap option_fmap option_map];
    [|eexists; split; [done | by left]].
  destruct (_ || _); [eexists; split; [done | right; by left]|].
  unfold prop at 1. rewrite Hdob. cbn [App.Date_new]. rewrite Hparse.
  eexists; split; [done | right; by right].
Qed.

(** C2, as the code has it.  A form whose [dob] the variant's own
    conversion rejects is not created, and the collection is as it was:
    [app.js] answers 400 when [new Date(dob)] is an Invalid Date,
    [server.js] answers 500 when the cast of the schema fails.  Both
    reject a date-only ISO literal with a month outside 1..12 or a day
    outside 1..31 (the year not being one of 0001..0031).  Neither rejects
    such a literal with a month in 1..12 and a day in 1..31: the date is
    the count of days along the calendar, so a day past the end of the
    month is a day of the next month, and the record is created with that
    date.  The two conversions are not the same: [server.js] reads a text
    of digits from 275761 to 8640000000000000 as a count of milliseconds
    and creates the record, whatever the date parser, which [app.js]
    follows, makes of it. *)
Theorem unparseable_dob_is_rejected rt (req : request) (c : collection)
    (dob : string) :
  body req !! "dob" = Some dob →
  (Date_parse rt dob = None →
   status (App.post_employees rt req c).1 = 400
   ∧ (App.post_employees rt req c).2 = c)
  ∧ (castDate rt (VStr dob) = None → ∀ now u,
     status (Server.post_employees rt now req c u).1.1 = 500
     ∧ (Server.post_employees rt now req c u).1.2 = c)
  ∧ (∀ y m d,
       iso_date_only dob = Some (y, m, d) →
       IsMonth m && IsDay d = false → IsDay y = false →
       Date_parse rt dob = None ∧ castDate rt (VStr dob) = None)
  ∧ (∀ y m d,
       iso_date_only dob = Some (y, m, d) →
       IsMonth m = true → IsDay d = true →
       let tv := days_since_epoch y m d * 86400000 in
       Date_parse rt dob = Some tv
       ∧ castDate rt (VStr dob) = Some (VDate tv)
       ∧ (days_in_month y m < d →
          tv = days_since_epoch (next_month y m).1 (next_month y m).2
                 (d - days_in_month y m) * 86400000)
       ∧ (∀ t n g a p,
            body req !! "title" = Some t → body req !! "name" = Some n →
            body req !! "designation" = Some g →
            body req !! "address" = Some a →
            t ≠ "" → n ≠ "" → g ≠ "" → a ≠ "" →
            image req = Some p → part_data p ≠ [] →
            ∃ ct,
              App.post_employees rt req c =
                ({| status := 201;
                    json := Doc (next_id c,
                                 inline_record t n g a tv (part_data p) ct) |},
                 {| next_id := N.succ (next_id c);
                    docs := docs c ++
                      [(next_id c,
                        inline_record t n g a tv (part_data p) ct)] |}))
       ∧ (∀ t n g a now u file u',
            body req !! "title" = Some t → body req !! "name" = Some n →
            body req !! "designation" = Some g →
            body req !! "address" = Some a →
            t ≠ "" → n ≠ "" → g ≠ "" → a ≠ "" →
            Server.upload_single now req u = Return (file, u') →
            ∃ img,
              Server.post_employees rt now req c u =
                ({| status := 201;
                    json := Doc (next_id c,
                                 external_record t n g a tv img) |},
                 {| next_id := N.succ (next_id c);
                    docs := docs c ++
                      [(next_id c, external_record t n g a tv img)] |},
                 u')))
  ∧ (∀ z, 275761 ≤ z ≤ 8640000000000000 → dob = dec z →
       Date_parse rt dob = date_other rt dob
       ∧ castDate rt (VStr dob) = Some (VDate z)
       ∧ (∀ t n g a now u file u',
            body req !! "title" = Some t → body req !! "name" = Some n →
            body req !! "designation" = Some g →
            body req !! "address" = Some a →
            t ≠ "" → n ≠ "" → g ≠ "" → a ≠ "" →
            Server.upload_single now req u = Return (file, u') →
            ∃ img,
              Server.post_employees rt now req c u =
                ({| status := 201;
                    json := Doc (next_id c,
                                 external_record t n g a z img) |},
                 {| next_id := N.succ (next_id c);
                    docs := docs c ++
                      [(next_id c, external_record t n g a z img)] |},
                 u'))).
Proof.
  intros Hdob. split; [|split; [|split; [|split]]].
  - intros Hparse.
    destruct (App_post_unparseable rt req c dob Hdob Hparse) as (msg & -> & _).
    done.
  - intros Hcast now u.
    destruct (Server.upload_single now req u) as [[file u']|e] eqn:Hup.
    + destruct (Server_post_offending rt now req c u u' file "dob"
                  {| type := TDate; required := true |} Hup)
        as (paths & -> & _); try done.
      * apply list_elem_of_In. cbn. auto 10.
      * unfold prop. rewrite Hdob. cbn [cast_path cast type].
        by rewrite Hcast.
    + unfold Server.post_employees. by rewrite Hup.
  - intros y m d Hiso Hmd Hy. split.
    + by eapply Date_parse_iso_out_of_range.
    + by eapply castDate_iso_out_of_range.
  - intros y m d Hiso Hm Hd tv.
    destruct (iso_date_only_shape dob y m d Hiso) as (Hne & _ & _ & Hy).
    split; [by apply Date_parse_iso_days|].
    split; [by apply castDate_iso_days|].
    split; [|split].
    + intros Hover. subst tv. f_equal.
      rewrite <- days_since_epoch_rollover
        by (try apply IsMonth_range; done || lia).
      f_equal. lia.
    + intros t n g a p Ht Hn Hg Ha Ht' Hn' Hg' Ha' Himg Hdata.
      eexists. apply (App_post_valid rt req c t n g a dob); try done.
      * intros ->. done.
      * by apply Date_parse_iso_days.
    + intros t n g a now u file u' Ht Hn Hg Ha Ht' Hn' Hg' Ha' Hup.
      eexists.
      apply (Server_post_valid rt now req c u u' file t n g a dob);
        try done.
      by apply castDate_iso_days.
  - intros z Hz ->.
    split; [apply Date_parse_digits; lia|].
    split; [by apply castDate_digits|].
    intros t n g a now u file u' Ht Hn Hg Ha Ht' Hn' Hg' Ha' Hup.
    eexists.
    apply (Server_post_valid rt now req c u u' file t n g a (dec z));
      try done.
    by apply castDate_digits.
Qed.

(** C5, as the code has it.  In [server.js] an upload whose declared type
    does not begin with [image/] is refused by the filter before the
    storage engine sees it: the handler does not run, nothing is written
    to [uploads] and nothing to the collection, on creation and on update
    alike.  No error middleware is installed, so the error reaches the
    default handler, which answers 500. *)
Theorem non_image_upload_is_rejected rt now (req : request) (c : collection)
    (u : Server.uploads) (p : part) :
  image req = Some p →
  String.prefix "image/" (part_type p) = false →
  Server.post_employees rt now req c u =
    ({| status := 500;
        json := Unhandled (Error "Only image files are allowed") |}, c, u)
  ∧ Server.put_employee rt now req c u =
    ({| status := 500;
        json := Unhandled (Error "Only image files are allowed") |}, c, u).
Proof.
  intros Himg Hty.
  unfold Server.post_employees, Server.put_employee, Server.upload_single,
    Server.fileFilter.
  by rewrite Himg, Hty.
Qed.

(** C6, as the code has it.  A form in which a text field or [dob] is
    missing or empty, or whose [dob] does not parse, is not created and
    the collection is as it was.  [app.js] (given the file) answers 400
    with one of two fixed messages, the same whichever field is at fault;
    [server.js] answers 500 with the validation error of the schema, which
    lists the offending path. *)
Theorem invalid_form_is_rejected rt (req : request) (c : collection) :
  (∀ p f,
     image req = Some p →
     f ∈ ["title"; "name"; "designation"; "dob"; "address"] →
     body req !! f = None ∨ body req !! f = Some "" →
     App.post_employees rt req c =
       ({| status := 400; json := Message "All fields are required." None |},
        c))
  ∧ (∀ p dob,
       image req = Some p →
       body req !! "dob" = Some dob → Date_parse rt dob = None →
       App.post_employees rt req c =
         ({| status := 400; json := Message "All fields are required." None |},
          c)
       ∨ App.post_employees rt req c =
         ({| status := 400; json := Message "Invalid date format." None |},
          c))
  ∧ (∀ now u file u' f,
       Server.upload_single now req u = Return (file, u') →
       (f ∈ ["title"; "name"; "designation"; "address"]
        ∧ (body req !! f = None ∨ body req !! f = Some ""))
       ∨ (f = "dob"
          ∧ (body req !! f = None
             ∨ ∃ dob, body req !! f = Some dob
                      ∧ (castDate rt (VStr dob) = None
                         ∨ castDate rt (VStr dob) = Some VNull))) →
       ∃ paths,
         Server.post_employees rt now req c u =
           ({| status := 500;
               json := Message "Error creating employee"
                               (Some (ValidationError paths)) |}, c, u')
         ∧ f ∈ paths).
Proof.
  split; [|split].
  - intros p f. apply App_post_missing_field.
  - intros p dob Himg Hdob Hparse.
    destruct (App_post_unparseable rt req c dob Hdob Hparse)
      as (msg & -> & [[Hnone ->] | [-> | ->]]);
      [congruence | by left | by right].
  - intros now u file u' f Hup [[Hf Hmissing] | [-> Hdob]].
    + apply (Server_post_offending rt now req c u u' file f
               {| type := TString; required := true |} Hup); [|done|].
      * unfold Server.employeeSchema.
        repeat (apply elem_of_cons in Hf as [-> | Hf]);
          [apply list_elem_of_In; cbn; auto 10 ..|].
        by apply elem_of_nil in Hf.
      * unfold prop. destruct Hmissing as [-> | ->]; done.
    + apply (Server_post_offending rt now req c u u' file "dob"
               {| type := TDate; required := true |} Hup); [|done|].
      * apply list_elem_of_In. cbn. auto 10.
      * unfold prop.
        destruct Hdob as [-> | (dob & -> & [Hc | Hc])]; [done|..];
          cbn [cast_path cast type]; by rewrite Hc.
Qed.

Lemma App_schema_NoDup : NoDup App.employeeSchema.*1.
Proof. apply (bool_decide_unpack _). by vm_compute. Qed.

(** The [required] validator of a [Buffer] path refuses an empty buffer:
    in [app.js] a form with an empty file is not created. *)
Lemma App_post_empty_file rt (req : request) (c : collection) p :
  image req = Some p → part_data p = [] →
  (App.post_employees rt req c).2 = c
  ∧ status (App.post_employees rt req c).1 = 400.
Proof.
  intros Himg Hdata. unfold App.post_employees, App.upload_single.
  rewrite Himg. cbn [fmap option_fmap option_map App.buffer].
  destruct (_ || _); [done|].
  destruct (App.Date_new rt _) as [parsedDob|]; [|done].
  match goal with
  | |- context [save rt App.employeeSchema ?o c] =>
      destruct (save_offending rt App.employeeSchema o c "image"
                  {| type := TBuffer; required := true |} App_schema_NoDup)
        as (paths & -> & _)
  end; try done.
  - apply list_elem_of_In. cbn. auto 10.
  - map_lookup. cbn [cast_path cast castBuffer type checkRequired].
    by rewrite Hdata.
Qed.

(** ** The invariant of the collection *)

Lemma save_wf rt (sch : Schema) (obj : gmap string jsval)
    (c c' : collection) saved :
  wf c → save rt sch obj c = Return (saved, c') → wf c'.
Proof.
  intros Hwf. unfold save. destruct (hydrate rt sch obj) as [d errs].
  destruct (errs ++ missing sch d errs); [|done].
  intros [= <- <-]. by apply wf_insert.
Qed.

Lemma findByIdAndUpdate_wf rt (sch : Schema) (id : string)
    (obj : gmap string jsval) (c c' : collection) r :
  wf c → findByIdAndUpdate rt sch id obj c = Return (r, c') → wf c'.
Proof.
  intros Hwf. unfold findByIdAndUpdate.
  destruct (castObjectId rt id) as [i|]; [|done].
  destruct (castUpdate rt sch obj) as [set|]; [|done].
  cbn [mbind completion_bind].
  destruct (castUpdateVersion rt obj) as [[]|]; [|done].
  cbn [mbind completion_bind].
  destruct (castUpdateId rt obj) as [newId|]; [|done].
  cbn [mbind completion_bind].
  destruct (lookup_id i (docs c)) as [d|]; [|by intros [= <- <-]].
  case_bool_decide; [|done]. intros [= <- <-]. by apply wf_replace.
Qed.

Lemma findByIdAndDelete_wf rt (id : string) (c c' : collection) r :
  wf c → findByIdAndDelete rt id c = Return (r, c') → wf c'.
Proof.
  intros Hwf. unfold findByIdAndDelete.
  destruct (castObjectId rt id) as [i|]; [|done].
  destruct (lookup_id i (docs c)) as [d|]; [|by intros [= <- <-]].
  intros [= <- <-]. by apply wf_remove.
Qed.

(** Every handler that writes keeps the identifiers of the collection
    pairwise distinct: the records of any run are "created records". *)
Lemma handlers_preserve_wf rt now (req : request) (c : collection)
    (u : Server.uploads) :
  wf c →
  wf (App.post_employees rt req c).2
  ∧ wf (App.put_employee rt req c).2
  ∧ wf (App.delete_employee rt req c).2
  ∧ wf (Server.post_employees rt now req c u).1.2
  ∧ wf (Server.put_employee rt now req c u).1.2
  ∧ wf (Server.delete_employee rt req c).2.
Proof.
  intros Hwf. split; [|split; [|split; [|split; [|split]]]].
  - unfold App.post_employees.
    destruct (App.upload_single req); [|done].
    destruct (_ || _); [done|].
    destruct (App.Date_new rt _); [|done].
    destruct (save rt _ _ c) as [[saved c']|] eqn:Hsave; [|done].
    by eapply save_wf.
  - unfold App.put_employee.
    destruct (findByIdAndUpdate rt _ _ _ c) as [[[e|] c']|] eqn:Hupd;
      [by eapply findByIdAndUpdate_wf .. | done].
  - unfold App.delete_employee.
    destruct (findByIdAndDelete rt _ c) as [[[e|] c']|] eqn:Hdel;
      [by eapply findByIdAndDelete_wf .. | done].
  - unfold Server.post_employees.
    destruct (Server.upload_single now req u) as [[file u']|]; [|done].
    destruct (save rt _ _ c) as [[saved c']|] eqn:Hsave; [|done].
    by eapply save_wf.
  - unfold Server.put_employee.
    destruct (Server.upload_single now req u) as [[file u']|]; [|done].
    destruct (findByIdAndUpdate rt _ _ _ c) as [[[e|] c']|] eqn:Hupd;
      [by eapply findByIdAndUpdate_wf .. | done].
  - unfold Server.delete_employee.
    destruct (findByIdAndDelete rt _ c) as [[[e|] c']|] eqn:Hdel;
      [by eapply findByIdAndDelete_wf .. | done].
Qed.

(** In [server.js] the update document names the five text fields
    whatever the form holds: a field the form lacks is there with the
    value [undefined], and it is the cast of the update that drops it. *)
Lemma Server_updatedData_fields file (req : request) k :
  k ∈ ["title"; "name"; "designation"; "dob"; "address"] →
  Server.updatedData file req !! k = Some (prop (body req) k).
Proof.
  intros Hk. unfold Server.updatedData.
  repeat (apply elem_of_cons in Hk as [-> | Hk]); [by map_lookup ..|].
  by apply elem_of_nil in Hk.
Qed.

(** ** Concrete runs *)

Lemma wfb_wf (c : collection) : wfb c = true → wf c.
Proof.
  unfold wfb. intros [Hnd Hall]%andb_true_iff. split.
  - by apply bool_decide_eq_true in Hnd.
  - intros i Hi. rewrite forallb_forall in Hall.
    by apply N.ltb_lt, Hall, list_elem_of_In.
Qed.

Example staff_inline_size : length (docs staff_inline) = 3%nat ∧ wfb staff_inline = true.
Proof. vm_compute. done. Qed.

Example staff_external_size :
  length (docs staff_external) = 3%nat ∧ wfb staff_external = true.
Proof. vm_compute. done. Qed.

Example staff_external_grace :
  lookup_id 1 (docs staff_external) = Some grace_record_external.
Proof. by vm_compute. Qed.

(** The scenario of the specification: create, then list with limit 1. *)
Example scenario_limit_one :
  let r := App.post_employees rt0 ada empty_collection in
  status r.1 = 201
  ∧ ∃ e, json r.1 = Doc e
         ∧ json (App.get_employees rt0
                   {| params_id := ""; query := {[ "limit" := "1" ]};
                      body := ∅; image := None |} r.2) = Docs [e].
Proof. cbn zeta. split; [by vm_compute|]. eexists. split; by vm_compute. Qed.

(** C2, counterexample.  [2023-02-30] is not a calendar date, yet both
    entry points create the record (status 201) and store it with the
    date of 2 March 2023. *)
Lemma feb_30_is_created :
  body feb30 !! "dob" = Some "2023-02-30"
  ∧ iso_date_only "2023-02-30" = Some (2023, 2, 30)
  ∧ valid_calendar_date 2023 2 30 = false
  ∧ Date_parse rt0 "2023-02-30" = Date_parse rt0 "2023-03-02"
  ∧ Date_parse rt0 "2023-03-02" = Some 1677715200000
  ∧ App.post_employees rt0 feb30 empty_collection =
      (let saved := (0%N, inline_record "Mr" "Ada" "Engineer" "1 Main St"
                            1677715200000
                            (part_data png) "image/png") in
       ({| status := 201; json := Doc saved |},
        {| next_id := 1; docs := [saved] |}))
  ∧ (Server.post_employees rt0 1700000000000 feb30 empty_collection ∅).1 =
      (let saved := (0%N, external_record "Mr" "Ada" "Engineer" "1 Main St"
                            1677715200000
                            (VStr "/uploads/1700000000000-ada.png")) in
       ({| status := 201; json := Doc saved |},
        {| next_id := 1; docs := [saved] |})).
Proof. repeat split; by vm_compute. Qed.

(** A [dob] of digits divides the two entry points: with a date parser
    that rejects it, [app.js] answers 400 and [server.js], which reads it
    as a count of milliseconds, creates the record. *)
Example digits_dob_divides_the_variants :
  let digits := with_field "dob" (Some "1700000000000") ada in
  Date_parse rt0 "1700000000000" = None
  ∧ castDate rt0 (VStr "1700000000000") = Some (VDate 1700000000000)
  ∧ status (App.post_employees rt0 digits empty_collection).1 = 400
  ∧ status (Server.post_employees rt0 1700000000000 digits
              empty_collection ∅).1.1 = 201.
Proof. repeat split; by vm_compute. Qed.



(** C5, counterexample.  A [text/plain] upload to [server.js] is answered
    with status 500, which is not a client error. *)
Lemma text_upload_is_a_server_error :
  let r := (Server.post_employees rt0 1700000000000 text_upload
              empty_collection ∅).1.1 in
  status r = 500 ∧ ¬ client_error r.
Proof.
  cbn zeta. split; [by vm_compute|].
  unfold client_error. vm_compute. intros [_ H]. discriminate H.
Qed.

(** C6, counterexample.  In [app.js] a form without [title] and a form
    without [address] get the same answer, whose message names neither
    field. *)
Lemma missing_field_is_not_named :
  let no_title := App.post_employees rt0 (with_field "title" None ada)
                    empty_collection in
  let no_address := App.post_employees rt0 (with_field "address" None ada)
                      empty_collection in
  no_title.1 =
    {| status := 400; json := Message "All fields are required." None |}
  ∧ no_address.1 = no_title.1
  ∧ names_field no_title.1 "title" = false
  ∧ names_field no_address.1 "address" = false.
Proof. repeat split; by vm_compute. Qed.

(** ** The theorems at concrete inputs *)

(** Moving Grace: the update of record 1 with [address] alone. *)
Lemma update_keeps_omitted_fields_witness :
  castObjectId rt0 (params_id move_grace) = Some 1%N
  ∧ lookup_id 1 (docs staff_inline) = Some grace_record
  ∧ lookup_id 1 (docs (App.put_employee rt0 move_grace staff_inline).2)
    = Some (<["address" := VStr "4 Arlington"]> grace_record).
Proof.
  assert (lookup_id 1 (docs staff_inline) = Some grace_record) as Hd
    by (vm_compute; reflexivity).
  split; [reflexivity|]. split; [exact Hd|].
  destruct (update_keeps_omitted_fields rt0 move_grace staff_inline 1
              grace_record eq_refl Hd) as [(d' & Hd' & _ & _ & Haddr) _].
  destruct (Haddr "4 Arlington" eq_refl eq_refl) as [_ ->]. exact Hd'.
Defined.



(** Ada, created in the empty collection and read back: born on
    1 January 1990, 7305 days after 1 January 1970. *)
Lemma create_then_read_witness :
  wf empty_collection
  ∧ Date_parse rt0 "1990-01-01" = Some 631152000000
  ∧ days_since_epoch 1990 1 1 = 7305
  ∧ App.get_employee rt0 (by_id "0" ada)
      (App.post_employees rt0 ada empty_collection).2
    = {| status := 200;
         json := Doc (0%N,
                      <["image" := VStr "data:image/png;base64,iVBORw=="]>
                        (inline_record "Mr" "Ada" "Engineer" "1 Main St"
                           631152000000
                           (part_data png) "image/png")) |}.
Proof.
  assert (Date_parse rt0 "1990-01-01" = Some 631152000000) as Hparse
    by (vm_compute; reflexivity).
  split; [exact wf_empty|]. split; [exact Hparse|].
  split; [vm_compute; reflexivity|].
  pose proof (create_then_read rt0 ada empty_collection
                "Mr" "Ada" "Engineer" "1 Main St" "1990-01-01"
                wf_empty eq_refl eq_refl eq_refl eq_refl eq_refl
                ltac:(discriminate) ltac:(discriminate) ltac:(discriminate)
                ltac:(discriminate) ltac:(discriminate)) as H.
  cbv zeta in H. destruct H as (Hinline & _).
  destruct (Hinline 631152000000 png Hparse eq_refl ltac:(discriminate))
    as (_ & Hread & _).
  exact (Hread (by_id "0" ada) eq_refl).
Defined.

(** Grace, deleted and then looked for. *)
Lemma delete_then_not_found_witness :
  wf staff_inline
  ∧ castObjectId rt0 (params_id (by_id "1" ada)) = Some 1%N
  ∧ lookup_id 1 (docs staff_inline) = Some grace_record
  ∧ App.get_employee rt0 (by_id "1" ada)
      (App.delete_employee rt0 (by_id "1" ada) staff_inline).2
    = {| status := 404; json := Message "Employee not found" None |}.
Proof.
  assert (wf staff_inline) as Hwf by (apply wfb_wf; vm_compute; reflexivity).
  assert (lookup_id 1 (docs staff_inline) = Some grace_record) as Hd
    by (vm_compute; reflexivity).
  split; [exact Hwf|]. split; [reflexivity|]. split; [exact Hd|].
  destruct (delete_then_not_found rt0 (by_id "1" ada) staff_inline 1
              grace_record Hwf eq_refl Hd) as [(_ & _ & _ & Hread & _) _].
  exact Hread.
Defined.


(** The listing with [limit=0]. *)
Lemma limit_zero_returns_all_witness :
  query_limit rt0 limit_zero = Int 0
  ∧ App.get_employees rt0 limit_zero staff_inline =
      {| status := 200; json := Docs (docs staff_inline) |}.
Proof.
  split; [reflexivity|].
  destruct (limit_zero_returns_all rt0 limit_zero staff_inline) as (Hzero & _).
  exact (Hzero (or_introl eq_refl)).
Defined.

(** Ada born in a month 13, on 30 February 2023, and with a date of
    digits. *)
Lemma unparseable_dob_is_rejected_witness :
  body (with_field "dob" (Some "2023-13-01") ada) !! "dob" = Some "2023-13-01"
  ∧ iso_date_only "2023-13-01" = Some (2023, 13, 1)
  ∧ status (App.post_employees rt0 (with_field "dob" (Some "2023-13-01") ada)
              empty_collection).1 = 400
  ∧ (App.post_employees rt0 (with_field "dob" (Some "2023-13-01") ada)
       empty_collection).2 = empty_collection
  ∧ status (Server.post_employees rt0 1700000000000
              (with_field "dob" (Some "2023-13-01") ada)
              empty_collection ∅).1.1 = 500
  ∧ (Server.post_employees rt0 1700000000000
       (with_field "dob" (Some "2023-13-01") ada)
       empty_collection ∅).1.2 = empty_collection
  ∧ Date_parse rt0 "2023-02-30" = Some 1677715200000
  ∧ days_since_epoch 2023 3 2 * 86400000 = 1677715200000
  ∧ (∃ ct,
       App.post_employees rt0 feb30 empty_collection =
         (let saved := (0%N, inline_record "Mr" "Ada" "Engineer" "1 Main St"
                               1677715200000 (part_data png) ct) in
          ({| status := 201; json := Doc saved |},
           {| next_id := 1; docs := [saved] |})))
  ∧ castDate rt0 (VStr "1700000000000") = Some (VDate 1700000000000).
Proof.
  split; [reflexivity|]. split; [reflexivity|].
  destruct (unparseable_dob_is_rejected rt0
              (with_field "dob" (Some "2023-13-01") ada) empty_collection
              "2023-13-01" eq_refl) as (Hreject & Hcast & Hrange & _).
  destruct (Hrange 2023 13 1 eq_refl eq_refl eq_refl) as [Hparse Hnone].
  destruct (Hreject Hparse) as [Hs Hc].
  destruct (Hcast Hnone 1700000000000 ∅) as [Hs' Hc'].
  do 4 (split; [assumption|]).
  destruct (unparseable_dob_is_rejected rt0 feb30 empty_collection
              "2023-02-30" eq_refl) as (_ & _ & _ & Hroll & _).
  destruct (Hroll 2023 2 30 eq_refl eq_refl eq_refl)
    as (Hp & _ & Hnext & Happ & _).
  split; [exact Hp|].
  split; [symmetry; exact (Hnext ltac:(vm_compute; reflexivity))|].
  split.
  - exact (Happ "Mr" "Ada" "Engineer" "1 Main St" png
             eq_refl eq_refl eq_refl eq_refl
             ltac:(discriminate) ltac:(discriminate) ltac:(discriminate)
             ltac:(discriminate) eq_refl ltac:(discriminate)).
  - destruct (unparseable_dob_is_rejected rt0
                (with_field "dob" (Some "1700000000000") ada) empty_collection
                "1700000000000" eq_refl) as (_ & _ & _ & _ & Hdig).
    destruct (Hdig 1700000000000 ltac:(split; vm_compute; discriminate)
                eq_refl) as (_ & Hc2 & _).
    exact Hc2.
Defined.

(** Ada with a text file for a picture. *)
Lemma non_image_upload_is_rejected_witness :
  image text_upload = Some {| part_filename := "notes.txt";
                              part_type := "text/plain";
                              part_data := [x68; x69] |}
  ∧ String.prefix "image/" "text/plain" = false
  ∧ Server.post_employees rt0 1700000000000 text_upload empty_collection ∅ =
      ({| status := 500;
          json := Unhandled (Error "Only image files are allowed") |},
       empty_collection, ∅).
Proof.
  split; [reflexivity|]. split; [reflexivity|].
  destruct (non_image_upload_is_rejected rt0 1700000000000 text_upload
              empty_collection ∅ _ eq_refl eq_refl) as [Hpost _].
  exact Hpost.
Defined.

(** Ada without a title. *)
Lemma invalid_form_is_rejected_witness :
  image (with_field "title" None ada) = Some png
  ∧ body (with_field "title" None ada) !! "title" = None
  ∧ App.post_employees rt0 (with_field "title" None ada) empty_collection =
      ({| status := 400; json := Message "All fields are required." None |},
       empty_collection).
Proof.
  split; [reflexivity|]. split; [reflexivity|].
  destruct (invalid_form_is_rejected rt0 (with_field "title" None ada)
              empty_collection) as (Hmissing & _).
  apply (Hmissing png "title" eq_refl).
  - apply list_elem_of_In. simpl. auto.
  - left. reflexivity.
Defined.

(** * Further properties of the handlers *)

(** ** Creation: who is created, who is refused *)

Lemma truthy_prop_filled (req : request) k :
  truthy (prop (body req) k) = true ↔ filled req k.
Proof.
  unfold prop, filled. destruct (body req !! k) as [s|]; cbn [truthy].
  - unfold truthy_str. destruct (String.eqb_spec s "") as [->|Hne]; split.
    + done.
    + intros (s & [= <-] & Hs). done.
    + intros _. by exists s.
    + done.
  - split; [done | intros (s & ? & _); done].
Qed.

Lemma filled_dec (req : request) k : filled req k ∨ (body req !! k = None ∨ body req !! k = Some "").
Proof.
  unfold filled. destruct (body req !! k) as [s|]; [|by right; left].
  destruct (decide (s = "")) as [->|Hs]; [right; by right | left; by exists s].
Qed.

Lemma not_filled (req : request) k :
  body req !! k = None ∨ body req !! k = Some "" → ¬ filled req k.
Proof. intros [H|H] (s & Hs & Hne); rewrite H in Hs; [done | by injection Hs as <-]. Qed.

Lemma App_post_cases rt (req : request) (c : collection) :
  ((∃ p, image req = Some p ∧ part_data p ≠ [])
   ∧ (∀ k, k ∈ "dob" :: text_fields → filled req k)
   ∧ (∃ dob t, body req !! "dob" = Some dob ∧ Date_parse rt dob = Some t)
   ∧ status (App.post_employees rt req c).1 = 201
   ∧ ∃ d, App.post_employees rt req c =
          ({| status := 201; json := Doc (next_id c, d) |},
           {| next_id := N.succ (next_id c);
              docs := docs c ++ [(next_id c, d)] |}))
  ∨ (¬ ((∃ p, image req = Some p ∧ part_data p ≠ [])
        ∧ (∀ k, k ∈ "dob" :: text_fields → filled req k)
        ∧ (∃ dob t, body req !! "dob" = Some dob ∧ Date_parse rt dob = Some t))
     ∧ status (App.post_employees rt req c).1 = 400
     ∧ (App.post_employees rt req c).2 = c).
Proof.
  destruct (image req) as [p|] eqn:Himg.
  2:{ right. split; [intros [(p & ? & _) _]; done|].
      unfold App.post_employees, App.upload_single. by rewrite Himg. }
  destruct (decide (part_data p = [])) as [Hdata|Hdata].
  { right. split; [intros [(p' & [= <-] & ?) _]; done|].
    destruct (App_post_empty_file rt req c p Himg Hdata). done. }
  assert (∀ k, k ∈ ["title"; "name"; "designation"; "dob"; "address"] →
            ¬ filled req k →
            status (App.post_employees rt req c).1 = 400
            ∧ (App.post_employees rt req c).2 = c) as Hmiss.
  { intros k Hk Hnf. destruct (filled_dec req k) as [|Hm]; [done|].
    by rewrite (App_post_missing_field rt req c p k Himg Hk Hm). }
  destruct (filled_dec req "title") as [(t & Ht & Ht')|Hm];
    [|right; split; [intros (_ & Hall & _); eapply not_filled, Hall; [done|];
                     apply list_elem_of_In; cbn; tauto
                    | apply (Hmiss "title"); [apply list_elem_of_In; cbn; tauto | by apply not_filled]]].
  destruct (filled_dec req "name") as [(n & Hn & Hn')|Hm];
    [|right; split; [intros (_ & Hall & _); eapply not_filled, Hall; [done|];
                     apply list_elem_of_In; cbn; tauto
                    | apply (Hmiss "name"); [apply list_elem_of_In; cbn; tauto | by apply not_filled]]].
  destruct (filled_dec req "designation") as [(g & Hg & Hg')|Hm];
    [|right; split; [intros (_ & Hall & _); eapply not_filled, Hall; [done|];
                     apply list_elem_of_In; cbn; tauto
                    | apply (Hmiss "designation"); [apply list_elem_of_In; cbn; tauto | by apply not_filled]]].
  destruct (filled_dec req "address") as [(a & Ha & Ha')|Hm];
    [|right; split; [intros (_ & Hall & _); eapply not_filled, Hall; [done|];
                     apply list_elem_of_In; cbn; tauto
                    | apply (Hmiss "address"); [apply list_elem_of_In; cbn; tauto | by apply not_filled]]].
  destruct (filled_dec req "dob") as [(dob & Hdob & Hdob')|Hm];
    [|right; split; [intros (_ & Hall & _); eapply not_filled, Hall; [done|];
                     apply list_elem_of_In; cbn; tauto
                    | apply (Hmiss "dob"); [apply list_elem_of_In; cbn; tauto | by apply not_filled]]].
  destruct (Date_parse rt dob) as [tv|] eqn:Hparse.
  - left. split; [by exists p|]. split.
    + intros k Hk. unfold text_fields in Hk.
      repeat (apply elem_of_cons in Hk as [-> | Hk]); [by eexists..|].
      by apply elem_of_nil in Hk.
    + split; [by exists dob, tv|].
      rewrite (App_post_valid rt req c t n g a dob tv p); try done.
      split; [done|]. by eexists.
  - right. split.
    + intros (_ & _ & dob' & t' & Hd & Hp). congruence.
    + destruct (App_post_unparseable rt req c dob Hdob Hparse) as (msg & -> & _).
      done.
Qed.

Lemma castDate_cases rt (v : jsval) :
  castDate rt v = None ∨ castDate rt v = Some VNull
  ∨ ∃ t, castDate rt v = Some (VDate t).
Proof.
  unfold castDate. destruct v as [| |s|b|t]; try (by right; left).
  - destruct (String.eqb s ""); [by right; left|].
    destruct (match StringToNumber rt s with Int z => _ | Inf _ => _ | NaN => _ end).
    + destruct (Date_of_number _); [right; right; by eexists | by left].
    + destruct (Date_parse rt s); [right; right; by eexists | by left].
  - destruct (Date_parse rt _); [right; right; by eexists | by left].
  - right; right; by eexists.
Qed.

Lemma Server_upload_cases now (req : request) (u : Server.uploads) :
  (upload_ok req ∧ ∃ file u', Server.upload_single now req u = Return (file, u'))
  ∨ (¬ upload_ok req
     ∧ Server.upload_single now req u
       = Throw (Error "Only image files are allowed")).
Proof.
  unfold upload_ok, Server.upload_single, Server.fileFilter.
  destruct (image req) as [p|]; [|left; split; [by left | by eexists _, _]].
  destruct (String.prefix "image/" (part_type p)) eqn:E; cbn.
  - left. split; [right; by exists p | by eexists _, _].
  - right. split; [|done]. intros [|(p' & [= <-] & ?)]; congruence.
Qed.

Lemma Server_post_cases rt now (req : request) (c : collection)
    (u : Server.uploads) :
  (upload_ok req
   ∧ (∀ k, k ∈ text_fields → filled req k)
   ∧ (∃ dob t, body req !! "dob" = Some dob
               ∧ castDate rt (VStr dob) = Some (VDate t))
   ∧ ∃ d, (Server.post_employees rt now req c u).1 =
          ({| status := 201; json := Doc (next_id c, d) |},
           {| next_id := N.succ (next_id c);
              docs := docs c ++ [(next_id c, d)] |}))
  ∨ (¬ (upload_ok req
        ∧ (∀ k, k ∈ text_fields → filled req k)
        ∧ (∃ dob t, body req !! "dob" = Some dob
                    ∧ castDate rt (VStr dob) = Some (VDate t)))
     ∧ status (Server.post_employees rt now req c u).1.1 = 500
     ∧ (Server.post_employees rt now req c u).1.2 = c).
Proof.
  destruct (Server_upload_cases now req u)
    as [(Hok & file & u' & Hup) | (Hbad & Hup)].
  2:{ right. split; [tauto|]. unfold Server.post_employees. by rewrite Hup. }
  assert (∀ k, k ∈ text_fields → ¬ filled req k →
            status (Server.post_employees rt now req c u).1.1 = 500
            ∧ (Server.post_employees rt now req c u).1.2 = c) as Hmiss.
  { intros k Hk Hnf. destruct (filled_dec req k) as [|Hm]; [done|].
    destruct (Server_post_offending rt now req c u u' file k
                {| type := TString; required := true |} Hup)
      as (paths & -> & _); try done.
    - unfold text_fields in Hk.
      repeat (apply elem_of_cons in Hk as [-> | Hk]);
        [apply list_elem_of_In; cbn; auto 10 ..|].
      by apply elem_of_nil in Hk.
    - unfold prop. destruct Hm as [-> | ->]; done. }
  assert (∀ k, k ∈ text_fields → filled req k ∨
            (¬ (∀ k, k ∈ text_fields → filled req k)
             ∧ status (Server.post_employees rt now req c u).1.1 = 500
             ∧ (Server.post_employees rt now req c u).1.2 = c)) as Hdec.
  { intros k Hk. destruct (filled_dec req k) as [|Hm]; [by left|right].
    split; [intros Hall; exact (not_filled req k Hm (Hall k Hk))|].
    apply (Hmiss k); [done | by apply not_filled]. }
  assert (∀ k, k ∈ text_fields → In k text_fields) as Hin
    by (intros k; apply list_elem_of_In).
  destruct (Hdec "title") as [(t & Ht & Ht')|(Hn & Hr)];
    [apply list_elem_of_In; cbn; tauto | | right; split; [tauto | done]].
  destruct (Hdec "name") as [(n & Hn & Hn')|(Hn & Hr)];
    [apply list_elem_of_In; cbn; tauto | | right; split; [tauto | done]].
  destruct (Hdec "designation") as [(g & Hg & Hg')|(Hn0 & Hr)];
    [apply list_elem_of_In; cbn; tauto | | right; split; [tauto | done]].
  destruct (Hdec "address") as [(a & Ha & Ha')|(Hn0 & Hr)];
    [apply list_elem_of_In; cbn; tauto | | right; split; [tauto | done]].
  assert ((∃ dob t, body req !! "dob" = Some dob
                    ∧ castDate rt (VStr dob) = Some (VDate t))
          ∨ (¬ (∃ dob t, body req !! "dob" = Some dob
                         ∧ castDate rt (VStr dob) = Some (VDate t))
             ∧ checkRequired TDate
                 (cast_path rt {| type := TDate; required := true |}
                    (Some (prop (body req) "dob"))) = false)) as [Hd|[Hnd Hchk]].
  { unfold prop. destruct (body req !! "dob") as [dob|] eqn:Hdob.
    - destruct (castDate_cases rt (VStr dob)) as [Hc|[Hc|[t' Hc]]].
      + right. split; [intros (? & ? & [= <-] & ?); congruence|].
        cbn [cast_path cast type]. by rewrite Hc.
      + right. split; [intros (? & ? & [= <-] & ?); congruence|].
        cbn [cast_path cast type]. by rewrite Hc.
      + left. by exists dob, t'.
    - right. split; [intros (? & ? & ? & _); done | done]. }
  - destruct Hd as (dob & tv & Hdob & Hcast). left.
    split; [done|]. split.
    + intros k Hk. unfold text_fields in Hk.
      repeat (apply elem_of_cons in Hk as [-> | Hk]); [by eexists..|].
      by apply elem_of_nil in Hk.
    + split; [by exists dob, tv|].
      rewrite (Server_post_valid rt now req c u u' file t n g a dob tv Hup);
        try done.
      by eexists.
  - right. split; [tauto|].
    destruct (Server_post_offending rt now req c u u' file "dob"
                {| type := TDate; required := true |} Hup)
      as (paths & -> & _); try done.
    apply list_elem_of_In. cbn. auto 10.
Qed.

(** X1. The create handler of [app.js] answers 201 exactly when the form
    comes with a non-empty file, holds a non-empty text at [title],
    [name], [designation], [address] and [dob], and the runtime parses
    [dob].  It then appends one record under the next identifier and
    answers with it; in every other case it answers 400 and the
    collection is as before. *)
Theorem App_create_succeeds_iff rt (req : request) (c : collection) :
  let r := App.post_employees rt req c in
  (status r.1 = 201 ↔
     (∃ p, image req = Some p ∧ part_data p ≠ [])
     ∧ (∀ k, k ∈ "dob" :: text_fields → filled req k)
     ∧ (∃ dob t, body req !! "dob" = Some dob ∧ Date_parse rt dob = Some t))
  ∧ (status r.1 = 201 →
     ∃ d, r = ({| status := 201; json := Doc (next_id c, d) |},
               {| next_id := N.succ (next_id c);
                  docs := docs c ++ [(next_id c, d)] |}))
  ∧ (status r.1 ≠ 201 → status r.1 = 400 ∧ r.2 = c).
Proof.
  cbn zeta.
  destruct (App_post_cases rt req c)
    as [(H1 & H2 & H3 & H201 & d & Hrun) | (Hnot & H400 & Hsame)].
  - split; [done|]. split; [by exists d | congruence].
  - split; [split; [congruence | done]|]. split; [congruence | done].
Qed.

(** X2. The create handler of [server.js] answers 201 exactly when the
    upload, if there is one, passes the filter, the four text fields are
    not empty and [dob] casts to a date.  It then appends one record
    under the next identifier; in every other case it answers 500 and
    the collection is as before. *)
Theorem Server_create_succeeds_iff rt now (req : request) (c : collection)
    (u : Server.uploads) :
  let r := Server.post_employees rt now req c u in
  (status r.1.1 = 201 ↔
     upload_ok req
     ∧ (∀ k, k ∈ text_fields → filled req k)
     ∧ (∃ dob t, body req !! "dob" = Some dob
                 ∧ castDate rt (VStr dob) = Some (VDate t)))
  ∧ (status r.1.1 = 201 →
     ∃ d, r.1 = ({| status := 201; json := Doc (next_id c, d) |},
                 {| next_id := N.succ (next_id c);
                    docs := docs c ++ [(next_id c, d)] |}))
  ∧ (status r.1.1 ≠ 201 → status r.1.1 = 500 ∧ r.1.2 = c).
Proof.
  cbn zeta.
  destruct (Server_post_cases rt now req c u)
    as [(H1 & H2 & H3 & d & Hrun) | (Hnot & H500 & Hsame)].
  - rewrite Hrun. cbn [fst snd status]. split; [done|].
    split; [by exists d | done].
  - split; [split; [congruence | done]|]. split; [congruence | done].
Qed.

(** ** Updates and requests by identifier *)

Lemma castUpdate_absent rt (sch : Schema) (obj set : gmap string jsval) k :
  k ∉ sch.*1 → castUpdate rt sch obj = Return set → set !! k = None.
Proof.
  revert set. induction sch as [|[k' p'] sch IH]; intros set; cbn [castUpdate].
  - intros _ [= <-]. apply lookup_empty.
  - csimpl. intros [Hne Hk]%not_elem_of_cons.
    destruct (castUpdate rt sch obj) as [set'|]; [|done].
    cbn [mbind completion_bind]. specialize (IH set' Hk eq_refl).
    destruct (obj !! k') as [w|]; [|by intros [= <-]].
    destruct w; try (by intros [= <-]);
      (destruct (cast rt (type p') _); [|done]; intros [= <-];
       by rewrite lookup_insert_ne).
Qed.

(** A successful cast of an update sets each path of the schema to the
    cast of the value the update gives it, and leaves out the paths the
    update does not define. *)
Lemma castUpdate_path rt (sch : Schema) (obj set : gmap string jsval) k p :
  NoDup sch.*1 → (k, p) ∈ sch →
  castUpdate rt sch obj = Return set →
  set !! k = cast_path rt p (obj !! k).
Proof.
  revert set. induction sch as [|[k' p'] sch IH]; intros set; csimpl.
  - intros _ []%elem_of_nil.
  - intros [Hk' Hnd]%NoDup_cons Hin.
    destruct (castUpdate rt sch obj) as [set'|e] eqn:Htail; [|done].
    cbn [mbind completion_bind].
    apply elem_of_cons in Hin as [[= -> ->] | Hin].
    + pose proof (castUpdate_absent rt sch obj set' k' Hk' Htail) as Hnone.
      unfold cast_path. destruct (obj !! k') as [v|]; [|by intros [= <-]].
      destruct v; try (by intros [= <-]);
        (destruct (cast rt (type p') _); [|done]; intros [= <-];
         by rewrite lookup_insert_eq).
    + assert (k ≠ k') as Hne.
      { intros ->. apply Hk'. apply list_elem_of_fmap. by exists (k', p). }
      specialize (IH set' Hnd Hin eq_refl).
      destruct (obj !! k') as [v|]; [|by intros [= <-]].
      destruct v; try (by intros [= <-]);
        (destruct (cast rt (type p') _); [|done]; intros [= <-];
         by rewrite lookup_insert_ne).
Qed.

Lemma castUpdate_throws rt (sch : Schema) (obj : gmap string jsval) k p v :
  (k, p) ∈ sch → obj !! k = Some v → v ≠ VUndef →
  cast rt (type p) v = None →
  ∃ e, castUpdate rt sch obj = Throw e.
Proof.
  intros Hin Hobj Hdef Hcast.
  induction sch as [|[k' p'] sch IH]; [by apply elem_of_nil in Hin|].
  cbn [castUpdate].
  destruct (castUpdate rt sch obj) as [set'|e]; [|by eexists].
  cbn [mbind completion_bind].
  apply elem_of_cons in Hin as [[= <- <-] | Hin].
  - rewrite Hobj. destruct v; try done; rewrite Hcast; by eexists.
  - destruct (IH Hin) as [e He]. done.
Qed.

Lemma findByIdAndUpdate_spec rt (sch : Schema) (id : string)
    (obj : gmap string jsval) (c : collection) :
  match findByIdAndUpdate rt sch id obj c with
  | Throw _ => True
  | Return (None, c') =>
      c' = c ∧ ∃ i, castObjectId rt id = Some i ∧ lookup_id i (docs c) = None
  | Return (Some (j, d'), c') =>
      ∃ d set, castObjectId rt id = Some j ∧ lookup_id j (docs c) = Some d
               ∧ castUpdate rt sch obj = Return set
               ∧ d' = set ∪ d
               ∧ c' = {| next_id := next_id c;
                         docs := replace_id j d' (docs c) |}
  end.
Proof.
  unfold findByIdAndUpdate.
  destruct (castObjectId rt id) as [i|]; [|done].
  destruct (castUpdate rt sch obj) as [set|]; [|done].
  cbn [mbind completion_bind].
  destruct (castUpdateVersion rt obj) as [[]|]; [|done].
  cbn [mbind completion_bind].
  destruct (castUpdateId rt obj) as [newId|]; [|done].
  cbn [mbind completion_bind].
  destruct (lookup_id i (docs c)) as [d|] eqn:Hd; [|by eauto].
  case_bool_decide; [|done]. by exists d, set.
Qed.

Lemma findByIdAndUpdate_ids rt (sch : Schema) (id : string)
    (obj : gmap string jsval) (c c' : collection) r :
  findByIdAndUpdate rt sch id obj c = Return (r, c') →
  (docs c').*1 = (docs c).*1 ∧ next_id c' = next_id c
  ∧ length (docs c') = length (docs c).
Proof.
  intros H. pose proof (findByIdAndUpdate_spec rt sch id obj c) as Hs.
  rewrite H in Hs. destruct r as [[j d']|].
  - destruct Hs as (d & set & _ & _ & _ & _ & ->). cbn [docs next_id].
    split; [apply replace_id_ids|]. split; [done|].
    rewrite <- (length_fmap fst), replace_id_ids. by rewrite length_fmap.
  - by destruct Hs as [-> _].
Qed.

(** X12. An update never adds or removes a record: the identifiers in
    their order and the next identifier are as before; in both files and
    whatever the answer. *)
Theorem update_keeps_ids rt now (req : request) (c : collection)
    (u : Server.uploads) :
  ((docs (App.put_employee rt req c).2).*1 = (docs c).*1
   ∧ next_id (App.put_employee rt req c).2 = next_id c)
  ∧ ((docs (Server.put_employee rt now req c u).1.2).*1 = (docs c).*1
     ∧ next_id (Server.put_employee rt now req c u).1.2 = next_id c).
Proof.
  split.
  - rewrite App_put_collection.
    destruct (findByIdAndUpdate rt _ _ _ c) as [[r c']|] eqn:H; [|done].
    by destruct (findByIdAndUpdate_ids _ _ _ _ _ _ _ H) as (? & ? & _).
  - rewrite Server_put_collection.
    destruct (Server.upload_single now req u) as [[file u']|]; [|done].
    destruct (findByIdAndUpdate rt _ _ _ c) as [[r c']|] eqn:H; [|done].
    by destruct (findByIdAndUpdate_ids _ _ _ _ _ _ _ H) as (? & ? & _).
Qed.

Lemma findByIdAndUpdate_absent rt (sch : Schema) (id : string)
    (obj : gmap string jsval) (c : collection) i :
  castObjectId rt id = Some i → lookup_id i (docs c) = None →
  findByIdAndUpdate rt sch id obj c = Return (None, c)
  ∨ ∃ e, findByIdAndUpdate rt sch id obj c = Throw e.
Proof.
  intros Hid Hd. unfold findByIdAndUpdate. rewrite Hid.
  destruct (castUpdate rt sch obj) as [set|]; [|right; by eexists].
  cbn [mbind completion_bind].
  destruct (castUpdateVersion rt obj) as [[]|]; [|right; by eexists].
  cbn [mbind completion_bind].
  destruct (castUpdateId rt obj) as [newId|]; [|right; by eexists].
  cbn [mbind completion_bind]. rewrite Hd. by left.
Qed.

(** X15. A well-formed identifier that no record has: fetch and delete
    answer 404, update answers 404 (or 500 when a field does not cast),
    and the collection is as before; in both files. *)
Theorem absent_id_changes_nothing rt now (req : request) (c : collection)
    (u : Server.uploads) (i : N) :
  castObjectId rt (params_id req) = Some i →
  lookup_id i (docs c) = None →
  status (App.get_employee rt req c) = 404
  ∧ status (Server.get_employee rt req c) = 404
  ∧ ((status (App.put_employee rt req c).1 = 404
      ∨ status (App.put_employee rt req c).1 = 500)
     ∧ (App.put_employee rt req c).2 = c)
  ∧ ((status (Server.put_employee rt now req c u).1.1 = 404
      ∨ status (Server.put_employee rt now req c u).1.1 = 500)
     ∧ (Server.put_employee rt now req c u).1.2 = c)
  ∧ (status (App.delete_employee rt req c).1 = 404
     ∧ (App.delete_employee rt req c).2 = c)
  ∧ (status (Server.delete_employee rt req c).1 = 404
     ∧ (Server.delete_employee rt req c).2 = c).
Proof.
  intros Hid Hd.
  split; [unfold App.get_employee; by rewrite (findById_absent rt _ c i)|].
  split; [unfold Server.get_employee; by rewrite (findById_absent rt _ c i)|].
  split.
  { unfold App.put_employee.
    destruct (findByIdAndUpdate_absent rt App.employeeSchema (params_id req)
                (App.updates req) c i Hid Hd) as [-> | [e ->]]; auto. }
  split.
  { unfold Server.put_employee.
    destruct (Server.upload_single now req u) as [[file u']|]; [|auto].
    destruct (findByIdAndUpdate_absent rt Server.employeeSchema (params_id req)
                (Server.updatedData file req) c i Hid Hd) as [-> | [e ->]];
      auto. }
  split.
  - unfold App.delete_employee.
    by rewrite (findByIdAndDelete_absent rt _ c i).
  - unfold Server.delete_employee.
    by rewrite (findByIdAndDelete_absent rt _ c i).
Qed.

(** X16. An identifier that does not cast to an [ObjectId]: fetch,
    update and delete answer 500 with the cast error on [_id], not 404,
    and the collection is as before; in both files. *)
Theorem malformed_id_is_a_server_error rt now (req : request)
    (c : collection) (u : Server.uploads) :
  castObjectId rt (params_id req) = None →
  App.get_employee rt req c =
    {| status := 500;
       json := Message "Error fetching employee" (Some (CastError "_id")) |}
  ∧ App.put_employee rt req c =
    ({| status := 500;
        json := Message "Error updating Employee" (Some (CastError "_id")) |},
     c)
  ∧ App.delete_employee rt req c =
    ({| status := 500;
        json := Message "Error deleting Employee" (Some (CastError "_id")) |},
     c)
  ∧ Server.get_employee rt req c =
    {| status := 500;
       json := Message "Error fetching employee" (Some (CastError "_id")) |}
  ∧ (status (Server.put_employee rt now req c u).1.1 = 500
     ∧ (Server.put_employee rt now req c u).1.2 = c)
  ∧ Server.delete_employee rt req c =
    ({| status := 500;
        json := Message "Error deleting employee" (Some (CastError "_id")) |},
     c).
Proof.
  intros Hid.
  unfold App.get_employee, App.put_employee, App.delete_employee,
    Server.get_employee, Server.put_employee, Server.delete_employee,
    findById, findByIdAndUpdate, findByIdAndDelete.
  rewrite Hid. repeat split; try done.
  all: by destruct (Server.upload_single now req u) as [[file u']|].
Qed.

(** X11. An update whose [dob] does not cast to a date answers 500 and
    changes nothing, in both files, whether the record exists or not. *)
Theorem update_with_bad_dob_changes_nothing rt now (req : request)
    (c : collection) (u : Server.uploads) (dob : string) :
  body req !! "dob" = Some dob →
  castDate rt (VStr dob) = None →
  (status (App.put_employee rt req c).1 = 500
   ∧ (App.put_employee rt req c).2 = c)
  ∧ (status (Server.put_employee rt now req c u).1.1 = 500
     ∧ (Server.put_employee rt now req c u).1.2 = c).
Proof.
  intros Hdob Hcast. split.
  - unfold App.put_employee.
    assert (App.updates req !! "dob" = Some (VStr dob)) as Hupd.
    { unfold App.updates. destruct (App.upload_single req).
      - rewrite !lookup_insert_ne by done. by rewrite lookup_fmap, Hdob.
      - by rewrite lookup_fmap, Hdob. }
    destruct (castUpdate_throws rt App.employeeSchema (App.updates req) "dob"
                {| type := TDate; required := true |} (VStr dob))
      as [e He]; try done.
    { apply list_elem_of_In. cbn. auto 10. }
    unfold findByIdAndUpdate.
    destruct (castObjectId rt (params_id req)); [|done].
    by rewrite He.
  - unfold Server.put_employee.
    destruct (Server.upload_single now req u) as [[file u']|]; [|done].
    assert (Server.updatedData file req !! "dob" = Some (VStr dob)) as Hupd.
    { rewrite Server_updatedData_fields by (apply list_elem_of_In; cbn; auto 10).
      unfold prop. by rewrite Hdob. }
    destruct (castUpdate_throws rt Server.employeeSchema
                (Server.updatedData file req) "dob"
                {| type := TDate; required := true |} (VStr dob))
      as [e He]; try done.
    { apply list_elem_of_In. cbn. auto 10. }
    unfold findByIdAndUpdate.
    destruct (castObjectId rt (params_id req)); [|done].
    by rewrite He.
Qed.

Lemma App_put_spec rt (req : request) (c : collection) :
  status (App.put_employee rt req c).1 = 200 →
  ∃ i d set,
    castObjectId rt (params_id req) = Some i
    ∧ lookup_id i (docs c) = Some d
    ∧ castUpdate rt App.employeeSchema (App.updates req) = Return set
    ∧ App.put_employee rt req c =
        ({| status := 200; json := Doc (i, set ∪ d) |},
         {| next_id := next_id c; docs := replace_id i (set ∪ d) (docs c) |}).
Proof.
  unfold App.put_employee.
  pose proof (findByIdAndUpdate_spec rt App.employeeSchema (params_id req)
                (App.updates req) c) as Hs.
  destruct (findByIdAndUpdate rt _ _ _ c) as [[[[j d']|] c']|]; try done.
  destruct Hs as (d & set & Hid & Hd & Hset & -> & ->). intros _.
  by exists j, d, set.
Qed.

Lemma Server_put_spec rt now (req : request) (c : collection)
    (u : Server.uploads) :
  status (Server.put_employee rt now req c u).1.1 = 200 →
  ∃ file u' i d set,
    Server.upload_single now req u = Return (file, u')
    ∧ castObjectId rt (params_id req) = Some i
    ∧ lookup_id i (docs c) = Some d
    ∧ castUpdate rt Server.employeeSchema (Server.updatedData file req)
      = Return set
    ∧ Server.put_employee rt now req c u =
        ({| status := 200; json := Doc (i, set ∪ d) |},
         {| next_id := next_id c; docs := replace_id i (set ∪ d) (docs c) |},
         u').
Proof.
  unfold Server.put_employee.
  destruct (Server.upload_single now req u) as [[file u']|]; [|done].
  pose proof (findByIdAndUpdate_spec rt Server.employeeSchema (params_id req)
                (Server.updatedData file req) c) as Hs.
  destruct (findByIdAndUpdate rt _ _ _ c) as [[[[j d']|] c']|]; try done.
  destruct Hs as (d & set & Hid & Hd & Hset & -> & ->). intros _.
  by exists file, u', j, d, set.
Qed.

(** X7. A successful update through [app.js] that comes with a file
    stores the bytes and the content type of that file, and the fetch of
    the record then serves them as a data URI. *)
Theorem App_update_replaces_image rt (req : request) (c : collection)
    (p : part) :
  image req = Some p →
  status (App.put_employee rt req c).1 = 200 →
  ∃ i d',
    json (App.put_employee rt req c).1 = Doc (i, d')
    ∧ lookup_id i (docs (App.put_employee rt req c).2) = Some d'
    ∧ d' !! "image" = Some (VBuf (part_data p))
    ∧ d' !! "contentType" = Some (VStr (part_type p))
    ∧ App.get_employee rt req (App.put_employee rt req c).2 =
        {| status := 200;
           json := Doc (i, <["image" :=
                              VStr ("data:" +:+ part_type p +:+ ";base64,"
                                    +:+ base64 (part_data p))]> d') |}.
Proof.
  intros Himg H200.
  destruct (App_put_spec rt req c H200) as (i & d & set & Hid & Hd & Hset & ->).
  cbn [fst snd json docs].
  assert (App.updates req !! "image" = Some (VBuf (part_data p))
          ∧ App.updates req !! "contentType" = Some (VStr (part_type p)))
    as [Hui Huc].
  { unfold App.updates, App.upload_single. rewrite Himg.
    cbn [fmap option_fmap option_map App.buffer App.mimetype].
    split; by map_lookup. }
  assert (set !! "image" = Some (VBuf (part_data p))) as Hsi.
  { rewrite (castUpdate_path rt App.employeeSchema (App.updates req) set
               "image" {| type := TBuffer; required := true |}
               App_schema_NoDup); [by rewrite Hui | | done].
    apply list_elem_of_In. cbn. auto 10. }
  assert (set !! "contentType" = Some (VStr (part_type p))) as Hsc.
  { rewrite (castUpdate_path rt App.employeeSchema (App.updates req) set
               "contentType" {| type := TString; required := true |}
               App_schema_NoDup); [by rewrite Huc | | done].
    apply list_elem_of_In. cbn. auto 10. }
  exists i, (set ∪ d). split; [done|].
  split; [by eapply lookup_id_replace_eq|].
  split; [by apply lookup_union_Some_l|].
  split; [by apply lookup_union_Some_l|].
  unfold App.get_employee, findById. rewrite Hid. cbn [docs].
  rewrite (lookup_id_replace_eq i d _ _ Hd). cbn [fmap option_fmap option_map].
  unfold get. rewrite (lookup_union_Some_l _ _ _ _ Hsi),
    (lookup_union_Some_l _ _ _ _ Hsc). done.
Qed.

(** X8. A successful update through [server.js] that comes with a file
    stores the locator of the new file; the uploads directory serves the
    bytes under it, and every other file is as before (the file of the
    old locator included). *)
Theorem Server_update_replaces_image rt now (req : request) (c : collection)
    (u : Server.uploads) (p : part) :
  image req = Some p →
  status (Server.put_employee rt now req c u).1.1 = 200 →
  let locator := "/uploads/" +:+ Server.storage_filename now p in
  let u' := (Server.put_employee rt now req c u).2 in
  ∃ i d',
    json (Server.put_employee rt now req c u).1.1 = Doc (i, d')
    ∧ lookup_id i (docs (Server.put_employee rt now req c u).1.2) = Some d'
    ∧ d' !! "image" = Some (VStr locator)
    ∧ Server.static_uploads u' locator = Some (part_data p)
    ∧ (∀ fn, fn ≠ Server.storage_filename now p → u' !! fn = u !! fn).
Proof.
  intros Himg H200 locator u'. subst u'.
  destruct (Server_put_spec rt now req c u H200)
    as (file & u' & i & d & set & Hup & Hid & Hd & Hset & ->).
  cbn [fst snd json docs].
  unfold Server.upload_single, Server.fileFilter in Hup. rewrite Himg in Hup.
  destruct (negb _); [done|]. cbn in Hup. injection Hup as <- <-.
  assert (set !! "image" = Some (VStr locator)) as Hsi.
  { assert (("image", {| type := TString; required := false |})
            ∈ Server.employeeSchema) as Hin
      by (apply list_elem_of_In; cbn; auto 10).
    rewrite (castUpdate_path rt _ _ _ _ _ Server_schema_NoDup Hin Hset).
    unfold Server.updatedData. cbn [truthy Server.filename].
    assert (truthy_str ("/uploads/" +:+ Server.storage_filename now p) = true)
      as -> by done.
    by map_lookup. }
  exists i, (set ∪ d). split; [done|].
  split; [by eapply lookup_id_replace_eq|].
  split; [by apply lookup_union_Some_l|].
  split; [subst locator; rewrite static_uploads_locator; apply lookup_insert_eq|].
  intros fn Hne. by rewrite lookup_insert_ne.
Qed.

Lemma findByIdAndUpdate_set rt (sch : Schema) (id : string)
    (obj set : gmap string jsval) (c : collection) i d :
  castObjectId rt id = Some i → lookup_id i (docs c) = Some d →
  castUpdate rt sch obj = Return set →
  obj !! "_id" = None → obj !! "__v" = None →
  findByIdAndUpdate rt sch id obj c =
    Return (Some (i, set ∪ d),
            {| next_id := next_id c;
               docs := replace_id i (set ∪ d) (docs c) |}).
Proof.
  intros Hid Hd Hset Hnoid Hnov.
  unfold findByIdAndUpdate, castUpdateId, castUpdateVersion.
  rewrite Hid, Hset, Hnoid, Hnov. cbn [mbind completion_bind]. rewrite Hd.
  by rewrite bool_decide_eq_true_2 by by left.
Qed.

(** X10. Updates do not run the validators of the schema: for an
    existing record, an update whose only field is an empty [dob] answers
    200 and stores [null] there, and one whose only field is an empty
    [title] answers 200 and stores the empty string; in both files. *)
Theorem update_skips_validation rt now (req : request) (c : collection)
    (u : Server.uploads) (i : N) (d : document) :
  castObjectId rt (params_id req) = Some i →
  lookup_id i (docs c) = Some d →
  image req = None →
  (body req = {[ "dob" := "" ]} →
   App.put_employee rt req c =
     ({| status := 200; json := Doc (i, <["dob" := VNull]> d) |},
      {| next_id := next_id c;
         docs := replace_id i (<["dob" := VNull]> d) (docs c) |})
   ∧ (Server.put_employee rt now req c u).1 =
     ({| status := 200; json := Doc (i, <["dob" := VNull]> d) |},
      {| next_id := next_id c;
         docs := replace_id i (<["dob" := VNull]> d) (docs c) |}))
  ∧ (body req = {[ "title" := "" ]} →
     App.put_employee rt req c =
       ({| status := 200; json := Doc (i, <["title" := VStr ""]> d) |},
        {| next_id := next_id c;
           docs := replace_id i (<["title" := VStr ""]> d) (docs c) |})
     ∧ (Server.put_employee rt now req c u).1 =
       ({| status := 200; json := Doc (i, <["title" := VStr ""]> d) |},
        {| next_id := next_id c;
           docs := replace_id i (<["title" := VStr ""]> d) (docs c) |})).
Proof.
  intros Hid Hd Himg.
  assert (Server.upload_single now req u = Return (None, u)) as Hup
    by (unfold Server.upload_single; by rewrite Himg).
  split; intros Hbody; split.
  - unfold App.put_employee.
    assert (App.updates req = {[ "dob" := VStr "" ]}) as ->.
    { unfold App.updates, App.upload_single. rewrite Himg, Hbody.
      cbn [fmap option_fmap option_map]. by rewrite map_fmap_singleton. }
    rewrite (findByIdAndUpdate_set rt _ _ _ {[ "dob" := VNull ]} c i d Hid Hd).
    + by rewrite <- insert_union_singleton_l.
    + unfold App.employeeSchema. cbn [castUpdate]. map_lookup.
      cbn [mbind completion_bind cast castDate type String.eqb].
      by rewrite insert_empty.
    + by map_lookup.
    + by map_lookup.
  - unfold Server.put_employee. rewrite Hup.
    assert (Server.updatedData None req =
              <["title" := VUndef]> (<["name" := VUndef]>
              (<["designation" := VUndef]> (<["dob" := VStr ""]>
              (<["address" := VUndef]> ∅))))) as ->.
    { unfold Server.updatedData, prop. rewrite Hbody. by map_lookup. }
    rewrite (findByIdAndUpdate_set rt _ _ _ {[ "dob" := VNull ]} c i d Hid Hd).
    + by rewrite <- insert_union_singleton_l.
    + unfold Server.employeeSchema. cbn [castUpdate]. map_lookup.
      cbn [mbind completion_bind cast castDate type String.eqb].
      by rewrite insert_empty.
    + by map_lookup.
    + by map_lookup.
  - unfold App.put_employee.
    assert (App.updates req = {[ "title" := VStr "" ]}) as ->.
    { unfold App.updates, App.upload_single. rewrite Himg, Hbody.
      cbn [fmap option_fmap option_map]. by rewrite map_fmap_singleton. }
    rewrite (findByIdAndUpdate_set rt _ _ _ {[ "title" := VStr "" ]} c i d
               Hid Hd).
    + by rewrite <- insert_union_singleton_l.
    + unfold App.employeeSchema. cbn [castUpdate]. map_lookup.
      cbn [mbind completion_bind cast castString type].
      by rewrite insert_empty.
    + by map_lookup.
    + by map_lookup.
  - unfold Server.put_employee. rewrite Hup.
    assert (Server.updatedData None req =
              <["title" := VStr ""]> (<["name" := VUndef]>
              (<["designation" := VUndef]> (<["dob" := VUndef]>
              (<["address" := VUndef]> ∅))))) as ->.
    { unfold Server.updatedData, prop. rewrite Hbody. by map_lookup. }
    rewrite (findByIdAndUpdate_set rt _ _ _ {[ "title" := VStr "" ]} c i d
               Hid Hd).
    + by rewrite <- insert_union_singleton_l.
    + unfold Server.employeeSchema. cbn [castUpdate]. map_lookup.
      cbn [mbind completion_bind cast castString type].
      by rewrite insert_empty.
    + by map_lookup.
    + by map_lookup.
Qed.

(** ** Deletion, record by record *)

Lemma filter_other_ids (i : N) (l : list (N * document)) :
  i ∉ l.*1 → filter (λ e, e.1 ≠ i) l = l.
Proof.
  induction l as [|[j d] l IH]; csimpl; [done|].
  intros [Hne Hl]%not_elem_of_cons.
  rewrite filter_cons_True by (cbn; congruence). by rewrite IH.
Qed.

Lemma remove_id_filter (i : N) (l : list (N * document)) :
  NoDup l.*1 → remove_id i l = filter (λ e, e.1 ≠ i) l.
Proof.
  induction l as [|[j d] l IH]; csimpl; [done|].
  intros [Hj Hnd]%NoDup_cons.
  destruct (N.eqb_spec i j) as [->|Hne].
  - rewrite filter_cons_False by (cbn; tauto).
    by rewrite filter_other_ids.
  - rewrite filter_cons_True by (cbn; congruence). by rewrite IH.
Qed.

Lemma remove_id_length (i : N) (l : list (N * document)) d :
  lookup_id i l = Some d → S (length (remove_id i l)) = length l.
Proof.
  induction l as [|[j e] l IH]; simpl; [done|].
  destruct (N.eqb_spec i j); [done|]. intros H. simpl. by rewrite IH.
Qed.

Lemma remove_id_snoc_new (i : N) (d : document) (l : list (N * document)) :
  i ∉ l.*1 → remove_id i (l ++ [(i, d)]) = l.
Proof.
  induction l as [|[j e] l IH]; csimpl.
  - by rewrite N.eqb_refl.
  - intros [Hne Hl]%not_elem_of_cons.
    destruct (N.eqb_spec i j); [done|]. by rewrite IH.
Qed.

(** X17. Deleting an existing record removes that record and nothing
    else: the remaining records are the others in their order, there is
    one record less, and the next identifier is as before. *)
Theorem delete_removes_exactly_one rt (req : request) (c : collection)
    (i : N) (d : document) :
  wf c →
  castObjectId rt (params_id req) = Some i →
  lookup_id i (docs c) = Some d →
  (docs (App.delete_employee rt req c).2 = filter (λ e, e.1 ≠ i) (docs c)
   ∧ S (length (docs (App.delete_employee rt req c).2)) = length (docs c)
   ∧ next_id (App.delete_employee rt req c).2 = next_id c)
  ∧ (docs (Server.delete_employee rt req c).2 = filter (λ e, e.1 ≠ i) (docs c)
     ∧ S (length (docs (Server.delete_employee rt req c).2)) = length (docs c)
     ∧ next_id (Server.delete_employee rt req c).2 = next_id c).
Proof.
  intros [Hnd _] Hid Hd.
  unfold App.delete_employee, Server.delete_employee.
  rewrite (findByIdAndDelete_found rt _ c i d) by done. cbn [snd docs next_id].
  pose proof (remove_id_filter i (docs c) Hnd).
  pose proof (remove_id_length i (docs c) d Hd).
  done.
Qed.

(** X18. A record created and then deleted leaves the records as they
    were; in [server.js] the file it was created with is still served. *)
Theorem create_then_delete rt now (req req' : request) (c : collection)
    (u : Server.uploads) :
  wf c →
  castObjectId rt (params_id req') = Some (next_id c) →
  (status (App.post_employees rt req c).1 = 201 →
   status (App.delete_employee rt req' (App.post_employees rt req c).2).1 = 200
   ∧ docs (App.delete_employee rt req' (App.post_employees rt req c).2).2
     = docs c)
  ∧ (status (Server.post_employees rt now req c u).1.1 = 201 →
     status (Server.delete_employee rt req'
               (Server.post_employees rt now req c u).1.2).1 = 200
     ∧ docs (Server.delete_employee rt req'
               (Server.post_employees rt now req c u).1.2).2 = docs c
     ∧ (∀ p, image req = Some p →
          Server.static_uploads (Server.post_employees rt now req c u).2
            ("/uploads/" +:+ Server.storage_filename now p)
          = Some (part_data p))).
Proof.
  intros Hwf Hid. pose proof (wf_fresh c Hwf) as Hfresh. split.
  - intros H201.
    destruct (App_post_cases rt req c)
      as [(_ & _ & _ & _ & d & ->) | (_ & H400 & _)]; [|congruence].
    cbn [snd]. unfold App.delete_employee.
    rewrite (findByIdAndDelete_found rt _ _ (next_id c) d Hid)
      by (cbn [docs]; by apply lookup_id_snoc_new).
    cbn [fst snd status docs]. by rewrite remove_id_snoc_new.
  - intros H201.
    destruct (Server_post_cases rt now req c u)
      as [(Hok & _ & _ & d & Hrun) | (_ & H500 & _)]; [|congruence].
    rewrite Hrun. cbn [snd]. unfold Server.delete_employee.
    rewrite (findByIdAndDelete_found rt _ _ (next_id c) d Hid)
      by (cbn [docs]; by apply lookup_id_snoc_new).
    cbn [fst snd status docs]. rewrite remove_id_snoc_new by done.
    split; [done|]. split; [done|].
    intros p Himg. rewrite static_uploads_locator.
    unfold Server.post_employees.
    destruct Hok as [Hnone | (p' & Himg' & Hty)]; [congruence|].
    assert (p' = p) as -> by congruence.
    rewrite (Server_upload_accepted now req u p Himg Hty).
    destruct (save rt _ _ c) as [[saved c']|]; cbn [snd]; apply lookup_insert_eq.
Qed.

(** ** The uploads directory *)

Lemma Server_upload_result now (req : request) (u : Server.uploads) :
  match Server.upload_single now req u with
  | Throw _ => True
  | Return (None, u') => u' = u ∧ image req = None
  | Return (Some f, u') =>
      ∃ p, image req = Some p
           ∧ Server.filename f = Server.storage_filename now p
           ∧ u' = <[Server.storage_filename now p := part_data p]> u
  end.
Proof.
  unfold Server.upload_single, Server.fileFilter.
  destruct (image req) as [p|]; [|done].
  destruct (negb _); [done|]. cbn. by exists p.
Qed.

Lemma Server_post_uploads rt now (req : request) (c : collection)
    (u : Server.uploads) :
  (Server.post_employees rt now req c u).2 =
    match Server.upload_single now req u with
    | Return (_, u') => u'
    | Throw _ => u
    end.
Proof.
  unfold Server.post_employees.
  destruct (Server.upload_single now req u) as [[file u']|]; [|done].
  by destruct (save rt _ _ c) as [[saved c']|].
Qed.

Lemma Server_put_uploads rt now (req : request) (c : collection)
    (u : Server.uploads) :
  (Server.put_employee rt now req c u).2 =
    match Server.upload_single now req u with
    | Return (_, u') => u'
    | Throw _ => u
    end.
Proof.
  unfold Server.put_employee.
  destruct (Server.upload_single now req u) as [[file u']|]; [|done].
  by destruct (findByIdAndUpdate rt _ _ _ c) as [[[] ?]|].
Qed.

(** X4. In [server.js] the upload is stored before the form is looked at:
    a form that the schema refuses, sent with an accepted image, answers
    500 and creates no record, and the file is in the uploads directory
    all the same, served under its locator. *)
Theorem rejected_form_keeps_file rt now (req : request) (c : collection)
    (u : Server.uploads) (p : part) :
  image req = Some p →
  String.prefix "image/" (part_type p) = true →
  ¬ ((∀ k, k ∈ text_fields → filled req k)
     ∧ (∃ dob t, body req !! "dob" = Some dob
                 ∧ castDate rt (VStr dob) = Some (VDate t))) →
  let r := Server.post_employees rt now req c u in
  status r.1.1 = 500
  ∧ r.1.2 = c
  ∧ r.2 = <[Server.storage_filename now p := part_data p]> u
  ∧ Server.static_uploads r.2
      ("/uploads/" +:+ Server.storage_filename now p) = Some (part_data p).
Proof.
  intros Himg Hty Hbad. cbn zeta.
  destruct (Server_post_cases rt now req c u)
    as [(_ & H1 & H2 & _) | (_ & H500 & Hsame)]; [tauto|].
  split; [done|]. split; [done|].
  rewrite Server_post_uploads, (Server_upload_accepted now req u p Himg Hty).
  split; [done|]. rewrite static_uploads_locator. apply lookup_insert_eq.
Qed.

Lemma all_digits_string_of_uint (d : Decimal.uint) :
  all_digits (NilEmpty.string_of_uint d) = true.
Proof. induction d; simpl; done. Qed.

Lemma all_digits_dec (z : Z) : 0 ≤ z → all_digits (dec z) = true.
Proof.
  intros Hz. unfold dec. destruct z as [|p|p]; [done | | lia].
  cbn. unfold NilZero.string_of_uint.
  pose proof (all_digits_string_of_uint (Pos.to_uint p)).
  by destruct (Pos.to_uint p).
Qed.

Lemma dec_inj (z z' : Z) : 0 ≤ z → 0 ≤ z' → dec z = dec z' → z = z'.
Proof.
  intros Hz Hz' Heq. pose proof (dec_literal_dec z Hz) as H.
  rewrite Heq, dec_literal_dec in H by done. congruence.
Qed.

Lemma split_at_hyphen (s1 s2 r1 r2 : string) :
  all_digits s1 = true → all_digits s2 = true →
  s1 +:+ String "-" r1 = s2 +:+ String "-" r2 →
  s1 = s2 ∧ r1 = r2.
Proof.
  revert s2. induction s1 as [|a s1 IH]; intros [|b s2]; cbn.
  - intros _ _ [= ->]. done.
  - intros _ [Hb _]%andb_true_iff [= <- _]. done.
  - intros [Ha _]%andb_true_iff _ [= -> _]. done.
  - intros [_ H1]%andb_true_iff [_ H2]%andb_true_iff [= -> Heq].
    destruct (IH s2 H1 H2 Heq) as [-> ->]. done.
Qed.

(** X6. The name under which [server.js] stores an upload determines
    both the reading of the clock and the original name: two uploads get
    the same name only at the same millisecond and under the same
    original name. *)
Theorem storage_filename_inj (now now' : Z) (p p' : part) :
  0 ≤ now → 0 ≤ now' →
  Server.storage_filename now p = Server.storage_filename now' p' →
  now = now' ∧ part_filename p = part_filename p'.
Proof.
  intros Hn Hn' Heq. unfold Server.storage_filename in Heq.
  apply split_at_hyphen in Heq as [Hdec Hname]; [|by apply all_digits_dec..].
  split; [by apply dec_inj | done].
Qed.

(** ** server.js listing *)

(** A parameter that the query leaves out behaves as its default written
    out. *)
Lemma default_as_written rt (o : option Z) (n : Z) :
  0 ≤ n < 2 ^ 53 →
  ToNumber rt (default (PNum (Int n)) (PStr <$> (dec <$> o)))
    = ToNumber rt (PStr (dec (default n o)))
  ∧ parseInt rt (default (PNum (Int n)) (PStr <$> (dec <$> o)))
    = parseInt rt (PStr (dec (default n o))).
Proof.
  intros Hn. destruct o as [z|]; [done|].
  cbn [fmap option_fmap option_map default ToNumber].
  rewrite StringToNumber_safe, parseInt_safe by lia. split; [done|].
  unfold parseInt. assert (2 ^ 53 < 10 ^ 21) by done.
  by destruct (Z.ltb_spec (Z.abs n) (10 ^ 21)); [|lia].
Qed.

(** X19. The listing of [server.js] takes [page = 1] and [limit = 10]
    for the parameters the query leaves out: the answer is the one to the
    query with these values written out, and without any parameter the
    first ten records. *)
Theorem listing_defaults rt (req : request) (c : collection)
    (op ol : option Z) :
  (∀ p, op = Some p → 1 ≤ p) → (∀ l, ol = Some l → 1 ≤ l) →
  query req !! "page" = dec <$> op →
  query req !! "limit" = dec <$> ol →
  Server.get_employees rt req c =
    Server.get_employees rt (page_request (default 1 op) (default 10 ol)) c
  ∧ (op = None → ol = None →
     employees_of (Server.get_employees rt req c) = take 10 (docs c)).
Proof.
  intros Hp Hl Hqp Hql. split.
  - destruct (page_request_query (default 1 op) (default 10 ol)) as [H1 H2].
    unfold Server.get_employees. rewrite Hqp, Hql, H1, H2.
    destruct (default_as_written rt op 1) as [-> ->]; [done|].
    destruct (default_as_written rt ol 10) as [-> ->]; [done|].
    done.
  - intros -> ->. unfold Server.get_employees. rewrite Hqp, Hql.
    cbn [fmap option_fmap option_map default id ToNumber sub].
    rewrite (round_double_safe (1 - 1)) by done. cbn [mul].
    rewrite (round_double_safe ((1 - 1) * 10)) by done.
    change (parseInt rt (PNum (Int 10))) with (Int 10).
    done.
Qed.

(** X20. The listing of [server.js] with [limit=0]: every page from 1 up
    to [2^53] answers 200 with all the records, and the page count is no
    finite number ([Infinity], or [NaN] for an empty collection), which
    JSON writes as [null]. *)
Theorem Server_limit_zero_lists_all rt (req : request) (c : collection)
    (op : option Z) :
  (∀ p, op = Some p → 1 ≤ p < 2 ^ 53) →
  query req !! "page" = dec <$> op →
  query req !! "limit" = Some "0" →
  let totalPages := if countDocuments c =? 0 then NaN else Inf false in
  Server.get_employees rt req c =
    {| status := 200;
       json := Page (countDocuments c) totalPages (Int (default 1 op))
                    (docs c) |}
  ∧ JSON_number totalPages = None.
Proof.
  intros Hp Hqp Hql totalPages. split; [|by subst totalPages; case_match].
  unfold Server.get_employees. rewrite Hqp, Hql.
  assert (1 ≤ default 1 op < 2 ^ 53) as Hp'
    by (destruct op; [by apply Hp | done]).
  assert (ToNumber rt (default (PNum (Int 1)) (PStr <$> (dec <$> op)))
            = Int (default 1 op)
          ∧ parseInt rt (default (PNum (Int 1)) (PStr <$> (dec <$> op)))
            = Int (default 1 op)) as [-> ->].
  { destruct (default_as_written rt op 1) as [-> ->]; [done|].
    cbn [ToNumber]. by rewrite StringToNumber_safe, parseInt_safe by lia. }
  change (Some "0") with (Some (dec 0)).
  cbn [fmap option_fmap option_map default id ToNumber].
  rewrite StringToNumber_safe, parseInt_safe by done.
  cbn [sub]. rewrite (round_double_safe (default 1 op - 1)) by lia.
  cbn [mul]. rewrite Z.mul_0_r. change (round_double 0) with (Int 0).
  cbn [Mongoose.skip Mongoose.limit Math_ceil_div mbind completion_bind
       Z.leb Z.compare Z.to_nat Z.eqb drop].
  unfold find, countDocuments in *. subst totalPages.
  replace (Z.of_nat (length (docs c)) <? 0) with false
    by (symmetry; apply Z.ltb_ge; lia).
  done.
Qed.

(** X21. The listing of [server.js] with a page number below 1 and a
    limit of at least 1 asks the store for a negative skip, which it
    refuses: the answer is 500. *)
Theorem page_below_one_is_a_server_error rt (req : request) (c : collection)
    (sp sl : string) (p l : Z) :
  query req !! "page" = Some sp → query req !! "limit" = Some sl →
  StringToNumber rt sp = Int p → StringToNumber rt sl = Int l →
  p < 1 → 1 ≤ l →
  Server.get_employees rt req c =
    {| status := 500;
       json := Message "Error fetching employees"
                       (Some (MongoServerError "skip")) |}.
Proof.
  intros Hqp Hql Hp Hl Hp1 Hl1. unfold Server.get_employees.
  rewrite Hqp, Hql. cbn [fmap option_fmap option_map default id ToNumber].
  rewrite Hp, Hl. cbn [sub].
  destruct (round_double_neg (p - 1)) as [-> | (z & -> & Hz)]; [lia| |];
    cbn [mul].
  - by destruct (Z.eqb_spec l 0); [lia|].
  - destruct (round_double_neg (z * l)) as [-> | (w & -> & Hw)]; [nia|done|].
    cbn [Mongoose.skip].
    by replace (0 <=? w) with false by (symmetry; apply Z.leb_gt; lia).
Qed.

(** ** Form fields the handlers do not read *)

Lemma body_with_field_ne (k k' : string) (v : option string) (req : request) :
  k ≠ k' → body (with_field k v req) !! k' = body req !! k'.
Proof.
  intros Hne. unfold with_field. cbn [body].
  destruct v; [by rewrite lookup_insert_ne | by rewrite lookup_delete_ne].
Qed.

Lemma prop_with_field_ne (k k' : string) (v : option string) (req : request) :
  k ≠ k' → prop (body (with_field k v req)) k' = prop (body req) k'.
Proof. intros Hne. unfold prop. by rewrite body_with_field_ne. Qed.

Lemma castUpdate_ext rt (sch : Schema) (obj obj' : gmap string jsval) :
  (∀ k, k ∈ sch.*1 → obj !! k = obj' !! k) →
  castUpdate rt sch obj = castUpdate rt sch obj'.
Proof.
  induction sch as [|[k p] sch IH]; intros Hext; [done|].
  cbn [castUpdate]. rewrite IH, (Hext k).
  - done.
  - csimpl. by left.
  - intros k' Hk'. apply Hext. csimpl. by right.
Qed.

Lemma findByIdAndUpdate_ext rt (sch : Schema) (id : string)
    (obj obj' : gmap string jsval) (c : collection) :
  (∀ k, k ∈ sch.*1 → obj !! k = obj' !! k) →
  obj !! "_id" = obj' !! "_id" → obj !! "__v" = obj' !! "__v" →
  findByIdAndUpdate rt sch id obj c = findByIdAndUpdate rt sch id obj' c.
Proof.
  intros Hext Hid Hv. unfold findByIdAndUpdate, castUpdateId, castUpdateVersion.
  by rewrite (castUpdate_ext rt sch obj obj' Hext), Hid, Hv.
Qed.

Lemma form_fields_ne (k : string) :
  k ∉ form_fields →
  k ≠ "title" ∧ k ≠ "name" ∧ k ≠ "designation" ∧ k ≠ "dob" ∧ k ≠ "address".
Proof.
  intros Hk. repeat split; intros ->; apply Hk, list_elem_of_In; cbn; auto 10.
Qed.


(** X9. The update handler of [app.js] passes the whole form to the
    store: without a file, a text field [image] replaces the stored bytes
    by the bytes of the text. *)
Theorem App_update_image_from_text rt (req : request) (c : collection)
    (s : string) :
  image req = None →
  body req !! "image" = Some s →
  status (App.put_employee rt req c).1 = 200 →
  ∃ i d',
    json (App.put_employee rt req c).1 = Doc (i, d')
    ∧ lookup_id i (docs (App.put_employee rt req c).2) = Some d'
    ∧ d' !! "image" = Some (VBuf (list_byte_of_string s)).
Proof.
  intros Himg Hs H200.
  destruct (App_put_spec rt req c H200) as (i & d & set & Hid & Hd & Hset & ->).
  cbn [fst snd json docs].
  assert (App.updates req !! "image" = Some (VStr s)) as Hui.
  { unfold App.updates, App.upload_single. rewrite Himg.
    cbn [fmap option_fmap option_map]. by rewrite lookup_fmap, Hs. }
  assert (set !! "image" = Some (VBuf (list_byte_of_string s))) as Hsi.
  { rewrite (castUpdate_path rt App.employeeSchema (App.updates req) set
               "image" {| type := TBuffer; required := true |}
               App_schema_NoDup); [by rewrite Hui | | done].
    apply list_elem_of_In. cbn. auto 10. }
  exists i, (set ∪ d). split; [done|].
  split; [by eapply lookup_id_replace_eq|].
  by apply lookup_union_Some_l.
Qed.

(** ** Sequences of requests *)

Lemma findByIdAndDelete_spec rt (id : string) (c : collection) :
  match findByIdAndDelete rt id c with
  | Throw _ => True
  | Return (None, c') => c' = c
  | Return (Some (i, d), c') =>
      lookup_id i (docs c) = Some d
      ∧ c' = {| next_id := next_id c; docs := remove_id i (docs c) |}
  end.
Proof.
  unfold findByIdAndDelete. destruct (castObjectId rt id) as [i|]; [|done].
  by destruct (lookup_id i (docs c)) as [d|] eqn:Hd.
Qed.

Lemma save_spec rt (sch : Schema) (obj : gmap string jsval)
    (c c' : collection) saved :
  NoDup sch.*1 →
  save rt sch obj c = Return (saved, c') →
  ∃ d, saved = (next_id c, d)
       ∧ c' = {| next_id := N.succ (next_id c);
                 docs := docs c ++ [(next_id c, d)] |}
       ∧ ∀ k p, (k, p) ∈ sch → d !! k = cast_path rt p (obj !! k).
Proof.
  intros Hnd. unfold save.
  pose proof (λ k p, hydrate_path rt sch obj k p Hnd) as Hpath.
  destruct (hydrate rt sch obj) as [d errs]. cbn [fst snd] in Hpath.
  destruct (errs ++ missing sch d errs); [|done].
  intros [= <- <-]. exists d. split; [done|]. split; [done|].
  intros k p Hin. by apply Hpath.
Qed.

Lemma App_handle_change rt r (req : request) (c : collection) :
  change c (App_handle rt r req c).2.
Proof.
  destruct r; cbn [App_handle snd]; try by apply Unchanged.
  - destruct (App_post_cases rt req c) as [(_ & _ & _ & _ & d & ->) | (_ & _ & ->)].
    + by eapply Inserted.
    + by apply Unchanged.
  - unfold App.put_employee.
    pose proof (findByIdAndUpdate_spec rt App.employeeSchema (params_id req)
                  (App.updates req) c) as Hs.
    destruct (findByIdAndUpdate rt _ _ _ c) as [[[[j d']|] c']|]; cbn [snd].
    + destruct Hs as (d & set & _ & _ & _ & _ & ->). by eapply Replaced.
    + destruct Hs as [-> _]. by apply Unchanged.
    + by apply Unchanged.
  - unfold App.delete_employee.
    pose proof (findByIdAndDelete_spec rt (params_id req) c) as Hs.
    destruct (findByIdAndDelete rt _ c) as [[[[j d']|] c']|]; cbn [snd].
    + destruct Hs as [_ ->]. by eapply Removed.
    + subst. by apply Unchanged.
    + by apply Unchanged.
Qed.

Lemma Server_handle_change rt now r (req : request) (c : collection)
    (u : Server.uploads) :
  change c (Server_handle rt now r req c u).1.2.
Proof.
  destruct r; cbn [Server_handle fst snd]; try by apply Unchanged.
  - destruct (Server_post_cases rt now req c u)
      as [(_ & _ & _ & d & ->) | (_ & _ & ->)].
    + by eapply Inserted.
    + by apply Unchanged.
  - unfold Server.put_employee.
    destruct (Server.upload_single now req u) as [[file u']|];
      [|by apply Unchanged].
    pose proof (findByIdAndUpdate_spec rt Server.employeeSchema (params_id req)
                  (Server.updatedData file req) c) as Hs.
    destruct (findByIdAndUpdate rt _ _ _ c) as [[[[j d']|] c']|]; cbn [fst snd].
    + destruct Hs as (d & set & _ & _ & _ & _ & ->). by eapply Replaced.
    + destruct Hs as [-> _]. by apply Unchanged.
    + by apply Unchanged.
  - unfold Server.delete_employee.
    pose proof (findByIdAndDelete_spec rt (params_id req) c) as Hs.
    destruct (findByIdAndDelete rt _ c) as [[[[j d']|] c']|]; cbn [snd].
    + destruct Hs as [_ ->]. by eapply Removed.
    + subst. by apply Unchanged.
    + by apply Unchanged.
Qed.

Lemma change_wf (c c' : collection) : change c c' → wf c → wf c'.
Proof.
  intros [-> | d -> | i d' -> | i ->] Hwf; [done | by apply wf_insert | |].
  - destruct Hwf as [Hnd Hlt]. split; cbn [docs next_id];
      by rewrite replace_id_ids.
  - destruct Hwf as [Hnd Hlt]. split; cbn [docs next_id].
    + by apply remove_id_NoDup.
    + intros j Hj. by apply Hlt, (remove_id_ids_subseteq i).
Qed.

Lemma change_retired (c c' : collection) (i : N) :
  change c c' → (i < next_id c)%N → i ∉ ids c →
  (i < next_id c')%N ∧ i ∉ ids c'.
Proof.
  unfold ids. intros [-> | d -> | j d' -> | j ->] Hlt Hout; cbn [docs next_id].
  - done.
  - split; [lia|]. rewrite fmap_app. intros [?|Hin]%elem_of_app; [done|].
    cbn in Hin. apply list_elem_of_singleton in Hin. lia.
  - by rewrite replace_id_ids.
  - split; [done|]. intros Hin. by apply Hout, (remove_id_ids_subseteq j).
Qed.

Lemma App_run_wf rt l c : wf c → wf (App_run rt l c).
Proof.
  revert c. induction l as [|[r req] l IH]; intros c Hwf; [done|].
  cbn [App_run]. eapply IH, change_wf; [apply App_handle_change | done].
Qed.

Lemma Server_run_wf rt l c u : wf c → wf (Server_run rt l c u).1.
Proof.
  revert c u. induction l as [|[[now r] req] l IH]; intros c u Hwf; [done|].
  cbn [Server_run].
  pose proof (Server_handle_change rt now r req c u) as Hch.
  destruct (Server_handle rt now r req c u) as [[resp c'] u'].
  eapply IH, change_wf; [apply Hch | done].
Qed.

(** X23. In every state reached from the empty collection the
    identifiers are pairwise distinct and below the next identifier, and
    an identifier that was issued and is no longer in use is never in use
    again; in both files. *)
Theorem ids_are_never_reused rt (l l' : list (route * request))
    (s s' : list (Z * route * request)) (i : N) :
  let c := App_run rt l empty_collection in
  let e := Server_run rt s empty_collection ∅ in
  (wf c ∧ ((i < next_id c)%N → i ∉ ids c → i ∉ ids (App_run rt l' c)))
  ∧ (wf e.1
     ∧ ((i < next_id e.1)%N → i ∉ ids e.1 →
        i ∉ ids (Server_run rt s' e.1 e.2).1)).
Proof.
  cbn zeta. split; (split; [by (apply App_run_wf || apply Server_run_wf); apply wf_empty|]).
  - generalize (App_run rt l empty_collection). clear l.
    induction l' as [|[r req] l' IH]; intros c Hlt Hout; [done|].
    cbn [App_run].
    destruct (change_retired c _ i (App_handle_change rt r req c) Hlt Hout).
    by apply IH.
  - destruct (Server_run rt s empty_collection ∅) as [c u]. cbn [fst snd].
    clear s. revert c u.
    induction s' as [|[[now r] req] s' IH]; intros c u Hlt Hout; [done|].
    cbn [Server_run].
    pose proof (Server_handle_change rt now r req c u) as Hch.
    destruct (Server_handle rt now r req c u) as [[resp c'] u'].
    cbn [fst snd] in Hch.
    destruct (change_retired c c' i Hch Hlt Hout). by apply IH.
Qed.

(** ** What the stored records hold *)

Lemma Forall_replace_id (P : document → Prop) i d' l :
  Forall (λ e, P e.2) l → P d' → Forall (λ e, P e.2) (replace_id i d' l).
Proof.
  intros Hl Hd. induction Hl as [|[j d] l Hj Hl IH]; cbn [replace_id]; [done|].
  destruct (N.eqb i j); by constructor.
Qed.

Lemma Forall_remove_id (P : document → Prop) i l :
  Forall (λ e, P e.2) l → Forall (λ e, P e.2) (remove_id i l).
Proof.
  intros Hl. induction Hl as [|[j d] l Hj Hl IH]; cbn [remove_id]; [done|].
  destruct (N.eqb i j); [done | by constructor].
Qed.

Lemma App_in_schema_image :
  ("image", {| type := TBuffer; required := true |}) ∈ App.employeeSchema.
Proof. apply list_elem_of_In. cbn. auto 10. Qed.

Lemma App_in_schema_contentType :
  ("contentType", {| type := TString; required := true |}) ∈ App.employeeSchema.
Proof. apply list_elem_of_In. cbn. auto 10. Qed.

Lemma Server_in_schema_image :
  ("image", {| type := TString; required := false |}) ∈ Server.employeeSchema.
Proof. apply list_elem_of_In. cbn. auto 10. Qed.

Lemma App_post_record rt (req : request) (c : collection) :
  (App.post_employees rt req c).2 = c
  ∨ ∃ d, (App.post_employees rt req c).2 =
           {| next_id := N.succ (next_id c);
              docs := docs c ++ [(next_id c, d)] |}
         ∧ inline_image d.
Proof.
  unfold App.post_employees.
  destruct (App.upload_single req) as [file|]; [|by left].
  destruct (_ || _); [by left|].
  destruct (App.Date_new rt _); [|by left].
  destruct (save rt _ _ c) as [[saved c']|] eqn:Hsave; [|by left].
  apply (save_spec rt _ _ _ _ _ App_schema_NoDup) in Hsave
    as (d & -> & -> & Hpath).
  right. exists d. split; [done|]. split.
  - exists (App.buffer file). rewrite (Hpath _ _ App_in_schema_image).
    by map_lookup.
  - eexists. rewrite (Hpath _ _ App_in_schema_contentType). by map_lookup.
Qed.

Lemma App_updates_image (req : request) :
  App.updates req !! "image" = None
  ∨ (∃ s, App.updates req !! "image" = Some (VStr s))
  ∨ (∃ b, App.updates req !! "image" = Some (VBuf b)).
Proof.
  unfold App.updates. destruct (App.upload_single req) as [file|].
  - right; right. eexists. by map_lookup.
  - rewrite lookup_fmap. destruct (body req !! "image"); cbn; eauto.
Qed.

Lemma App_updates_contentType (req : request) :
  App.updates req !! "contentType" = None
  ∨ (∃ s, App.updates req !! "contentType" = Some (VStr s)).
Proof.
  unfold App.updates. destruct (App.upload_single req) as [file|].
  - right. eexists. by map_lookup.
  - rewrite lookup_fmap. destruct (body req !! "contentType"); cbn; eauto.
Qed.

Lemma App_put_record rt (req : request) (d set : document) :
  castUpdate rt App.employeeSchema (App.updates req) = Return set →
  inline_image d → inline_image (set ∪ d).
Proof.
  intros Hset [[b Hb] [s Hs]]. split.
  - pose proof (castUpdate_path rt _ _ _ _ _ App_schema_NoDup
                  App_in_schema_image Hset) as Hi.
    destruct (App_updates_image req) as [E | [[s' E] | [b' E]]];
      rewrite E in Hi; cbn in Hi.
    + exists b. by rewrite lookup_union_r.
    + eexists. by apply lookup_union_Some_l.
    + eexists. by apply lookup_union_Some_l.
  - pose proof (castUpdate_path rt _ _ _ _ _ App_schema_NoDup
                  App_in_schema_contentType Hset) as Hi.
    destruct (App_updates_contentType req) as [E | [s' E]];
      rewrite E in Hi; cbn in Hi.
    + exists s. by rewrite lookup_union_r.
    + eexists. by apply lookup_union_Some_l.
Qed.

Lemma App_handle_inline rt r (req : request) (c : collection) :
  Forall (λ e, inline_image e.2) (docs c) →
  Forall (λ e, inline_image e.2) (docs (App_handle rt r req c).2).
Proof.
  intros Hc. destruct r; cbn [App_handle snd]; try done.
  - destruct (App_post_record rt req c) as [-> | (d & -> & Hd)]; [done|].
    cbn [docs]. apply Forall_app. split; [done|]. by constructor.
  - unfold App.put_employee.
    pose proof (findByIdAndUpdate_spec rt App.employeeSchema (params_id req)
                  (App.updates req) c) as Hs.
    destruct (findByIdAndUpdate rt _ _ _ c) as [[[[j d']|] c']|]; cbn [snd].
    + destruct Hs as (d & set & _ & Hd & Hset & -> & ->). cbn [docs].
      apply Forall_replace_id; [done|]. eapply App_put_record; [done|].
      apply lookup_id_Some_elem in Hd.
      by apply (proj1 (Forall_forall _ _) Hc _ Hd).
    + by destruct Hs as [-> _].
    + done.
  - unfold App.delete_employee.
    pose proof (findByIdAndDelete_spec rt (params_id req) c) as Hs.
    destruct (findByIdAndDelete rt _ c) as [[[[j d']|] c']|]; cbn [snd].
    + destruct Hs as [_ ->]. by apply Forall_remove_id.
    + by subst.
    + done.
Qed.

Lemma App_run_inline rt l c :
  Forall (λ e, inline_image e.2) (docs c) →
  Forall (λ e, inline_image e.2) (docs (App_run rt l c)).
Proof.
  revert c. induction l as [|[r req] l IH]; intros c Hc; [done|].
  cbn [App_run]. by apply IH, App_handle_inline.
Qed.


Lemma image_resolves_mono (u u' : Server.uploads) (d : document) :
  (∀ fn, is_Some (u !! fn) → is_Some (u' !! fn)) →
  image_resolves u d → image_resolves u' d.
Proof.
  intros Hmono [H | (fn & H & Hfn)]; [by left|].
  right. exists fn. split; [done | by apply Hmono].
Qed.

Lemma Server_upload_mono now (req : request) (u u' : Server.uploads) file :
  Server.upload_single now req u = Return (file, u') →
  ∀ fn, is_Some (u !! fn) → is_Some (u' !! fn).
Proof.
  intros Hup fn Hfn. pose proof (Server_upload_result now req u) as Hres.
  rewrite Hup in Hres. destruct file as [f|].
  - destruct Hres as (p & _ & _ & ->). rewrite lookup_insert.
    case_decide; by eauto.
  - by destruct Hres as [-> _].
Qed.

Lemma Server_upload_file now (req : request) (u u' : Server.uploads) f :
  Server.upload_single now req u = Return (Some f, u') →
  is_Some (u' !! Server.filename f).
Proof.
  intros Hup. pose proof (Server_upload_result now req u) as Hres.
  rewrite Hup in Hres. destruct Hres as (p & _ & -> & ->).
  rewrite lookup_insert_eq. by eauto.
Qed.

Lemma Server_handle_resolves rt now r (req : request) (c : collection)
    (u : Server.uploads) :
  Forall (λ e, image_resolves u e.2) (docs c) →
  Forall (λ e, image_resolves (Server_handle rt now r req c u).2 e.2)
         (docs (Server_handle rt now r req c u).1.2).
Proof.
  intros Hc. destruct r; cbn [Server_handle fst snd]; try done.
  - unfold Server.post_employees.
    destruct (Server.upload_single now req u) as [[file u']|] eqn:Hup; [|done].
    assert (Forall (λ e, image_resolves u' e.2) (docs c)) as Hc'.
    { eapply Forall_impl; [done|]. intros e.
      by apply image_resolves_mono, (Server_upload_mono now req u u' file). }
    destruct (save rt _ _ c) as [[saved c']|] eqn:Hsave; [|done].
    apply (save_spec rt _ _ _ _ _ Server_schema_NoDup) in Hsave
      as (d & -> & -> & Hpath).
    cbn [fst snd docs]. apply Forall_app. split; [done|].
    constructor; [|done]. cbn [snd]. unfold image_resolves.
    rewrite (Hpath _ _ Server_in_schema_image). map_lookup.
    destruct file as [f|]; [|by left].
    right. exists (Server.filename f). split; [done|].
    by eapply Server_upload_file.
  - unfold Server.put_employee.
    destruct (Server.upload_single now req u) as [[file u']|] eqn:Hup; [|done].
    assert (Forall (λ e, image_resolves u' e.2) (docs c)) as Hc'.
    { eapply Forall_impl; [done|]. intros e.
      by apply image_resolves_mono, (Server_upload_mono now req u u' file). }
    pose proof (findByIdAndUpdate_spec rt Server.employeeSchema (params_id req)
                  (Server.updatedData file req) c) as Hs.
    destruct (findByIdAndUpdate rt _ _ _ c) as [[[[j d']|] c']|];
      cbn [fst snd]; [| by destruct Hs as [-> _] | done].
    destruct Hs as (d & set & _ & Hd & Hset & -> & ->). cbn [docs].
    apply Forall_replace_id; [done|].
    pose proof (castUpdate_path rt _ _ _ _ _ Server_schema_NoDup
                  Server_in_schema_image Hset) as Hi.
    unfold image_resolves. destruct file as [f|].
    + right. exists (Server.filename f). split; [|by eapply Server_upload_file].
      apply lookup_union_Some_l. rewrite Hi.
      unfold Server.updatedData. cbn [truthy truthy_str append]. by map_lookup.
    + rewrite lookup_union_r.
      * apply lookup_id_Some_elem in Hd.
        by apply (proj1 (Forall_forall _ _) Hc' _ Hd).
      * rewrite Hi. unfold Server.updatedData. cbn [truthy]. by map_lookup.
  - unfold Server.delete_employee.
    pose proof (findByIdAndDelete_spec rt (params_id req) c) as Hs.
    destruct (findByIdAndDelete rt _ c) as [[[[j d']|] c']|]; cbn [snd].
    + destruct Hs as [_ ->]. by apply Forall_remove_id.
    + by subst.
    + done.
Qed.

Lemma Server_run_resolves rt l c u :
  Forall (λ e, image_resolves u e.2) (docs c) →
  Forall (λ e, image_resolves (Server_run rt l c u).2 e.2)
         (docs (Server_run rt l c u).1).
Proof.
  revert c u. induction l as [|[[now r] req] l IH]; intros c u Hc; [done|].
  cbn [Server_run].
  pose proof (Server_handle_resolves rt now r req c u Hc) as Hstep.
  destruct (Server_handle rt now r req c u) as [[resp c'] u'].
  by apply IH.
Qed.

(** X25. In every state that requests to [server.js] reach from the
    empty collection and the empty directory, each record holds [null] or
    a locator under which the uploads directory serves a file. *)
Theorem stored_locators_resolve rt (l : list (Z * route * request))
    (i : N) (d : document) :
  let e := Server_run rt l empty_collection ∅ in
  (i, d) ∈ docs e.1 →
  d !! "image" = Some VNull
  ∨ ∃ loc, d !! "image" = Some (VStr loc)
           ∧ is_Some (Server.static_uploads e.2 loc).
Proof.
  cbn zeta. intros Hin.
  pose proof (Server_run_resolves rt l empty_collection ∅ (Forall_nil_2 _)) as Hall.
  destruct (proj1 (Forall_forall _ _) Hall _ Hin) as [H | (fn & H & Hfn)];
    [by left|].
  right. exists ("/uploads/" +:+ fn). split; [done|].
  by rewrite static_uploads_locator.
Qed.

(** ** The refusals of [app.js]'s create handler *)

Lemma contentType_nonempty (m : string) :
  (if truthy_str m then m else "application/octet-stream") ≠ "".
Proof.
  unfold truthy_str. destruct (String.eqb_spec m "") as [->|Hne]; cbn; done.
Qed.

(** X3. The refusals of the create handler of [app.js], in the order
    the handler tests them: without a file, "Image file is required.";
    with a file and a field of the form missing or empty, "All fields are
    required."; with all fields and a [dob] that does not parse, "Invalid
    date format."; with a valid form and an empty file, the validation
    error of the schema, which names [image].  Each answers 400 and
    stores nothing. *)
Theorem App_create_refusals rt (req : request) (c : collection) :
  (image req = None →
   App.post_employees rt req c =
     ({| status := 400; json := Message "Image file is required." None |}, c))
  ∧ (∀ p k, image req = Some p → k ∈ form_fields → ¬ filled req k →
     App.post_employees rt req c =
       ({| status := 400; json := Message "All fields are required." None |},
        c))
  ∧ (∀ p dob, image req = Some p →
     (∀ k, k ∈ form_fields → filled req k) →
     body req !! "dob" = Some dob → Date_parse rt dob = None →
     App.post_employees rt req c =
       ({| status := 400; json := Message "Invalid date format." None |}, c))
  ∧ (∀ p dob t, image req = Some p →
     (∀ k, k ∈ form_fields → filled req k) →
     body req !! "dob" = Some dob → Date_parse rt dob = Some t →
     part_data p = [] →
     App.post_employees rt req c =
       ({| status := 400;
           json := Message "Error creating Employee"
                           (Some (ValidationError ["image"])) |}, c)).
Proof.
  assert (∀ p, image req = Some p →
            (∀ k, k ∈ form_fields → filled req k) →
            ∃ t n g a dob,
              body req !! "title" = Some t ∧ body req !! "name" = Some n
              ∧ body req !! "designation" = Some g
              ∧ body req !! "address" = Some a
              ∧ body req !! "dob" = Some dob
              ∧ t ≠ "" ∧ n ≠ "" ∧ g ≠ "" ∧ a ≠ "" ∧ dob ≠ "") as Hfilled.
  { intros p _ Hall.
    destruct (Hall "title") as (t & ? & ?); [apply list_elem_of_In; cbn; auto 10|].
    destruct (Hall "name") as (n & ? & ?); [apply list_elem_of_In; cbn; auto 10|].
    destruct (Hall "designation") as (g & ? & ?);
      [apply list_elem_of_In; cbn; auto 10|].
    destruct (Hall "address") as (a & ? & ?);
      [apply list_elem_of_In; cbn; auto 10|].
    destruct (Hall "dob") as (dob & ? & ?);
      [apply list_elem_of_In; cbn; auto 10|].
    by exists t, n, g, a, dob. }
  split; [|split; [|split]].
  - intros Himg. unfold App.post_employees, App.upload_single. by rewrite Himg.
  - intros p k Himg Hk Hnf.
    apply (App_post_missing_field rt req c p k Himg Hk).
    by destruct (filled_dec req k).
  - intros p dob Himg Hall Hdob Hparse.
    destruct (Hfilled p Himg Hall)
      as (t & n & g & a & dob' & Ht & Hn & Hg & Ha & Hdob' & ? & ? & ? & ? & ?).
    assert (dob' = dob) as -> by congruence.
    unfold App.post_employees, App.upload_single, prop.
    rewrite Himg, Ht, Hn, Hg, Ha, Hdob.
    cbn [fmap option_fmap option_map truthy].
    rewrite !truthy_str_true by done. cbn [negb orb App.Date_new].
    by rewrite Hparse.
  - intros p dob tv Himg Hall Hdob Hparse Hdata.
    destruct (Hfilled p Himg Hall)
      as (t & n & g & a & dob' & Ht & Hn & Hg & Ha & Hdob' & ? & ? & ? & ? & ?).
    assert (dob' = dob) as -> by congruence.
    unfold App.post_employees, App.upload_single, prop.
    rewrite Himg, Ht, Hn, Hg, Ha, Hdob.
    cbn [fmap option_fmap option_map truthy App.buffer App.mimetype].
    rewrite !truthy_str_true by done. cbn [negb orb App.Date_new].
    rewrite Hparse, Hdata.
    pose proof (contentType_nonempty (part_type p)) as Hct.
    unfold save, App.employeeSchema. cbn [hydrate]. map_lookup.
    cbn [cast castString castBuffer castDate type].
    unfold missing. cbn [omap list_omap required type]. map_lookup.
    cbn [checkRequired].
    rewrite (truthy_str_true t), (truthy_str_true n), (truthy_str_true g),
      (truthy_str_true a), (truthy_str_true _ Hct) by done.
    done.
Qed.

(** ** Repeating and reading back an update *)

Lemma replace_id_idemp i d' l :
  replace_id i d' (replace_id i d' l) = replace_id i d' l.
Proof.
  induction l as [|[j d] l IH]; cbn [replace_id]; [done|].
  destruct (N.eqb i j) eqn:E; cbn [replace_id]; rewrite E; [done|].
  by rewrite IH.
Qed.

Lemma findByIdAndUpdate_idemp rt (sch : Schema) (id : string)
    (obj : gmap string jsval) (c c' : collection) r :
  findByIdAndUpdate rt sch id obj c = Return (r, c') →
  findByIdAndUpdate rt sch id obj c' = Return (r, c').
Proof.
  unfold findByIdAndUpdate.
  destruct (castObjectId rt id) as [i|]; [|done].
  destruct (castUpdate rt sch obj) as [set|]; [|done].
  cbn [mbind completion_bind].
  destruct (castUpdateVersion rt obj) as [[]|]; [|done].
  cbn [mbind completion_bind].
  destruct (castUpdateId rt obj) as [newId|]; [|done].
  cbn [mbind completion_bind].
  destruct (lookup_id i (docs c)) as [d|] eqn:Hd.
  - case_bool_decide as Hnew; [|done]. intros [= <- <-]. cbn [docs next_id].
    rewrite (lookup_id_replace_eq i d _ _ Hd).
    by rewrite (assoc_L (∪)), (idemp_L (∪)), replace_id_idemp.
  - intros [= <- <-]. by rewrite Hd.
Qed.


Lemma castUpdate_text_App rt (req : request) (set : document) k s :
  k ∈ text_fields → body req !! k = Some s →
  castUpdate rt App.employeeSchema (App.updates req) = Return set →
  set !! k = Some (VStr s).
Proof.
  intros Hk Hs Hset.
  assert ((k, {| type := TString; required := true |}) ∈ App.employeeSchema
          ∧ k ≠ "image" ∧ k ≠ "contentType") as (Hin & Hni & Hnc).
  { unfold text_fields in Hk.
    repeat (apply elem_of_cons in Hk as [-> | Hk]);
      [(split; [apply list_elem_of_In; cbn; auto 10 | done]) ..|].
    by apply elem_of_nil in Hk. }
  rewrite (castUpdate_path rt _ _ _ _ _ App_schema_NoDup Hin Hset).
  assert (App.updates req !! k = Some (VStr s)) as ->; [|done].
  unfold App.updates. destruct (App.upload_single req).
  - rewrite !lookup_insert_ne by done. by rewrite lookup_fmap, Hs.
  - by rewrite lookup_fmap, Hs.
Qed.

Lemma castUpdate_text_Server rt file (req : request) (set : document) k s :
  k ∈ text_fields → body req !! k = Some s →
  castUpdate rt Server.employeeSchema (Server.updatedData file req)
    = Return set →
  set !! k = Some (VStr s).
Proof.
  intros Hk Hs Hset.
  assert ((k, {| type := TString; required := true |}) ∈ Server.employeeSchema)
    as Hin.
  { unfold text_fields in Hk.
    repeat (apply elem_of_cons in Hk as [-> | Hk]);
      [apply list_elem_of_In; cbn; auto 10 ..|].
    by apply elem_of_nil in Hk. }
  rewrite (castUpdate_path rt _ _ _ _ _ Server_schema_NoDup Hin Hset).
  assert (Server.updatedData file req !! k = Some (VStr s)) as ->; [|done].
  unfold Server.updatedData, text_fields, prop in *.
  repeat (apply elem_of_cons in Hk as [-> | Hk]);
    [rewrite Hs; by map_lookup ..|].
  by apply elem_of_nil in Hk.
Qed.


(** ** The uploads directory over a sequence of requests *)

Lemma Server_handle_uploads rt now r (req : request) (c : collection)
    (u : Server.uploads) :
  (Server_handle rt now r req c u).2 = u
  ∨ ∃ p, image req = Some p
         ∧ (Server_handle rt now r req c u).2
           = <[Server.storage_filename now p := part_data p]> u.
Proof.
  pose proof (Server_upload_result now req u) as Hres.
  destruct r; cbn [Server_handle snd]; try by left.
  - rewrite Server_post_uploads.
    destruct (Server.upload_single now req u) as [[[f|] u']|]; [| |by left].
    + destruct Hres as (p & Himg & _ & ->). right. by exists p.
    + destruct Hres as [-> _]. by left.
  - rewrite Server_put_uploads.
    destruct (Server.upload_single now req u) as [[[f|] u']|]; [| |by left].
    + destruct Hres as (p & Himg & _ & ->). right. by exists p.
    + destruct Hres as [-> _]. by left.
Qed.

(** X5. No sequence of requests to [server.js] removes a file from the
    uploads directory (deleting a record leaves its file); a file keeps
    its content unless a later upload is stored under the same name. *)
Theorem uploads_are_never_removed rt (l : list (Z * route * request))
    (c : collection) (u : Server.uploads) (fn : string) (b : list byte) :
  u !! fn = Some b →
  is_Some ((Server_run rt l c u).2 !! fn)
  ∧ ((∀ now r req p, (now, r, req) ∈ l → image req = Some p →
                     fn ≠ Server.storage_filename now p) →
     (Server_run rt l c u).2 !! fn = Some b).
Proof.
  revert c u b. induction l as [|[[now r] req] l IH]; intros c u b Hfn.
  { cbn. by eauto. }
  cbn [Server_run].
  pose proof (Server_handle_uploads rt now r req c u) as Hu.
  destruct (Server_handle rt now r req c u) as [[resp c'] u']. cbn [snd] in Hu.
  destruct Hu as [-> | (p & Himg & ->)].
  - destruct (IH c' u b Hfn) as [H1 H2]. split; [done|].
    intros Hne. apply H2. intros now' r' req' p' Hin Himg'.
    apply (Hne now' r' req' p'); [by right | done].
  - destruct (decide (Server.storage_filename now p = fn)) as [<-|Hne'].
    + destruct (IH c' (<[Server.storage_filename now p := part_data p]> u)
                  (part_data p)) as [H1 _]; [by rewrite lookup_insert_eq|].
      split; [done|]. intros Hne. exfalso.
      apply (Hne now r req p); [by left | done | done].
    + destruct (IH c' (<[Server.storage_filename now p := part_data p]> u) b)
        as [H1 H2]; [by rewrite lookup_insert_ne|].
      split; [done|]. intros Hne. apply H2.
      intros now' r' req' p' Hin Himg'.
      apply (Hne now' r' req' p'); [by right | done].
Qed.


(** ** The further properties at concrete inputs *)

(** Ada's form is created in the empty collection: it has all it takes. *)
Lemma App_create_succeeds_iff_witness :
  (∃ p, image ada = Some p ∧ part_data p ≠ [])
  ∧ (∀ k, k ∈ "dob" :: text_fields → filled ada k)
  ∧ (∃ dob t, body ada !! "dob" = Some dob ∧ Date_parse rt0 dob = Some t).
Proof.
  apply (proj1 (proj1 (App_create_succeeds_iff rt0 ada empty_collection))).
  vm_compute. reflexivity.
Defined.

Lemma Server_create_succeeds_iff_witness :
  upload_ok ada
  ∧ (∀ k, k ∈ text_fields → filled ada k)
  ∧ (∃ dob t, body ada !! "dob" = Some dob
              ∧ castDate rt0 (VStr dob) = Some (VDate t)).
Proof.
  apply (proj1 (proj1 (Server_create_succeeds_iff rt0 1700000000000 ada
                         empty_collection ∅))).
  vm_compute. reflexivity.
Defined.

(** Ada's form with an empty file. *)
Lemma App_create_refusals_witness :
  image (with_image (Some empty_png) ada) = Some empty_png
  ∧ body (with_image (Some empty_png) ada) !! "dob" = Some "1990-01-01"
  ∧ Date_parse rt0 "1990-01-01" = Some (MakeDay 1990 1 1 * msPerDay)
  ∧ part_data empty_png = []
  ∧ App.post_employees rt0 (with_image (Some empty_png) ada) staff_inline =
      ({| status := 400;
          json := Message "Error creating Employee"
                          (Some (ValidationError ["image"])) |}, staff_inline).
Proof.
  split; [reflexivity|]. split; [reflexivity|]. split; [reflexivity|].
  split; [reflexivity|].
  apply (proj2 (proj2 (proj2 (App_create_refusals rt0
                                (with_image (Some empty_png) ada)
                                staff_inline)))
           empty_png "1990-01-01" (MakeDay 1990 1 1 * msPerDay));
    try reflexivity.
  intros k Hk. unfold form_fields in Hk.
  repeat (apply elem_of_cons in Hk as [-> | Hk]);
    [(eexists; split; [reflexivity | discriminate]) ..|].
  by apply elem_of_nil in Hk.
Defined.

(** Ada's form without a name, sent with her picture. *)
Lemma rejected_form_keeps_file_witness :
  image (with_field "name" None ada) = Some png
  ∧ String.prefix "image/" (part_type png) = true
  ∧ status (Server.post_employees rt0 1700000000000
              (with_field "name" None ada) empty_collection ∅).1.1 = 500
  ∧ Server.static_uploads
      (Server.post_employees rt0 1700000000000
         (with_field "name" None ada) empty_collection ∅).2
      "/uploads/1700000000000-ada.png" = Some (part_data png).
Proof.
  split; [reflexivity|]. split; [reflexivity|].
  destruct (rejected_form_keeps_file rt0 1700000000000
              (with_field "name" None ada) empty_collection ∅ png
              eq_refl eq_refl) as (H500 & _ & _ & Hfile).
  - intros [Hall _].
    destruct (Hall "name") as (s & Hs & _);
      [apply list_elem_of_In; cbn; auto 10 | discriminate Hs].
  - split; [exact H500 | exact Hfile].
Defined.

(** Ada's record is deleted; her picture stays. *)
Lemma uploads_are_never_removed_witness :
  files_ada !! "1700000000000-ada.png" = Some (part_data png)
  ∧ (Server_run rt0 [(1700000000005, DeleteEmployee, by_id "0" ada)]
       (Server.post_employees rt0 1700000000000 ada empty_collection ∅).1.2
       files_ada).2 !! "1700000000000-ada.png" = Some (part_data png).
Proof.
  split; [reflexivity|].
  apply (uploads_are_never_removed rt0
           [(1700000000005, DeleteEmployee, by_id "0" ada)]
           (Server.post_employees rt0 1700000000000 ada empty_collection ∅).1.2
           files_ada "1700000000000-ada.png" (part_data png) eq_refl).
  intros now r req p Hin Himg.
  apply list_elem_of_singleton in Hin. injection Hin as -> -> ->.
  injection Himg as <-. discriminate.
Defined.

Lemma storage_filename_inj_witness :
  0 ≤ 1700000000000
  ∧ Server.storage_filename 1700000000000 png
    = Server.storage_filename 1700000000000 png
  ∧ part_filename png = part_filename png.
Proof.
  split; [lia|]. split; [reflexivity|].
  apply (storage_filename_inj 1700000000000 1700000000000 png png);
    [lia | lia | reflexivity].
Defined.

(** Grace gets a new picture. *)
Lemma App_update_replaces_image_witness :
  image new_photo = Some jpg
  ∧ status (App.put_employee rt0 new_photo staff_inline).1 = 200
  ∧ ∃ i d',
      json (App.put_employee rt0 new_photo staff_inline).1 = Doc (i, d')
      ∧ d' !! "image" = Some (VBuf (part_data jpg))
      ∧ d' !! "contentType" = Some (VStr "image/jpeg").
Proof.
  split; [reflexivity|]. split; [reflexivity|].
  destruct (App_update_replaces_image rt0 new_photo staff_inline jpg
              eq_refl eq_refl) as (i & d' & Hjson & _ & Himg & Hct & _).
  exists i, d'. split; [exact Hjson|]. split; [exact Himg | exact Hct].
Defined.

Lemma Server_update_replaces_image_witness :
  image new_photo = Some jpg
  ∧ status (Server.put_employee rt0 1700000000009 new_photo
              staff_external ∅).1.1 = 200
  ∧ ∃ i d',
      json (Server.put_employee rt0 1700000000009 new_photo
              staff_external ∅).1.1 = Doc (i, d')
      ∧ d' !! "image" = Some (VStr "/uploads/1700000000009-grace.jpg")
      ∧ Server.static_uploads
          (Server.put_employee rt0 1700000000009 new_photo
             staff_external ∅).2
          "/uploads/1700000000009-grace.jpg" = Some (part_data jpg).
Proof.
  split; [reflexivity|]. split; [reflexivity|].
  destruct (Server_update_replaces_image rt0 1700000000009 new_photo
              staff_external ∅ jpg eq_refl eq_refl)
    as (i & d' & Hjson & _ & Himg & Hfile & _).
  exists i, d'. split; [exact Hjson|]. split; [exact Himg | exact Hfile].
Defined.

(** Grace's picture, overwritten by a text field. *)
Lemma App_update_image_from_text_witness :
  image image_as_text = None
  ∧ body image_as_text !! "image" = Some "hello"
  ∧ status (App.put_employee rt0 image_as_text staff_inline).1 = 200
  ∧ ∃ i d',
      json (App.put_employee rt0 image_as_text staff_inline).1 = Doc (i, d')
      ∧ d' !! "image" = Some (VBuf (list_byte_of_string "hello")).
Proof.
  split; [reflexivity|]. split; [reflexivity|]. split; [reflexivity|].
  destruct (App_update_image_from_text rt0 image_as_text staff_inline "hello"
              eq_refl eq_refl eq_refl) as (i & d' & Hjson & _ & Himg).
  exists i, d'. split; [exact Hjson | exact Himg].
Defined.

(** Grace's date of birth, cleared by an update. *)
Lemma update_skips_validation_witness :
  castObjectId rt0 (params_id clear_dob) = Some 1%N
  ∧ lookup_id 1 (docs staff_inline) = Some grace_record
  ∧ image clear_dob = None
  ∧ App.put_employee rt0 clear_dob staff_inline =
      ({| status := 200; json := Doc (1%N, <["dob" := VNull]> grace_record) |},
       {| next_id := next_id staff_inline;
          docs := replace_id 1 (<["dob" := VNull]> grace_record)
                    (docs staff_inline) |}).
Proof.
  assert (lookup_id 1 (docs staff_inline) = Some grace_record) as Hd
    by (vm_compute; reflexivity).
  split; [reflexivity|]. split; [exact Hd|]. split; [reflexivity|].
  destruct (update_skips_validation rt0 0 clear_dob staff_inline ∅ 1
              grace_record eq_refl Hd eq_refl) as [Hdob _].
  destruct (Hdob eq_refl) as [Happ _]. exact Happ.
Defined.

(** Grace moves, with a date of birth that is no date. *)
Lemma update_with_bad_dob_changes_nothing_witness :
  body (with_field "dob" (Some "soon") move_grace) !! "dob" = Some "soon"
  ∧ castDate rt0 (VStr "soon") = None
  ∧ (App.put_employee rt0 (with_field "dob" (Some "soon") move_grace)
       staff_inline).2 = staff_inline.
Proof.
  split; [reflexivity|]. split; [reflexivity|].
  destruct (update_with_bad_dob_changes_nothing rt0 0
              (with_field "dob" (Some "soon") move_grace) staff_inline ∅
              "soon" eq_refl eq_refl) as [[_ Hsame] _].
  exact Hsame.
Defined.

Lemma update_keeps_ids_witness :
  (docs (App.put_employee rt0 move_grace staff_inline).2).*1
  = (docs staff_inline).*1.
Proof.
  destruct (update_keeps_ids rt0 0 move_grace staff_inline ∅) as [[H _] _].
  exact H.
Defined.



(** Nobody has the identifier 7. *)
Lemma absent_id_changes_nothing_witness :
  castObjectId rt0 (params_id (by_id "7" ada)) = Some 7%N
  ∧ lookup_id 7 (docs staff_inline) = None
  ∧ status (App.get_employee rt0 (by_id "7" ada) staff_inline) = 404
  ∧ (App.delete_employee rt0 (by_id "7" ada) staff_inline).2 = staff_inline.
Proof.
  assert (lookup_id 7 (docs staff_inline) = None) as Hd
    by (vm_compute; reflexivity).
  split; [reflexivity|]. split; [exact Hd|].
  destruct (absent_id_changes_nothing rt0 0 (by_id "7" ada) staff_inline ∅ 7
              eq_refl Hd) as (Hget & _ & _ & _ & [_ Hdel] & _).
  split; [exact Hget | exact Hdel].
Defined.

(** An identifier that is no number. *)
Lemma malformed_id_is_a_server_error_witness :
  castObjectId rt0 (params_id (by_id "xyz" ada)) = None
  ∧ App.get_employee rt0 (by_id "xyz" ada) staff_inline =
      {| status := 500;
         json := Message "Error fetching employee" (Some (CastError "_id")) |}.
Proof.
  split; [reflexivity|].
  destruct (malformed_id_is_a_server_error rt0 0 (by_id "xyz" ada)
              staff_inline ∅ eq_refl) as [Hget _].
  exact Hget.
Defined.

(** Grace is deleted: Ada and Alan stay. *)
Lemma delete_removes_exactly_one_witness :
  wf staff_inline
  ∧ castObjectId rt0 (params_id (by_id "1" ada)) = Some 1%N
  ∧ lookup_id 1 (docs staff_inline) = Some grace_record
  ∧ docs (App.delete_employee rt0 (by_id "1" ada) staff_inline).2
    = filter (λ e, e.1 ≠ 1%N) (docs staff_inline).
Proof.
  assert (wf staff_inline) as Hwf by (apply wfb_wf; vm_compute; reflexivity).
  assert (lookup_id 1 (docs staff_inline) = Some grace_record) as Hd
    by (vm_compute; reflexivity).
  split; [exact Hwf|]. split; [reflexivity|]. split; [exact Hd|].
  destruct (delete_removes_exactly_one rt0 (by_id "1" ada) staff_inline 1
              grace_record Hwf eq_refl Hd) as [[Hdocs _] _].
  exact Hdocs.
Defined.

(** Ada is created in the empty collection and deleted. *)
Lemma create_then_delete_witness :
  wf empty_collection
  ∧ castObjectId rt0 (params_id (by_id "0" ada)) = Some (next_id empty_collection)
  ∧ status (App.post_employees rt0 ada empty_collection).1 = 201
  ∧ docs (App.delete_employee rt0 (by_id "0" ada)
            (App.post_employees rt0 ada empty_collection).2).2
    = docs empty_collection.
Proof.
  split; [exact wf_empty|]. split; [reflexivity|]. split; [reflexivity|].
  destruct (create_then_delete rt0 0 ada (by_id "0" ada) empty_collection ∅
              wf_empty eq_refl) as [Happ _].
  destruct (Happ eq_refl) as [_ Hdocs]. exact Hdocs.
Defined.

(** The listing without parameters. *)
Lemma listing_defaults_witness :
  query ada !! "page" = None ∧ query ada !! "limit" = None
  ∧ employees_of (Server.get_employees rt0 ada staff_external)
    = take 10 (docs staff_external).
Proof.
  split; [reflexivity|]. split; [reflexivity|].
  destruct (listing_defaults rt0 ada staff_external None None) as [_ H];
    [discriminate | discriminate | reflexivity | reflexivity |].
  exact (H eq_refl eq_refl).
Defined.

(** [limit=0] on three records. *)
Lemma Server_limit_zero_lists_all_witness :
  query limit_zero !! "page" = None
  ∧ query limit_zero !! "limit" = Some "0"
  ∧ Server.get_employees rt0 limit_zero staff_external =
      {| status := 200;
         json := Page 3 (Inf false) (Int 1) (docs staff_external) |}
  ∧ JSON_number (Inf false) = None.
Proof.
  split; [reflexivity|]. split; [reflexivity|].
  pose proof (Server_limit_zero_lists_all rt0 limit_zero staff_external None)
    as H. cbv zeta in H.
  destruct H as [Hrun Hjson]; [discriminate | reflexivity | reflexivity |].
  split; [exact Hrun | exact Hjson].
Defined.

(** Page 0, two to a page. *)
Lemma page_below_one_is_a_server_error_witness :
  StringToNumber rt0 "0" = Int 0 ∧ StringToNumber rt0 "2" = Int 2
  ∧ 0 < 1 ∧ 1 ≤ 2
  ∧ Server.get_employees rt0 (page_request 0 2) staff_external =
      {| status := 500;
         json := Message "Error fetching employees"
                         (Some (MongoServerError "skip")) |}.
Proof.
  split; [reflexivity|]. split; [reflexivity|]. split; [lia|]. split; [lia|].
  apply (page_below_one_is_a_server_error rt0 (page_request 0 2)
           staff_external "0" "2" 0 2);
    [reflexivity | reflexivity | reflexivity | reflexivity | lia | lia].
Defined.


(** Ada's identifier is not given to Grace. *)
Lemma ids_are_never_reused_witness :
  (0 < next_id (App_run rt0 post_and_delete empty_collection))%N
  ∧ (0%N ∉ ids (App_run rt0 post_and_delete empty_collection))
  ∧ (0%N ∉ ids (App_run rt0 [(PostEmployees, grace)]
                  (App_run rt0 post_and_delete empty_collection))).
Proof.
  assert (0 < next_id (App_run rt0 post_and_delete empty_collection))%N
    as Hlt by (vm_compute; reflexivity).
  assert (0%N ∉ ids (App_run rt0 post_and_delete empty_collection)) as Hout.
  { intros Hin. apply list_elem_of_In in Hin. vm_compute in Hin. exact Hin. }
  split; [exact Hlt|]. split; [exact Hout|].
  destruct (ids_are_never_reused rt0 post_and_delete [(PostEmployees, grace)]
              [] [] 0) as [[_ H] _].
  exact (H Hlt Hout).
Defined.


(** Ada's record after her creation through [server.js]. *)
Lemma stored_locators_resolve_witness :
  lookup_id 0 (docs (Server_run rt0 [(1700000000000, PostEmployees, ada)]
                       empty_collection ∅).1)
  = Some (external_record "Mr" "Ada" "Engineer" "1 Main St"
            (MakeDay 1990 1 1 * msPerDay)
            (VStr "/uploads/1700000000000-ada.png"))
  ∧ ∃ loc,
      external_record "Mr" "Ada" "Engineer" "1 Main St"
        (MakeDay 1990 1 1 * msPerDay)
        (VStr "/uploads/1700000000000-ada.png") !! "image" = Some (VStr loc)
      ∧ is_Some (Server.static_uploads
                   (Server_run rt0 [(1700000000000, PostEmployees, ada)]
                      empty_collection ∅).2 loc).
Proof.
  assert (lookup_id 0 (docs (Server_run rt0
                               [(1700000000000, PostEmployees, ada)]
                               empty_collection ∅).1)
          = Some (external_record "Mr" "Ada" "Engineer" "1 Main St"
                    (MakeDay 1990 1 1 * msPerDay)
                    (VStr "/uploads/1700000000000-ada.png"))) as Hd
    by (vm_compute; reflexivity).
  split; [exact Hd|].
  destruct (stored_locators_resolve rt0 [(1700000000000, PostEmployees, ada)]
              0 _ (lookup_id_Some_elem _ _ _ Hd)) as [Hnull | Hloc].
  - discriminate Hnull.
  - exact Hloc.
Defined.
